(** * Sherlock: username probing across social networks

    A shallow embedding of [sherlock/sherlock.py]: the request dispatch loop,
    [get_response], and the classification loop of the function [sherlock],
    together with the properties of the run they establish.

    Python dictionaries whose iteration order is observable are association
    lists with Python's insertion semantics; effects (requests handed to the
    session, Tor identity resets, console lines) are collected in a trace;
    Python exceptions are an explicit error result. *)

From Stdlib Require Import String Ascii List ZArith QArith Bool Lia.
From Stdlib Require Import Permutation Sorted DecimalString.
Import ListNotations.

Close Scope Q_scope.
Local Open Scope string_scope.
Local Open Scope list_scope.

(* ================================================================== *)
(** ** Python strings *)

(** [needle in hay] for two [str] values: [needle] occurs in [hay]. *)
Fixpoint str_in (needle hay : string) : bool :=
  if String.prefix needle hay then true
  else match hay with
       | EmptyString => false
       | String _ rest => str_in needle rest
       end.

(** Truth value of a [str]: only the empty string is falsy. *)
Definition str_truthy (s : string) : bool :=
  match s with EmptyString => false | String _ _ => true end.

(* ================================================================== *)
(** ** Python dictionaries (insertion ordered) *)

Definition dict (V : Type) : Type := list (string * V).

Section Dict.
Context {V : Type}.

(** [d.get(k)] *)
Fixpoint dict_get (k : string) (d : dict V) : option V :=
  match d with
  | [] => None
  | (k', v) :: rest => if String.eqb k' k then Some v else dict_get k rest
  end.

(** [d[k] = v]: an existing key keeps its position, a new key goes last. *)
Fixpoint dict_set (k : string) (v : V) (d : dict V) : dict V :=
  match d with
  | [] => [(k, v)]
  | (k', v') :: rest =>
      if String.eqb k' k then (k', v) :: rest
      else (k', v') :: dict_set k v rest
  end.

(** [list(d.keys())] *)
Definition dict_keys (d : dict V) : list string := map fst d.

(** [d.update(extra)] *)
Definition dict_update (d extra : dict V) : dict V :=
  fold_left (fun acc kv => dict_set (fst kv) (snd kv) acc) extra d.
End Dict.

(** No string occurs twice: the keys of a Python dictionary. *)
Fixpoint distinct (l : list string) : bool :=
  match l with
  | [] => true
  | k :: rest => negb (existsb (String.eqb k) rest) && distinct rest
  end.

(* ================================================================== *)
(** ** Results of a query ([result.py]) *)

(** Modelled from the spec: [result.py] (the classes [QueryStatus] and
    [QueryResult]) is not among the sources.  The spec names four mutually
    exclusive verdicts; [sherlock.py] builds a result as
    [QueryResult(status)] or [QueryResult(status, error_text)], so the record
    holds the status and the one optional positional argument. *)
Inductive QueryStatus : Type := CLAIMED | AVAILABLE | UNKNOWN | ILLEGAL.

Record QueryResult : Type := mkQueryResult {
  status : QueryStatus;
  context : option string
}.

(** The Python values stored in a site's result dictionary. *)
Inductive pyval : Type :=
| PyNone
| PyStr (s : string)
| PyInt (z : Z)
| PyBytes (b : string)
| PyFloat (q : Q)
| PyResult (r : QueryResult).

Definition py_of_option (o : option string) : pyval :=
  match o with Some s => PyStr s | None => PyNone end.

(* ================================================================== *)
(** ** Requests, responses and exceptions *)

Inductive http_method : Type := HEAD | GET.

(** The keyword arguments of [session.head(...)] / [session.get(...)]. *)
Record request : Type := mkRequest {
  req_method : http_method;
  req_url : string;
  req_headers : dict string;
  req_proxies : option (dict string);
  req_allow_redirects : bool;
  req_timeout : option Q
}.

(** The attributes of a [requests.Response] that [sherlock] reads. *)
Record Response : Type := mkResponse {
  status_code : Z;
  text : string;
  encoding : option string;
  elapsed : Q
}.

(** Exception classes a future can raise: the hierarchy of
    [requests.exceptions], and [OtherException] for anything that is not a
    [RequestException]. *)
Inductive exn_class : Type :=
| RequestException | HTTPError | ConnectionError | ProxyError | SSLError
| Timeout | ConnectTimeout | ReadTimeout | TooManyRedirects | InvalidURL
| OtherException.

Definition exn_class_eqb (a b : exn_class) : bool :=
  match a, b with
  | RequestException, RequestException | HTTPError, HTTPError
  | ConnectionError, ConnectionError | ProxyError, ProxyError
  | SSLError, SSLError | Timeout, Timeout | ConnectTimeout, ConnectTimeout
  | ReadTimeout, ReadTimeout | TooManyRedirects, TooManyRedirects
  | InvalidURL, InvalidURL | OtherException, OtherException => true
  | _, _ => false
  end.

(** Method resolution order of each class, up to [RequestException]. *)
Definition mro (c : exn_class) : list exn_class :=
  match c with
  | RequestException => [RequestException]
  | HTTPError => [HTTPError; RequestException]
  | ConnectionError => [ConnectionError; RequestException]
  | ProxyError => [ProxyError; ConnectionError; RequestException]
  | SSLError => [SSLError; ConnectionError; RequestException]
  | Timeout => [Timeout; RequestException]
  | ConnectTimeout => [ConnectTimeout; ConnectionError; Timeout; RequestException]
  | ReadTimeout => [ReadTimeout; Timeout; RequestException]
  | TooManyRedirects => [TooManyRedirects; RequestException]
  | InvalidURL => [InvalidURL; RequestException]
  | OtherException => [OtherException]
  end.

Definition isinstance (c base : exn_class) : bool :=
  existsb (exn_class_eqb base) (mro c).

(** What [future.result()] does: return the response or raise. *)
Inductive outcome : Type :=
| Returned (r : Response)
| Raised (c : exn_class) (msg : string).

(** Exceptions that leave [sherlock]. *)
Inductive exn : Type :=
| KeyError (key : string)
| ValueError (msg : string)
| TypeError (msg : string)
| AttributeError (msg : string)
| ReError (msg : string)
| Uncaught (c : exn_class) (msg : string).

Inductive result (A : Type) : Type :=
| Ok (a : A)
| Err (e : exn).
Arguments Ok {A} a.
Arguments Err {A} e.

(* ================================================================== *)
(** ** The site catalogue *)

(** A pending request: the [Future] returned by [session.head] or
    [session.get].  It is identified by the keyword arguments of the call
    and, as a label that the program does not read, by the site for which
    it was submitted; a site is submitted at most once in a run. *)
Record future : Type := mkFuture {
  fut_site : string;
  fut_request : request
}.

(** One entry of [site_data]: the keys [sherlock] reads, each possibly
    absent, and the key [request_future] it writes. *)
Record site_info : Type := mkSiteInfo {
  urlMain : option string;
  url : option string;
  urlProbe : option string;
  errorType : option string;
  errorMsg : option string;
  headers : option (dict string);
  regexCheck : option string;
  request_future : option future
}.

Definition set_request_future (n : site_info) (f : future) : site_info :=
  {| urlMain := urlMain n; url := url n; urlProbe := urlProbe n;
     errorType := errorType n; errorMsg := errorMsg n; headers := headers n;
     regexCheck := regexCheck n; request_future := Some f |}.

(** The keyword arguments of [sherlock] besides [username] and [site_data]. *)
Record options : Type := mkOptions {
  verbose : bool;
  tor : bool;
  unique_tor : bool;
  proxy : option string;
  print_found_only : bool;
  timeout : option Q;
  color : bool;
  print_output : bool
}.

(* ================================================================== *)
(** ** Effects: a trace of events, and exceptions *)

(** The calls to the [print_*] helpers, with their arguments. *)
Inductive console_line : Type :=
| print_info (title info : string) (color : bool)
| print_invalid (social_network msg : string) (color : bool)
| print_found (social_network : string) (url response_time : pyval)
    (verbose color : bool)
| print_not_found (social_network : string) (response_time : pyval)
    (verbose color : bool)
| print_error (social_network : string) (err errstr : option string)
    (var : string) (verbose color : bool).

Inductive event : Type :=
| Submit (f : future)
| ResetIdentity
| Console (l : console_line).

(** A computation emits events and then returns or raises. *)
Definition M (A : Type) : Type := (list event * result A)%type.

Definition ret {A} (a : A) : M A := ([], Ok a).
Definition raise {A} (e : exn) : M A := ([], Err e).
Definition emit (ev : event) : M unit := ([ev], Ok tt).
Definition lift {A} (r : result A) : M A := ([], r).

Definition trace {A} (m : M A) : list event := fst m.
Definition value {A} (m : M A) : result A := snd m.

Definition bind {A B} (m : M A) (k : A -> M B) : M B :=
  match value m with
  | Ok a => (trace m ++ trace (k a), value (k a))
  | Err e => (trace m, Err e)
  end.

Declare Scope py_scope.
Delimit Scope py_scope with py.
Notation "x <- m ;; k" := (bind m (fun x => k))
  (at level 61, m at next level, right associativity) : py_scope.
Notation "' p <- m ;; k" := (bind m (fun x => match x with p => k end))
  (at level 61, p pattern, m at next level, right associativity) : py_scope.
Notation "m ;; k" := (bind m (fun _ => k))
  (at level 61, right associativity) : py_scope.
Local Open Scope py_scope.

Definition when (b : bool) (m : M unit) : M unit :=
  if b then m else ret tt.

(** [d[key]] on an optional key. *)
Definition getitem {A} (key : string) (o : option A) : M A :=
  match o with Some a => ret a | None => raise (KeyError key) end.

(* ================================================================== *)
(** ** Concrete library behaviour and catalogues for running the model *)

Module Demo.

(** [re.search] on patterns without metacharacters: the pattern is searched
    as a literal. *)
Definition re_search (pattern s : string) : result bool :=
  Ok (str_in pattern s).

(** [str.format] on templates whose only replacement fields are [{}]. *)
Fixpoint format (template username : string) : string :=
  match template with
  | String "{" (String "}" rest) => username ++ format rest username
  | String c rest => String c (format rest username)
  | EmptyString => EmptyString
  end.

Definition str_format (template username : string) : result string :=
  Ok (format template username).

(** [str.encode]: an ASCII text under a known codec; [None] as the codec
    raises [TypeError]. *)
Definition str_encode (text : string) (encoding : option string)
  : result string :=
  match encoding with
  | Some _ => Ok text
  | None => Err (TypeError "encode() argument 'encoding' must be str, not None")
  end.

Definition response (code : Z) (body : string) : Response :=
  {| status_code := code; text := body; encoding := Some "utf-8";
     elapsed := 1 # 4 |}.

(** A transport that answers every request alike. *)
Definition answers (code : Z) (body : string) (f : future) : outcome :=
  Returned (response code body).

(** A transport on which the requests of one site raise, and every other
    request is answered with status 200. *)
Definition fails_for (site : string) (c : exn_class) (msg : string)
    (f : future) : outcome :=
  if String.eqb (fut_site f) site then Raised c msg
  else Returned (response 200 "<html>profile</html>").

Definition site (url_template error_type : string) : site_info :=
  {| urlMain := Some "https://ex.com"; url := Some url_template;
     urlProbe := None; errorType := Some error_type; errorMsg := None;
     headers := None; regexCheck := None; request_future := None |}.

Definition with_error_msg (msg : string) (n : site_info) : site_info :=
  {| urlMain := urlMain n; url := url n; urlProbe := urlProbe n;
     errorType := errorType n; errorMsg := Some msg; headers := headers n;
     regexCheck := regexCheck n; request_future := request_future n |}.

Definition with_regex (pattern : string) (n : site_info) : site_info :=
  {| urlMain := urlMain n; url := url n; urlProbe := urlProbe n;
     errorType := errorType n; errorMsg := errorMsg n; headers := headers n;
     regexCheck := Some pattern; request_future := request_future n |}.

Definition quiet : options :=
  {| verbose := false; tor := false; unique_tor := false; proxy := None;
     print_found_only := false; timeout := None; color := false;
     print_output := false |}.

Definition example : dict site_info :=
  [("Example", site "https://ex.com/{}" "status_code")].

Definition forum : dict site_info :=
  [("Forum", with_error_msg "User not found"
               (site "https://forum.example/u/{}" "message"))].

Definition gallery : dict site_info :=
  [("Gallery", site "https://gallery.example/{}" "response_url")].

Definition three_sites : dict site_info :=
  [("Example", site "https://ex.com/{}" "status_code");
   ("Forum", with_error_msg "User not found"
               (site "https://forum.example/u/{}" "message"));
   ("Gallery", site "https://gallery.example/{}" "response_url")].

Definition picky : dict site_info :=
  [("Picky", with_regex "alice" (site "https://picky.example/{}" "message"));
   ("Example", site "https://ex.com/{}" "status_code")].


(** [str.lower] on ASCII text. *)
Definition lower_char (c : ascii) : ascii :=
  let n := nat_of_ascii c in
  if Nat.leb 65 n && Nat.leb n 90 then ascii_of_nat (n + 32) else c.

Fixpoint lower (s : string) : string :=
  match s with
  | EmptyString => EmptyString
  | String c rest => String (lower_char c) (lower rest)
  end.

Definition with_headers (extra : dict string) (n : site_info) : site_info :=
  {| urlMain := urlMain n; url := url n; urlProbe := urlProbe n;
     errorType := errorType n; errorMsg := errorMsg n; headers := Some extra;
     regexCheck := regexCheck n; request_future := request_future n |}.

Definition with_probe (probe_url : string) (n : site_info) : site_info :=
  {| urlMain := urlMain n; url := url n; urlProbe := Some probe_url;
     errorType := errorType n; errorMsg := errorMsg n; headers := headers n;
     regexCheck := regexCheck n; request_future := request_future n |}.

Definition without_url (n : site_info) : site_info :=
  {| urlMain := urlMain n; url := None; urlProbe := urlProbe n;
     errorType := errorType n; errorMsg := errorMsg n; headers := headers n;
     regexCheck := regexCheck n; request_future := request_future n |}.

Definition without_error_msg (n : site_info) : site_info :=
  {| urlMain := urlMain n; url := url n; urlProbe := urlProbe n;
     errorType := errorType n; errorMsg := None; headers := headers n;
     regexCheck := regexCheck n; request_future := request_future n |}.

Definition loud : options :=
  {| verbose := false; tor := false; unique_tor := false; proxy := None;
     print_found_only := false; timeout := None; color := false;
     print_output := true |}.

Definition api_site : site_info :=
  with_probe "https://api.example/users/{}"
    (with_headers [("Accept", "application/json")]
       (site "https://api.example/{}" "status_code")).

Definition api : dict site_info := [("Api", api_site)].

Definition incomplete : dict site_info :=
  [("Example", site "https://ex.com/{}" "status_code");
   ("NoUrl", without_url (site "" "status_code"))].

Definition mute : dict site_info :=
  [("Example", site "https://ex.com/{}" "status_code");
   ("Mute", without_error_msg (site "https://mute.example/{}" "message"))].

Definition blank : dict site_info :=
  [("Blank", with_error_msg "" (site "https://blank.example/{}" "message"))].

(** Descriptions reduced to their rank, for ranking. *)
Definition ranks : dict (option Z) :=
  [("Forum", Some 30%Z); ("Pranks", Some 900%Z); ("Example", None);
   ("Gallery", Some 7%Z)].

End Demo.

(* ================================================================== *)
(** ** The module [sherlock.py] *)

Section Sherlock.

(** Library calls [sherlock.py] relies on.  The last one is the network:
    what waiting for a future yields.  Nothing is assumed about it, so a
    statement proved below holds for every way the requests of a run may
    end, in whatever order they do. *)

(** [re.search(pattern, s)]: [Ok true] for a match object, [Ok false] for
    [None], an error for a pattern that does not compile. *)
Variable re_search : string -> string -> result bool.

(** [template.format(username)] *)
Variable str_format : string -> string -> result string.

(** [text.encode(encoding)] *)
Variable str_encode : string -> option string -> result string.

(** [future.result()] *)
Variable future_result : future -> outcome.

(** [get_response] (lines 156-184).  Its parameters [error_type],
    [social_network], [verbose] and [color] are not used by its body.  It
    returns [(response, error_context, expection_text)]; an exception that
    is not a [RequestException] is not caught. *)
Definition get_response (request_future : future)
  : M (option Response * option string * option string) :=
  match future_result request_future with
  | Returned response =>
      if (status_code response =? 0)%Z
      then ret (Some response, Some "General Unknown Error", None)
      else ret (Some response, None, None)
  | Raised c errmsg =>
      if isinstance c HTTPError then
        ret (None, Some "HTTP Error", Some errmsg)
      else if isinstance c ProxyError then
        ret (None, Some "Proxy Error", Some errmsg)
      else if isinstance c ConnectionError then
        ret (None, Some "Error Connecting", Some errmsg)
      else if isinstance c Timeout then
        ret (None, Some "Timeout Error", Some errmsg)
      else if isinstance c RequestException then
        ret (None, Some "Unknown Error", Some errmsg)
      else raise (Uncaught c errmsg)
  end.

Definition user_agent : string :=
  "Mozilla/5.0 (Macintosh; Intel Mac OS X 10.12; rv:55.0) Gecko/20100101 Firefox/55.0".

Definition illegal_msg : string := "Illegal Username Format For This Site!".

(** Body of the first [for] loop of [sherlock] (lines 251-330), up to the
    assignment to [results_total]: returns the site's entry of [site_data]
    (with the future stored in it when a request was made) and
    [results_site]. *)
Definition dispatch_site (username : string) (o : options)
    (social_network : string) (net_info : site_info)
  : M (site_info * dict pyval) :=
  let results_site := dict_set "url_main" (py_of_option (urlMain net_info)) [] in
  let headers :=
    match headers net_info with
    | Some extra => dict_update [("User-Agent", user_agent)] extra
    | None => [("User-Agent", user_agent)]
    end in
  let regex_check := regexCheck net_info in
  no_match <-
    match regex_check with
    | Some pattern =>
        if str_truthy pattern
        then found <- lift (re_search pattern username) ;; ret (negb found)
        else ret false
    | None => ret false
    end ;;
  if (no_match : bool) then
    when (print_output o && negb (print_found_only o))
      (emit (Console (print_invalid social_network illegal_msg (color o)))) ;;
    let results_site :=
      dict_set "status" (PyResult (mkQueryResult ILLEGAL None)) results_site in
    let results_site := dict_set "url_user" (PyStr "") results_site in
    let results_site := dict_set "http_status" (PyStr "") results_site in
    let results_site := dict_set "response_text" (PyStr "") results_site in
    let results_site := dict_set "response_time_s" (PyStr "") results_site in
    ret (net_info, results_site)
  else
    template <- getitem "url" (url net_info) ;;
    url <- lift (str_format template username) ;;
    let results_site := dict_set "url_user" (PyStr url) results_site in
    url_probe <-
      match urlProbe net_info with
      | None => ret url
      | Some probe => lift (str_format probe username)
      end ;;
    error_type <- getitem "errorType" (errorType net_info) ;;
    let request_method :=
      if String.eqb error_type "status_code" then HEAD else GET in
    let allow_redirects :=
      if String.eqb error_type "response_url" then false else true in
    let proxies :=
      match proxy o with
      | Some p => Some [("http", p); ("https", p)]
      | None => None
      end in
    let future :=
      mkFuture social_network
        (mkRequest request_method url_probe headers proxies allow_redirects
           (timeout o)) in
    emit (Submit future) ;;
    let net_info := set_request_future net_info future in
    when (unique_tor o) (emit ResetIdentity) ;;
    ret (net_info, results_site).

(** [x is not None] for the result of a [dict.get]. *)
Definition is_not_none (v : option pyval) : bool :=
  match v with
  | None | Some PyNone => false
  | Some _ => true
  end.

(** Attribute access on [r], which is [None] when the request raised. *)
Definition attr_of (r : option Response) (name : string) : M Response :=
  match r with
  | Some resp => ret resp
  | None =>
      raise (AttributeError
               ("'NoneType' object has no attribute '" ++ name ++ "'"))
  end.

(** The [if]/[elif] chain of the second loop that builds [result] (lines
    375-403).  In [not r.status_code >= 300 or r.status_code < 200] the
    [not] applies to the first comparison only. *)
Definition classify (social_network error_type : string)
    (net_info : site_info) (r : option Response) (error_text : option string)
  : M QueryResult :=
  match error_text with
  | Some category => ret (mkQueryResult UNKNOWN (Some category))
  | None =>
      if String.eqb error_type "message" then
        let error := errorMsg net_info in
        resp <- attr_of r "text" ;;
        match error with
        | None =>
            raise (TypeError
                     "'in <string>' requires string as left operand, not NoneType")
        | Some error =>
            if negb (str_in error (text resp))
            then ret (mkQueryResult CLAIMED None)
            else ret (mkQueryResult AVAILABLE None)
        end
      else if String.eqb error_type "status_code" then
        resp <- attr_of r "status_code" ;;
        if (negb (status_code resp >=? 300)%Z || (status_code resp <? 200)%Z)%bool
        then ret (mkQueryResult CLAIMED None)
        else ret (mkQueryResult AVAILABLE None)
      else if String.eqb error_type "response_url" then
        resp <- attr_of r "status_code" ;;
        if ((200 <=? status_code resp)%Z && (status_code resp <? 300)%Z)%bool
        then ret (mkQueryResult CLAIMED None)
        else ret (mkQueryResult AVAILABLE None)
      else
        raise (ValueError
                 ("Unknown Error Type '" ++ error_type ++ "' for site '"
                  ++ social_network ++ "'"))
  end.

(** Body of the second [for] loop after the [continue] test (lines
    348-430): waits for the site's future and completes [results_site]. *)
Definition collect_site (o : options) (social_network : string)
    (net_info : site_info) (results_site : dict pyval) : M (dict pyval) :=
  let url :=
    match dict_get "url_user" results_site with
    | Some v => v
    | None => PyNone
    end in
  error_type <- getitem "errorType" (errorType net_info) ;;
  future <- getitem "request_future" (request_future net_info) ;;
  '(r, error_text, expection_text) <- get_response future ;;
  let response_time :=
    match r with Some resp => PyFloat (elapsed resp) | None => PyNone end in
  let http_status :=
    match r with Some resp => PyInt (status_code resp) | None => PyStr "?" end in
  let response_text :=
    match r with
    | Some resp =>
        match str_encode (text resp) (encoding resp) with
        | Ok bytes => PyBytes bytes
        | Err _ => PyStr ""
        end
    | None => PyStr ""
    end in
  result <- classify social_network error_type net_info r error_text ;;
  when (print_output o)
    match status result with
    | CLAIMED =>
        emit (Console (print_found social_network url response_time
                         (verbose o) (color o)))
    | AVAILABLE =>
        when (negb (print_found_only o))
          (emit (Console (print_not_found social_network response_time
                            (verbose o) (color o))))
    | UNKNOWN =>
        emit (Console (print_error social_network expection_text error_text
                         "" (verbose o) (color o)))
    | ILLEGAL =>
        when (negb (print_found_only o))
          (emit (Console (print_invalid social_network illegal_msg (color o))))
    end ;;
  let results_site := dict_set "status" (PyResult result) results_site in
  let results_site := dict_set "http_status" http_status results_site in
  let results_site := dict_set "response_text" response_text results_site in
  let results_site := dict_set "response_time_s" response_time results_site in
  ret results_site.

(** The first [for] loop (lines 251-332): iterates [site_data.items()],
    filling [results_total] and storing each future in its site's entry of
    [site_data]; the updated [site_data] is what the second loop reads. *)
Fixpoint first_loop (username : string) (o : options)
    (items : dict site_info) (results_total : dict (dict pyval))
  : M (dict site_info * dict (dict pyval)) :=
  match items with
  | [] => ret ([], results_total)
  | (social_network, net_info) :: rest =>
      ' (net_info', results_site) <-
        dispatch_site username o social_network net_info ;;
      ' (rest', results_total') <-
        first_loop username o rest
          (dict_set social_network results_site results_total) ;;
      ret ((social_network, net_info') :: rest', results_total')
  end.

(** One iteration of the second [for] loop (lines 336-433).  [results_site]
    is the dictionary stored in [results_total], so the final assignment
    puts the completed entry at the site's position. *)
Definition second_step (o : options) (social_network : string)
    (net_info : site_info) (results_total : dict (dict pyval))
  : M (dict (dict pyval)) :=
  results_site <-
    match dict_get social_network results_total with
    | Some rs => ret rs
    | None =>
        raise (AttributeError "'NoneType' object has no attribute 'get'")
    end ;;
  let status := dict_get "status" results_site in
  if is_not_none status then ret results_total
  else
    results_site <- collect_site o social_network net_info results_site ;;
    ret (dict_set social_network results_site results_total).

(** The second [for] loop (lines 336-433), over the items of [site_data]. *)
Fixpoint second_loop (o : options) (items : dict site_info)
    (results_total : dict (dict pyval)) : M (dict (dict pyval)) :=
  match items with
  | [] => ret results_total
  | (social_network, net_info) :: rest =>
      results_total' <- second_step o social_network net_info results_total ;;
      second_loop o rest results_total'
  end.

(** The number of worker threads (lines 237-241). *)
Definition max_workers (site_data : dict site_info) : nat :=
  if Nat.leb 20 (length site_data) then 20 else length site_data.

(** [SherlockFuturesSession(max_workers=max_workers, session=...)] (lines
    243-244).  The constructor of [FuturesSession] creates a
    [ThreadPoolExecutor(max_workers)], which raises [ValueError] unless
    [max_workers] is positive. *)
Definition new_session (max_workers : nat) : M unit :=
  if Nat.eqb max_workers 0
  then raise (ValueError "max_workers must be greater than 0")
  else ret tt.

(** [sherlock(username, site_data, ...)] (lines 187-434): the trace of its
    effects and the returned [results_total], or the exception that ends
    it.  The underlying session (lines 226-234: a plain one, or that of a
    [TorRequest], whose constructor is taken to return) has no part in the
    trace or the result; creating the pool of worker threads raises for an
    empty catalogue. *)
Definition sherlock (username : string) (site_data : dict site_info)
    (o : options) : M (dict (dict pyval)) :=
  when (print_output o)
    (emit (Console (print_info "Checking username" username (color o)))) ;;
  new_session (max_workers site_data) ;;
  ' (site_data', results_total) <- first_loop username o site_data [] ;;
  second_loop o site_data' results_total.

(* ------------------------------------------------------------------ *)
(** *** One site at a time *)

(** What the second loop does with the [results_site] of a site. *)
Definition finish_site (o : options) (social_network : string)
    (net_info : site_info) (results_site : dict pyval) : result (dict pyval) :=
  if is_not_none (dict_get "status" results_site) then Ok results_site
  else value (collect_site o social_network net_info results_site).

(** The entry of [results_total] that the two loops build for one site. *)
Definition site_entry (username : string) (o : options)
    (social_network : string) (net_info : site_info) : result (dict pyval) :=
  match value (dispatch_site username o social_network net_info) with
  | Ok (net_info', results_site) =>
      finish_site o social_network net_info' results_site
  | Err e => Err e
  end.

(** The entries of all sites, in the order of the catalogue. *)
Fixpoint entries (username : string) (o : options) (items : dict site_info)
  : result (dict (dict pyval)) :=
  match items with
  | [] => Ok []
  | (social_network, net_info) :: rest =>
      match site_entry username o social_network net_info with
      | Err e => Err e
      | Ok results_site =>
          match entries username o rest with
          | Ok l => Ok ((social_network, results_site) :: l)
          | Err e => Err e
          end
      end
  end.

(** The futures handed to the session, read off a trace. *)
Definition submitted (t : list event) : list future :=
  flat_map (fun ev => match ev with Submit f => [f] | _ => [] end) t.

(** The request made for a site in the first loop, if any. *)
Definition probe (username : string) (o : options) (social_network : string)
    (net_info : site_info) : option future :=
  hd_error (submitted (trace (dispatch_site username o social_network net_info))).

(** The [QueryResult] stored under [status] in a site's results. *)
Definition verdict (results_site : dict pyval) : option QueryResult :=
  match dict_get "status" results_site with
  | Some (PyResult q) => Some q
  | _ => None
  end.

(** The values the first loop computes, site by site. *)
Fixpoint dispatch_values (username : string) (o : options)
    (items : dict site_info) : result (dict (site_info * dict pyval)) :=
  match items with
  | [] => Ok []
  | (social_network, net_info) :: rest =>
      match value (dispatch_site username o social_network net_info) with
      | Err e => Err e
      | Ok p =>
          match dispatch_values username o rest with
          | Ok l => Ok ((social_network, p) :: l)
          | Err e => Err e
          end
      end
  end.

(** The values the second loop computes from those of the first. *)
Fixpoint collect_values (o : options) (l : dict (site_info * dict pyval))
  : result (dict (dict pyval)) :=
  match l with
  | [] => Ok []
  | (social_network, p) :: rest =>
      match finish_site o social_network (fst p) (snd p) with
      | Err e => Err e
      | Ok results_site =>
          match collect_values o rest with
          | Ok fin => Ok ((social_network, results_site) :: fin)
          | Err e => Err e
          end
      end
  end.

Definition infos_of (l : dict (site_info * dict pyval)) : dict site_info :=
  map (fun x => (fst x, fst (snd x))) l.

Definition results_of (l : dict (site_info * dict pyval)) : dict (dict pyval) :=
  map (fun x => (fst x, snd (snd x))) l.

(** The shapes a site's [results_site] takes: for a rejected username (it
    is complete after the first loop), between the loops, and after the
    second loop has waited for the response [r] and stored [result]. *)
Definition illegal_entry (net_info : site_info) : dict pyval :=
  [("url_main", py_of_option (urlMain net_info));
   ("status", PyResult (mkQueryResult ILLEGAL None));
   ("url_user", PyStr ""); ("http_status", PyStr "");
   ("response_text", PyStr ""); ("response_time_s", PyStr "")].

Definition pending_entry (net_info : site_info) (url_user : string)
  : dict pyval :=
  [("url_main", py_of_option (urlMain net_info)); ("url_user", PyStr url_user)].

Definition completed_entry (net_info : site_info) (url_user : string)
    (result : QueryResult) (r : option Response) : dict pyval :=
  [("url_main", py_of_option (urlMain net_info));
   ("url_user", PyStr url_user);
   ("status", PyResult result);
   ("http_status",
    match r with Some resp => PyInt (status_code resp) | None => PyStr "?" end);
   ("response_text",
    match r with
    | Some resp =>
        match str_encode (text resp) (encoding resp) with
        | Ok bytes => PyBytes bytes
        | Err _ => PyStr ""
        end
    | None => PyStr ""
    end);
   ("response_time_s",
    match r with Some resp => PyFloat (elapsed resp) | None => PyNone end)].

(** The status recorded for a site by a run, when the run returns. *)
Definition run_status (run : M (dict (dict pyval))) (social_network : string)
  : option QueryStatus :=
  match value run with
  | Ok results_total =>
      match dict_get social_network results_total with
      | Some results_site => option_map status (verdict results_site)
      | None => None
      end
  | Err _ => None
  end.

(** [needle] occurs verbatim in [hay]. *)
Definition substring_of (needle hay : string) : Prop :=
  exists before after, hay = (before ++ needle ++ after)%string.

(** The category [get_response] reports for an exception class. *)
Definition error_context_of (c : exn_class) : string :=
  if isinstance c HTTPError then "HTTP Error"
  else if isinstance c ProxyError then "Proxy Error"
  else if isinstance c ConnectionError then "Error Connecting"
  else if isinstance c Timeout then "Timeout Error"
  else "Unknown Error".

(* ------------------------------------------------------------------ *)
(** *** Reading a trace *)

(** The console lines of a trace, in order. *)
Definition console (t : list event) : list console_line :=
  flat_map (fun ev => match ev with Console l => [l] | _ => [] end) t.

(** The events of a trace that reach the session or the Tor controller. *)
Definition network (t : list event) : list event :=
  filter (fun ev => match ev with Console _ => false | _ => true end) t.

(** The site a console line is about; the heading names none. *)
Definition line_site (l : console_line) : option string :=
  match l with
  | print_info _ _ _ => None
  | print_invalid n _ _ => Some n
  | print_found n _ _ _ _ => Some n
  | print_not_found n _ _ _ => Some n
  | print_error n _ _ _ _ _ => Some n
  end.

(** The sites named by the console lines of a trace, in order. *)
Definition announced (t : list event) : list string :=
  flat_map (fun l => match line_site l with Some n => [n] | None => [] end)
    (console t).

(** The sites for which the trace holds a request, in order. *)
Definition requested (t : list event) : list string :=
  map fut_site (submitted t).

(** The events of the first loop: those of each site's body in turn, up to
    the first body that raises. *)
Fixpoint first_trace (username : string) (o : options)
    (items : dict site_info) : list event :=
  match items with
  | [] => []
  | (social_network, net_info) :: rest =>
      trace (dispatch_site username o social_network net_info) ++
      match value (dispatch_site username o social_network net_info) with
      | Ok _ => first_trace username o rest
      | Err _ => []
      end
  end.

(** The events of the second loop, from the values of the first. *)
Fixpoint second_trace (o : options) (l : dict (site_info * dict pyval))
  : list event :=
  match l with
  | [] => []
  | (social_network, p) :: rest =>
      (if is_not_none (dict_get "status" (snd p)) then []
       else trace (collect_site o social_network (fst p) (snd p))) ++
      match finish_site o social_network (fst p) (snd p) with
      | Ok _ => second_trace o rest
      | Err _ => []
      end
  end.

(** The heading [sherlock] prints first. *)
Definition heading (username : string) (o : options) : list event :=
  if print_output o
  then [Console (print_info "Checking username" username (color o))]
  else [].

(** An entry whose verdict is [ILLEGAL]. *)
Definition is_illegal (results_site : dict pyval) : bool :=
  match verdict results_site with
  | Some q => match status q with ILLEGAL => true | _ => false end
  | None => false
  end.

(** The sites of a result that were skipped, and those that were probed. *)
Definition skipped_sites (results_total : dict (dict pyval)) : list string :=
  dict_keys (filter (fun e => is_illegal (snd e)) results_total).

Definition probed_sites (results_total : dict (dict pyval)) : list string :=
  dict_keys (filter (fun e => negb (is_illegal (snd e))) results_total).

Definition QueryStatus_eqb (a b : QueryStatus) : bool :=
  match a, b with
  | CLAIMED, CLAIMED | AVAILABLE, AVAILABLE | UNKNOWN, UNKNOWN
  | ILLEGAL, ILLEGAL => true
  | _, _ => false
  end.

(** An entry whose verdict has the given status. *)
Definition has_status (s : QueryStatus) (results_site : dict pyval) : bool :=
  match verdict results_site with
  | Some q => QueryStatus_eqb (status q) s
  | None => false
  end.

(** Whether the verdict of an entry gets a console line (lines 273 and
    406-417). *)
Definition shown (o : options) (results_site : dict pyval) : bool :=
  print_output o &&
  (negb (print_found_only o) || has_status CLAIMED results_site
   || has_status UNKNOWN results_site).

(** The value under a key of an entry, [None] for an absent key. *)
Definition field (key : string) (results_site : dict pyval) : pyval :=
  match dict_get key results_site with Some v => v | None => PyNone end.

(** The lines of a trace printed by [print_found]. *)
Definition found_lines (t : list event) : list console_line :=
  filter (fun l => match l with print_found _ _ _ _ _ => true | _ => false end)
    (console t).

(** The [print_found] line for an entry, if its verdict is [CLAIMED]. *)
Definition found_line (o : options) (social_network : string)
    (results_site : dict pyval) : list console_line :=
  if print_output o && has_status CLAIMED results_site
  then [print_found social_network (field "url_user" results_site)
          (field "response_time_s" results_site) (verbose o) (color o)]
  else [].

(** The test of line 271: whether the site's pattern rejects the
    username. *)
Definition username_rejected (username : string) (net_info : site_info)
  : result bool :=
  match regexCheck net_info with
  | Some pattern =>
      if str_truthy pattern
      then match re_search pattern username with
           | Ok found => Ok (negb found)
           | Err e => Err e
           end
      else Ok false
  | None => Ok false
  end.

(** A site's entry of [site_data] without the future a run stored in it. *)
Definition forget_future (n : site_info) : site_info :=
  {| urlMain := urlMain n; url := url n; urlProbe := urlProbe n;
     errorType := errorType n; errorMsg := errorMsg n; headers := headers n;
     regexCheck := regexCheck n; request_future := None |}.

Definition forget_futures (site_data : dict site_info) : dict site_info :=
  map (fun e => (fst e, forget_future (snd e))) site_data.

(** [site_data] as a run leaves it to its caller: the first loop has stored
    the futures in it. *)
Definition site_data_after (username : string) (site_data : dict site_info)
    (o : options) : result (dict site_info) :=
  match value (first_loop username o site_data []) with
  | Ok (site_data', _) => Ok site_data'
  | Err e => Err e
  end.

(** Values of the first loop that the second loop cannot tell apart. *)
Definition alike (a b : string * (site_info * dict pyval)) : Prop :=
  fst a = fst b /\ snd (snd a) = snd (snd b) /\
  (is_not_none (dict_get "status" (snd (snd a))) = false ->
   fst (snd a) = fst (snd b)).

(* ------------------------------------------------------------------ *)
(** *** [SherlockFuturesSession.request] (lines 33-94) *)

(** A response hook: the closure [response_time] that a call of [request]
    defines, with the start time it has captured, or any other callable. *)
Inductive hook : Type :=
| response_time (start : Q)
| other_hook (id : nat).

(** What [hooks['response']] may hold. *)
Inductive hooks_value : Type :=
| hook_list (l : list hook)
| hook_tuple (l : list hook)
| hook_single (h : hook).

(** The [try] statement of [request]: the timing hook is put first. *)
Definition install_response_time (start : Q) (hooks : dict hooks_value)
  : dict hooks_value :=
  match dict_get "response" hooks with
  | Some (hook_list l) =>
      dict_set "response" (hook_list (response_time start :: l)) hooks
  | Some (hook_tuple l) =>
      dict_set "response" (hook_list (response_time start :: l)) hooks
  | Some (hook_single h) =>
      dict_set "response" (hook_list [response_time start; h]) hooks
  | None => dict_set "response" (hook_list [response_time start]) hooks
  end.

(** [request(self, method, url, hooks={}, ...)], called when the clock
    reads [start].  The default value of [hooks] is one dictionary, made
    when the method is defined: a call that passes no [hooks] changes that
    dictionary.  Returns the hooks handed on to [FuturesSession.request]
    and the default dictionary after the call. *)
Definition session_request (start : Q) (hooks : option (dict hooks_value))
    (default : dict hooks_value) : dict hooks_value * dict hooks_value :=
  match hooks with
  | Some given => (install_response_time start given, default)
  | None =>
      (install_response_time start default,
       install_response_time start default)
  end.

(** The default dictionary after calls without [hooks] at the given start
    times, in the order of the calls. *)
Definition default_after (starts : list Q) : dict hooks_value :=
  fold_left (fun default start => snd (session_request start None default))
    starts [].

(** [response_time(resp)], run when the clock reads [now] (line 69); what
    another hook does is not known, and it is taken to leave the response
    as it is. *)
Definition run_hook (now : Q) (h : hook) (resp : Response) : Response :=
  match h with
  | response_time start =>
      {| status_code := status_code resp; text := text resp;
         encoding := encoding resp; elapsed := (now - start)%Q |}
  | other_hook _ => resp
  end.

(** The hooks of a response, run in the order of the list; [clock i] is
    the reading of the clock when the hook at position [i] runs. *)
Fixpoint run_hooks (clock : nat -> Q) (i : nat) (hs : list hook)
    (resp : Response) : Response :=
  match hs with
  | [] => resp
  | h :: rest => run_hooks clock (S i) rest (run_hook (clock i) h resp)
  end.

(** The hooks that were in [hooks['response']], as a list. *)
Definition response_hooks (hooks : dict hooks_value) : list hook :=
  match dict_get "response" hooks with
  | Some (hook_list l) | Some (hook_tuple l) => l
  | Some (hook_single h) => [h]
  | None => []
  end.

(* ------------------------------------------------------------------ *)
(** *** [main]: the choice of sites (lines 575-595) *)

(** [s.lower()] *)
Variable str_lower : string -> string.

(** [site.lower() == existing_site.lower()] *)
Definition same_site (site existing_site : string) : bool :=
  String.eqb (str_lower site) (str_lower existing_site).

(** The inner [for] loop (lines 585-587), over the keys of
    [site_data_all]; the lookup of such a key finds its value. *)
Fixpoint add_matching {V} (site : string) (keys : list string)
    (site_data_all site_data : dict V) : dict V :=
  match keys with
  | [] => site_data
  | existing_site :: rest =>
      add_matching site rest site_data_all
        (if same_site site existing_site
         then match dict_get existing_site site_data_all with
              | Some v => dict_set existing_site v site_data
              | None => site_data
              end
         else site_data)
  end.

Definition quoted (site : string) : string := "'" ++ site ++ "'".

(** The outer [for] loop (lines 584-590): [site_missing] grows when
    [site_data] is empty after the inner loop. *)
Fixpoint select_loop {V} (site_list : list string)
    (site_data_all site_data : dict V) (site_missing : list string)
  : dict V * list string :=
  match site_list with
  | [] => (site_data, site_missing)
  | site :: rest =>
      let site_data :=
        add_matching site (dict_keys site_data_all) site_data_all site_data in
      select_loop rest site_data_all site_data
        match site_data with
        | [] => site_missing ++ [quoted site]
        | _ :: _ => site_missing
        end
  end.

(** Lines 575-595: the catalogue of the run, or the line printed before
    [sys.exit(1)]. *)
Definition select_sites {V} (site_list : option (list string))
    (site_data_all : dict V) : string + dict V :=
  match site_list with
  | None => inr site_data_all
  | Some sites =>
      match select_loop sites site_data_all [] [] with
      | (site_data, []) => inr site_data
      | (_, site_missing) =>
          inl ("Error: Desired sites not found: "
               ++ String.concat ", " site_missing ++ ".")%string
      end
  end.

(** A requested name that is the name of a site, up to case. *)
Definition known (keys : list string) (site : string) : bool :=
  existsb (same_site site) keys.

(** A site that one of the requested names names, up to case. *)
Definition requested_by (site_list : list string) (existing_site : string)
  : bool :=
  existsb (fun site => same_site site existing_site) site_list.

(** The requested names before the first known one. *)
Fixpoint leading_unknown (keys : list string) (site_list : list string)
  : list string :=
  match site_list with
  | [] => []
  | site :: rest =>
      if known keys site then [] else site :: leading_unknown keys rest
  end.

(* ------------------------------------------------------------------ *)
(** *** [main]: ranking (lines 597-603) *)

(** [a <= b] for two tuples of a [bool] and an [int]. *)
Definition tuple_le (a b : bool * Z) : bool :=
  match fst a, fst b with
  | false, true => true
  | true, false => false
  | _, _ => (snd a <=? snd b)%Z
  end.

(** The sort key of line 600:
    [("rank" not in k, site_data[k].get("rank", sys.maxsize))].  The first
    component tests the name [k], a string.  [k] is a key of [site_data],
    so [site_data[k]] finds its value; [rank] reads the key [rank] of a
    site's description and [maxsize] is [sys.maxsize]. *)
Definition rank_key {V} (rank : V -> option Z) (maxsize : Z)
    (site_data : dict V) (k : string) : bool * Z :=
  (negb (str_in "rank" k),
   match dict_get k site_data with
   | Some v => match rank v with Some r => r | None => maxsize end
   | None => maxsize
   end).

(** [sorted(names, key=key)]: Python's sort is stable, so its result is the
    one this insertion sort computes. *)
Fixpoint insert_sorted (key : string -> bool * Z) (x : string)
    (l : list string) : list string :=
  match l with
  | [] => [x]
  | y :: rest =>
      if tuple_le (key x) (key y) then x :: y :: rest
      else y :: insert_sorted key x rest
  end.

Definition sorted (key : string -> bool * Z) (l : list string) : list string :=
  fold_right (insert_sorted key) [] l.

(** Lines 599-603: the catalogue rebuilt in the order of the sorted names,
    each name with [site_dataCpy.get(site)]. *)
Definition rank_sites {V} (rank : V -> option Z) (maxsize : Z)
    (site_data : dict V) : dict (option V) :=
  let site_dataCpy := site_data in
  let ranked_sites :=
    sorted (rank_key rank maxsize site_data) (dict_keys site_data) in
  fold_left (fun acc site => dict_set site (dict_get site site_dataCpy) acc)
    ranked_sites [].

(* ------------------------------------------------------------------ *)
(** *** [main]: the report of a run (lines 629-636) *)

Definition newline : string := String (ascii_of_nat 10) EmptyString.

(** [str(n)] for a count. *)
Definition str_of_nat (n : nat) : string :=
  NilZero.string_of_uint (Nat.to_uint n).

(** The [for] loop of lines 631-635 over the names of [results], with the
    counter and the text written to the file so far. *)
Fixpoint report_loop (names : list string) (results : dict (dict pyval))
    (exists_counter : nat) (file : string) : result (nat * string) :=
  match names with
  | [] => Ok (exists_counter, file)
  | website_name :: rest =>
      match dict_get website_name results with
      | None => Err (KeyError website_name)
      | Some dictionary =>
          match dict_get "status" dictionary with
          | Some (PyResult q) =>
              if QueryStatus_eqb (status q) CLAIMED then
                match dict_get "url_user" dictionary with
                | Some (PyStr url_user) =>
                    report_loop rest results (S exists_counter)
                      (file ++ (url_user ++ newline))
                | Some _ =>
                    Err (TypeError "unsupported operand type(s) for +")
                | None => Err (KeyError "url_user")
                end
              else report_loop rest results exists_counter file
          | _ => Err (AttributeError "object has no attribute 'status'")
          end
      end
  end.

(** Lines 629-636: the text of the report file, or the exception raised
    while writing it. *)
Definition write_report (results : dict (dict pyval)) : result string :=
  match report_loop (dict_keys results) results 0 "" with
  | Ok (exists_counter, file) =>
      Ok (file ++ "Total Websites Username Detected On : "
          ++ str_of_nat exists_counter)%string
  | Err e => Err e
  end.

(** The profile URLs recorded with the verdict [CLAIMED], in order. *)
Definition claimed_urls (results : dict (dict pyval)) : list string :=
  flat_map
    (fun e =>
       if has_status CLAIMED (snd e)
       then match dict_get "url_user" (snd e) with
            | Some (PyStr url_user) => [url_user]
            | _ => []
            end
       else [])
    results.

(** The lines of a text, each ended by a newline. *)
Definition lines (l : list string) : string :=
  fold_right (fun line text => (line ++ newline) ++ text)%string "" l.

(* ------------------------------------------------------------------ *)
(** *** Tactics for case analysis on a computation *)

Ltac break_match :=
  match goal with
  | H : context [match ?x with _ => _ end] |- _ => destruct x eqn:?
  | |- context [match ?x with _ => _ end] => destruct x eqn:?
  end.

Ltac tidy :=
  repeat match goal with
    | H : Ok _ = Ok _ |- _ => injection H as H; try subst
    | H : Some _ = Some _ |- _ => injection H as H; try subst
    | H : (_, _) = (_, _) |- _ => injection H as ? ?; try subst
    end.

Ltac run_monad :=
  unfold bind, lift, getitem, when, emit, ret, raise, trace, value in *;
  simpl in *.

Ltac cases := repeat (break_match; simpl in *; tidy; try discriminate).

Ltac in_cases :=
  repeat match goal with
    | H : _ \/ _ |- _ => destruct H
    | H : False |- _ => destruct H
    | H : Submit _ = Submit _ |- _ => injection H as <-
    end.

(* ================================================================== *)
(** ** Properties *)

(* ------------------------------------------------------------------ *)
(** *** Strings *)

Lemma prefix_app (a b : string) : String.prefix a (a ++ b) = true.
Proof.
  induction a as [|c a IH]; simpl.
  - destruct b; reflexivity.
  - destruct (Ascii.ascii_dec c c) as [_|ne]; [exact IH | contradiction].
Qed.

Lemma prefix_split (a s : string) :
  String.prefix a s = true -> exists rest, s = (a ++ rest)%string.
Proof.
  revert s; induction a as [|c a IH]; intros s H.
  - exists s; reflexivity.
  - destruct s as [|d s]; simpl in H; [discriminate|].
    destruct (Ascii.ascii_dec c d) as [->|_]; [|discriminate].
    destruct (IH s H) as [rest ->]. exists rest; reflexivity.
Qed.

Lemma str_in_eq (needle hay : string) :
  str_in needle hay =
  if String.prefix needle hay then true
  else match hay with
       | EmptyString => false
       | String _ rest => str_in needle rest
       end.
Proof. destruct hay; reflexivity. Qed.

Lemma str_in_true (needle hay : string) :
  str_in needle hay = true -> substring_of needle hay.
Proof.
  induction hay as [|c hay IH]; rewrite str_in_eq; intros H.
  - destruct (String.prefix needle "") eqn:P; [|discriminate].
    destruct (prefix_split _ _ P) as [rest E].
    exists ""%string, rest; exact E.
  - destruct (String.prefix needle (String c hay)) eqn:P.
    + destruct (prefix_split _ _ P) as [rest E].
      exists ""%string, rest; exact E.
    + destruct (IH H) as (before & after & E).
      exists (String c before), after. simpl. now rewrite E.
Qed.

Lemma str_in_complete (needle before after : string) :
  str_in needle (before ++ needle ++ after) = true.
Proof.
  induction before as [|c before IH]; rewrite str_in_eq.
  - simpl. now rewrite prefix_app.
  - destruct (String.prefix needle (String c before ++ needle ++ after));
      [reflexivity | exact IH].
Qed.

Lemma str_in_spec (needle hay : string) :
  str_in needle hay = true <-> substring_of needle hay.
Proof.
  split; [apply str_in_true|].
  intros (before & after & ->). apply str_in_complete.
Qed.

(* ------------------------------------------------------------------ *)
(** *** Dictionaries *)

Lemma dict_get_In {V} (k : string) (v : V) (d : dict V) :
  dict_get k d = Some v -> In (k, v) d.
Proof.
  induction d as [|[k' v'] d IH]; simpl; [discriminate|].
  destruct (String.eqb_spec k' k) as [->|_]; intros H.
  - injection H as ->. now left.
  - right; auto.
Qed.

Lemma dict_get_keys {V} (k : string) (v : V) (d : dict V) :
  dict_get k d = Some v -> In k (dict_keys d).
Proof.
  intros H. apply dict_get_In in H.
  unfold dict_keys. change k with (fst (k, v)). now apply in_map.
Qed.

Lemma dict_keys_get {V} (k : string) (d : dict V) :
  In k (dict_keys d) -> exists v, dict_get k d = Some v.
Proof.
  induction d as [|[k' v'] d IH]; simpl; [contradiction|].
  destruct (String.eqb_spec k' k) as [->|ne]; intros H.
  - now exists v'.
  - destruct H as [H|H]; [contradiction | auto].
Qed.

Lemma In_dict_get {V} (k : string) (v : V) (d : dict V) :
  NoDup (dict_keys d) -> In (k, v) d -> dict_get k d = Some v.
Proof.
  induction d as [|[k' v'] d IH]; simpl; [contradiction|].
  intros N [E|H]; inversion N as [|? ? notin N']; subst.
  - injection E as -> ->. now rewrite String.eqb_refl.
  - destruct (String.eqb_spec k' k) as [->|_]; [|auto].
    exfalso. apply notin. change k with (fst (k, v)). now apply in_map.
Qed.

Lemma dict_get_app_notin {V} (k : string) (pre d : dict V) :
  ~ In k (dict_keys pre) -> dict_get k (pre ++ d) = dict_get k d.
Proof.
  induction pre as [|[k' v'] pre IH]; simpl; [reflexivity|].
  intros H. destruct (String.eqb_spec k' k) as [->|_].
  - exfalso; auto.
  - apply IH; auto.
Qed.

Lemma dict_set_app_notin {V} (k : string) (v : V) (pre d : dict V) :
  ~ In k (dict_keys pre) -> dict_set k v (pre ++ d) = pre ++ dict_set k v d.
Proof.
  induction pre as [|[k' v'] pre IH]; simpl; [reflexivity|].
  intros H. destruct (String.eqb_spec k' k) as [->|_].
  - exfalso; auto.
  - rewrite IH; auto.
Qed.

Lemma dict_set_notin {V} (k : string) (v : V) (d : dict V) :
  ~ In k (dict_keys d) -> dict_set k v d = d ++ [(k, v)].
Proof.
  intros H. rewrite <- (app_nil_r d) at 1.
  now rewrite dict_set_app_notin.
Qed.

Lemma dict_keys_app {V} (a b : dict V) :
  dict_keys (a ++ b) = dict_keys a ++ dict_keys b.
Proof. apply map_app. Qed.

(* ------------------------------------------------------------------ *)
(** *** Computations *)

Lemma value_bind {A B} (m : M A) (k : A -> M B) :
  value (bind m k) =
  match value m with Ok a => value (k a) | Err e => Err e end.
Proof. unfold bind. now destruct (value m). Qed.

Lemma trace_bind {A B} (m : M A) (k : A -> M B) :
  trace (bind m k) =
  trace m ++ match value m with Ok a => trace (k a) | Err _ => [] end.
Proof.
  unfold bind. destruct (value m); simpl; [reflexivity|].
  now rewrite app_nil_r.
Qed.

Lemma value_when (b : bool) (m : M unit) :
  value m = Ok tt -> value (when b m) = Ok tt.
Proof. now destruct b. Qed.

(* ------------------------------------------------------------------ *)
(** *** The two loops, site by site *)

Lemma dispatch_values_keys username o items l :
  dispatch_values username o items = Ok l -> dict_keys l = dict_keys items.
Proof.
  revert l; induction items as [|[n info] rest IH]; simpl; intros l H.
  - now injection H as <-.
  - destruct (value (dispatch_site username o n info)) as [p|e]; [|discriminate].
    destruct (dispatch_values username o rest) as [l'|e]; [|discriminate].
    injection H as <-. simpl. now rewrite (IH l').
Qed.

Lemma NoDup_keys_step {V W} (acc : dict V) (n : string) (v : V) (rest : list W)
    (key : W -> string) :
  NoDup (dict_keys acc ++ n :: map key rest) ->
  ~ In n (dict_keys acc) /\ NoDup (dict_keys (acc ++ [(n, v)]) ++ map key rest).
Proof.
  intros H. split.
  - intros I. apply NoDup_remove_2 in H. apply H. apply in_or_app. now left.
  - rewrite dict_keys_app. simpl. now rewrite <- app_assoc.
Qed.

Lemma first_loop_value username o items : forall acc,
  NoDup (dict_keys acc ++ dict_keys items) ->
  value (first_loop username o items acc) =
  match dispatch_values username o items with
  | Ok l => Ok (infos_of l, acc ++ results_of l)
  | Err e => Err e
  end.
Proof.
  induction items as [|[n info] rest IH]; intros acc N; simpl.
  - now rewrite app_nil_r.
  - rewrite value_bind.
    destruct (value (dispatch_site username o n info)) as [[info' rs]|e];
      [|reflexivity].
    destruct (NoDup_keys_step acc n rs rest fst N) as [notin N'].
    rewrite value_bind, (dict_set_notin _ _ _ notin), (IH _ N').
    destruct (dispatch_values username o rest) as [l|e]; [|reflexivity].
    simpl. now rewrite <- app_assoc.
Qed.

Lemma second_loop_value o l : forall pre,
  NoDup (dict_keys pre ++ dict_keys l) ->
  value (second_loop o (infos_of l) (pre ++ results_of l)) =
  match collect_values o l with
  | Ok fin => Ok (pre ++ fin)
  | Err e => Err e
  end.
Proof.
  induction l as [|[n [info rs]] rest IH]; intros pre N; simpl.
  - now rewrite app_nil_r.
  - destruct (NoDup_keys_step pre n rs rest fst N) as [notin N'].
    pose proof (IH _ N') as IHrs. rewrite <- app_assoc in IHrs. simpl in IHrs.
    rewrite value_bind. unfold second_step.
    rewrite value_bind, (dict_get_app_notin _ _ _ notin). simpl.
    rewrite String.eqb_refl. simpl. unfold finish_site.
    destruct (is_not_none (dict_get "status" rs)).
    + simpl. rewrite IHrs.
      destruct (collect_values o rest) as [fin|e]; [|reflexivity].
      now rewrite <- app_assoc.
    + rewrite value_bind.
      destruct (value (collect_site o n info rs)) as [rs'|e]; [|reflexivity].
      simpl. rewrite (dict_set_app_notin _ _ _ _ notin). simpl.
      rewrite String.eqb_refl.
      destruct (NoDup_keys_step pre n rs' rest fst N) as [_ N''].
      pose proof (IH _ N'') as IHrs'. rewrite <- app_assoc in IHrs'.
      simpl in IHrs'. rewrite IHrs'.
      destruct (collect_values o rest) as [fin|e]; [|reflexivity].
      now rewrite <- app_assoc.
Qed.

Lemma dict_get_nonempty {V} (k : string) (v : V) (d : dict V) :
  dict_get k d = Some v -> d <> [].
Proof. now destruct d. Qed.

Lemma nonempty_dec {V} (d : dict V) : d = [] \/ d <> [].
Proof. destruct d; [now left | now right]. Qed.

(** The session is created when the catalogue holds a site. *)
Lemma new_session_nonempty site_data :
  site_data <> [] -> new_session (max_workers site_data) = ret tt.
Proof.
  destruct site_data as [|x rest]; [congruence|]. intros _.
  unfold new_session, max_workers.
  now destruct (Nat.leb _ _).
Qed.

(** A run on the empty catalogue stops after the heading. *)
Lemma sherlock_empty username o :
  sherlock username [] o =
  (heading username o, Err (ValueError "max_workers must be greater than 0")).
Proof. unfold sherlock, heading. now destruct (print_output o). Qed.

(** A run on a catalogue that holds a site is the heading and the two
    loops. *)
Lemma sherlock_nonempty username site_data o :
  site_data <> [] ->
  sherlock username site_data o =
  (when (print_output o)
     (emit (Console (print_info "Checking username" username (color o)))) ;;
   ' (site_data', results_total) <- first_loop username o site_data [] ;;
   second_loop o site_data' results_total).
Proof.
  intros NE. unfold sherlock. rewrite (new_session_nonempty _ NE).
  reflexivity.
Qed.

(** The value of a run, as the two loops compute it. *)
Lemma sherlock_value username site_data o :
  NoDup (dict_keys site_data) ->
  site_data <> [] ->
  value (sherlock username site_data o) =
  match dispatch_values username o site_data with
  | Ok l => collect_values o l
  | Err e => Err e
  end.
Proof.
  intros N NE. rewrite (sherlock_nonempty _ _ _ NE).
  rewrite value_bind, value_when by reflexivity.
  rewrite value_bind, (first_loop_value username o site_data [] N).
  destruct (dispatch_values username o site_data) as [l|e] eqn:D;
    [|reflexivity].
  assert (N' : NoDup (dict_keys (@nil (string * dict pyval)) ++ dict_keys l))
    by (simpl; now rewrite (dispatch_values_keys _ _ _ _ D)).
  rewrite (second_loop_value o l [] N'). simpl.
  now destruct (collect_values o l).
Qed.

Lemma sherlock_returned username site_data o res :
  NoDup (dict_keys site_data) ->
  value (sherlock username site_data o) = Ok res ->
  match dispatch_values username o site_data with
  | Ok l => collect_values o l
  | Err e => Err e
  end = Ok res.
Proof.
  intros N R. destruct (nonempty_dec site_data) as [->|NE].
  - rewrite sherlock_empty in R. discriminate.
  - now rewrite <- (sherlock_value _ _ _ N NE).
Qed.

Lemma entries_values username o items res :
  entries username o items = Ok res <->
  exists l, dispatch_values username o items = Ok l /\
            collect_values o l = Ok res.
Proof.
  revert res; induction items as [|[n info] rest IH]; simpl; intros res.
  - split.
    + intros H. exists []. now split.
    + intros (l & D & C). injection D as <-. exact C.
  - unfold site_entry.
    destruct (value (dispatch_site username o n info)) as [[info' rs]|e].
    + split.
      * intros H.
        destruct (finish_site o n info' rs) as [rs'|e] eqn:F; [|discriminate].
        destruct (entries username o rest) as [res'|e] eqn:E; [|discriminate].
        destruct (proj1 (IH res') eq_refl) as (l & D & C).
        exists ((n, (info', rs)) :: l). rewrite D. split; [reflexivity|].
        simpl. now rewrite F, C.
      * intros (l & D & C).
        destruct (dispatch_values username o rest) as [l'|e]; [|discriminate].
        injection D as <-. simpl in C.
        destruct (finish_site o n info' rs) as [rs'|e]; [|discriminate].
        destruct (collect_values o l') as [fin|e] eqn:C'; [|discriminate].
        rewrite (proj2 (IH fin)); [exact C|]. now exists l'.
    + split; [discriminate|]. intros (l & D & _). discriminate.
Qed.

(** A run on a catalogue that holds a site returns exactly the entries of
    its sites, in catalogue order. *)
Lemma sherlock_entries_iff username site_data o res :
  NoDup (dict_keys site_data) ->
  site_data <> [] ->
  value (sherlock username site_data o) = Ok res <->
  entries username o site_data = Ok res.
Proof.
  intros N NE. rewrite (sherlock_value _ _ _ N NE), entries_values.
  destruct (dispatch_values username o site_data) as [l|e].
  - split; [intros H; now exists l|].
    intros (l' & D & C). now injection D as <-.
  - split; [discriminate|]. intros (l' & D & _). discriminate.
Qed.

(** What a run returns is the entries of its sites, in catalogue order. *)
Lemma sherlock_entries username site_data o res :
  NoDup (dict_keys site_data) ->
  value (sherlock username site_data o) = Ok res ->
  entries username o site_data = Ok res.
Proof.
  intros N R. destruct (nonempty_dec site_data) as [->|NE].
  - rewrite sherlock_empty in R. discriminate.
  - now apply sherlock_entries_iff.
Qed.

Lemma entries_keys username o items res :
  entries username o items = Ok res -> dict_keys res = dict_keys items.
Proof.
  revert res; induction items as [|[n info] rest IH]; simpl; intros res H.
  - now injection H as <-.
  - destruct (site_entry username o n info) as [rs|e]; [|discriminate].
    destruct (entries username o rest) as [res'|e]; [|discriminate].
    injection H as <-. simpl. now rewrite (IH res').
Qed.

Lemma entries_In username o items res n info :
  entries username o items = Ok res -> In (n, info) items ->
  exists rs, site_entry username o n info = Ok rs /\ In (n, rs) res.
Proof.
  revert res; induction items as [|[n' info'] rest IH]; simpl; intros res H I;
    [contradiction|].
  destruct (site_entry username o n' info') as [rs'|e] eqn:S; [|discriminate].
  destruct (entries username o rest) as [res'|e]; [|discriminate].
  injection H as <-. destruct I as [E|I].
  - injection E as -> ->. exists rs'. split; [exact S | now left].
  - destruct (IH res' eq_refl I) as (rs & S' & I'). exists rs.
    split; [exact S' | now right].
Qed.

Lemma entries_total username o items :
  (forall n info, In (n, info) items ->
                  exists rs, site_entry username o n info = Ok rs) ->
  exists res, entries username o items = Ok res.
Proof.
  induction items as [|[n info] rest IH]; simpl; intros H.
  - now exists [].
  - destruct (H n info (or_introl eq_refl)) as [rs ->].
    destruct IH as [res ->]; [intros; apply H; now right|].
    now exists ((n, rs) :: res).
Qed.

Lemma dispatch_values_In username o items l n p :
  dispatch_values username o items = Ok l -> In (n, p) l ->
  exists info,
    In (n, info) items /\ value (dispatch_site username o n info) = Ok p.
Proof.
  revert l; induction items as [|[n' info'] rest IH]; simpl; intros l H I.
  - injection H as <-. contradiction.
  - destruct (value (dispatch_site username o n' info')) as [p'|e] eqn:D;
      [|discriminate].
    destruct (dispatch_values username o rest) as [l'|e]; [|discriminate].
    injection H as <-. destruct I as [E|I].
    + injection E as -> ->. exists info'. split; [now left | exact D].
    + destruct (IH l' eq_refl I) as (info & I' & D').
      exists info. split; [now right | exact D'].
Qed.

Lemma dispatch_values_error username o items e :
  dispatch_values username o items = Err e ->
  exists n info,
    In (n, info) items /\ value (dispatch_site username o n info) = Err e.
Proof.
  induction items as [|[n info] rest IH]; simpl; intros H; [discriminate|].
  destruct (value (dispatch_site username o n info)) as [p|e'] eqn:D.
  - destruct (dispatch_values username o rest) as [l|e'']; [discriminate|].
    injection H as ->. destruct (IH eq_refl) as (n' & info' & I & D').
    exists n', info'. split; [now right | exact D'].
  - injection H as ->. exists n, info. split; [now left | exact D].
Qed.

Lemma collect_values_error o l e :
  collect_values o l = Err e ->
  exists n p, In (n, p) l /\ finish_site o n (fst p) (snd p) = Err e.
Proof.
  induction l as [|[n p] rest IH]; simpl; intros H; [discriminate|].
  destruct (finish_site o n (fst p) (snd p)) as [rs|e'] eqn:F.
  - destruct (collect_values o rest) as [fin|e'']; [discriminate|].
    injection H as ->. destruct (IH eq_refl) as (n' & p' & I & F').
    exists n', p'. split; [now right | exact F'].
  - injection H as ->. exists n, p. split; [now left | exact F].
Qed.

(** The exception that ends a run is raised by the processing of one of
    its sites. *)
Lemma sherlock_error username site_data o e :
  NoDup (dict_keys site_data) ->
  site_data <> [] ->
  value (sherlock username site_data o) = Err e ->
  exists n info,
    In (n, info) site_data /\ site_entry username o n info = Err e.
Proof.
  intros N NE. rewrite (sherlock_value _ _ _ N NE).
  destruct (dispatch_values username o site_data) as [l|e'] eqn:D; intros H.
  - destruct (collect_values_error _ _ _ H) as (n & [info' rs] & I & F).
    destruct (dispatch_values_In _ _ _ _ _ _ D I) as (info & I' & D').
    exists n, info. split; [exact I'|]. unfold site_entry. now rewrite D'.
  - injection H as ->.
    destruct (dispatch_values_error _ _ _ _ D) as (n & info & I & D').
    exists n, info. split; [exact I|]. unfold site_entry. now rewrite D'.
Qed.

(** The entry of each site in a returned result. *)
Lemma sherlock_entry username site_data o res n info :
  NoDup (dict_keys site_data) ->
  value (sherlock username site_data o) = Ok res ->
  dict_get n site_data = Some info ->
  exists rs, site_entry username o n info = Ok rs /\ dict_get n res = Some rs.
Proof.
  intros N R G. apply (sherlock_entries _ _ _ _ N) in R.
  destruct (entries_In _ _ _ _ _ _ R (dict_get_In _ _ _ G)) as (rs & S & I).
  exists rs. split; [exact S|]. apply In_dict_get; [|exact I].
  now rewrite (entries_keys _ _ _ _ R).
Qed.

(** A site whose own processing raises keeps the run from returning. *)
Lemma sherlock_aborts username site_data o n info e :
  NoDup (dict_keys site_data) ->
  dict_get n site_data = Some info ->
  site_entry username o n info = Err e ->
  exists e', value (sherlock username site_data o) = Err e'.
Proof.
  intros N G S.
  destruct (value (sherlock username site_data o)) as [res|e'] eqn:R.
  - destruct (sherlock_entry _ _ _ _ _ _ N R G) as (rs & S' & _). congruence.
  - now exists e'.
Qed.

(** A run on a catalogue that holds a site returns when the processing of
    each of its sites does. *)
Lemma sherlock_returns username site_data o :
  NoDup (dict_keys site_data) ->
  site_data <> [] ->
  (forall n info, In (n, info) site_data ->
                  exists rs, site_entry username o n info = Ok rs) ->
  exists res, value (sherlock username site_data o) = Ok res.
Proof.
  intros N NE H. destruct (entries_total _ _ _ H) as [res E].
  exists res. now apply sherlock_entries_iff.
Qed.

(** The exception of a run is that of the one site whose processing
    raises, when there is one such site. *)
Lemma sherlock_raises username site_data o n info e :
  NoDup (dict_keys site_data) ->
  dict_get n site_data = Some info ->
  site_entry username o n info = Err e ->
  (forall n' info', In (n', info') site_data -> n' <> n ->
     exists rs, site_entry username o n' info' = Ok rs) ->
  value (sherlock username site_data o) = Err e.
Proof.
  intros N G S H.
  destruct (sherlock_aborts _ _ _ _ _ _ N G S) as [e' R].
  rewrite R. f_equal.
  destruct (sherlock_error _ _ _ _ N (dict_get_nonempty _ _ _ G) R)
    as (n' & info' & I & S').
  destruct (String.eqb_spec n' n) as [->|ne].
  - apply (In_dict_get _ _ _ N) in I. rewrite G in I. injection I as <-.
    congruence.
  - destruct (H n' info' I ne) as [rs S'']. congruence.
Qed.

(* ------------------------------------------------------------------ *)
(** *** The body of each loop *)

(** The site for which a request is made: what the first loop returns for
    it, and the request's method and redirect policy. *)
Lemma probe_dispatch username o n info f :
  probe username o n info = Some f ->
  exists url_user et,
    value (dispatch_site username o n info) =
      Ok (set_request_future info f, pending_entry info url_user) /\
    errorType info = Some et /\
    fut_site f = n /\
    req_method (fut_request f) =
      (if String.eqb et "status_code" then HEAD else GET) /\
    req_allow_redirects (fut_request f) =
      (if String.eqb et "response_url" then false else true).
Proof.
  unfold probe, dispatch_site, pending_entry. run_monad. intros H. cases.
  all: eexists; eexists; repeat split; simpl;
    repeat match goal with
      | E : ?b = _ |- context [if ?b then _ else _] => rewrite E
      end; reflexivity.
Qed.

Lemma submit_probe username o n info f :
  In (Submit f) (trace (dispatch_site username o n info)) ->
  probe username o n info = Some f.
Proof.
  unfold probe, dispatch_site. run_monad. intros H. cases.
  all: in_cases; try discriminate; try reflexivity.
Qed.

(** A username the site's pattern rejects: nothing is submitted and the
    entry is complete after the first loop. *)
Lemma dispatch_illegal username o n info pattern :
  regexCheck info = Some pattern ->
  str_truthy pattern = true ->
  re_search pattern username = Ok false ->
  probe username o n info = None /\
  value (dispatch_site username o n info) = Ok (info, illegal_entry info).
Proof.
  intros R T S. unfold probe, dispatch_site, illegal_entry.
  rewrite R, T, S. run_monad.
  now destruct (print_output o), (print_found_only o).
Qed.

(** The first loop leaves an entry in one of two shapes. *)
Lemma dispatch_shape username o n info info' rs :
  value (dispatch_site username o n info) = Ok (info', rs) ->
  rs = illegal_entry info \/
  exists url_user f,
    rs = pending_entry info url_user /\ probe username o n info = Some f.
Proof.
  unfold probe, dispatch_site, illegal_entry, pending_entry. run_monad.
  intros H. cases.
  all: first [ left; reflexivity
             | right; eexists; eexists; split; reflexivity ].
Qed.

Lemma collect_site_console o n info rs ev :
  In ev (trace (collect_site o n info rs)) -> exists l, ev = Console l.
Proof.
  unfold collect_site, get_response, classify, attr_of. run_monad.
  intros H. cases.
  all: in_cases; subst; eexists; reflexivity.
Qed.

(** The second loop on an entry the first loop left pending. *)
Lemma collect_pending o n info info' url_user et f :
  errorType info' = Some et ->
  request_future info' = Some f ->
  value (collect_site o n info' (pending_entry info url_user)) =
  match value (get_response f) with
  | Ok (r, error_text, _) =>
      match value (classify n et info' r error_text) with
      | Ok q => Ok (completed_entry info url_user q r)
      | Err e => Err e
      end
  | Err e => Err e
  end.
Proof.
  intros E F. unfold collect_site, pending_entry, completed_entry.
  rewrite E, F. cbn [getitem].
  rewrite value_bind. cbn [value ret snd]. rewrite value_bind.
  cbn [value ret snd]. rewrite value_bind.
  destruct (value (get_response f)) as [[[r error_text] expection_text]|e];
    [|reflexivity].
  rewrite value_bind.
  destruct (value (classify n et info' r error_text)) as [q|e]; [|reflexivity].
  rewrite value_bind, value_when.
  - reflexivity.
  - destruct (status q); try reflexivity; now destruct (print_found_only o).
Qed.

Lemma get_response_returned f r :
  future_result f = Returned r ->
  status_code r <> 0%Z ->
  value (get_response f) = Ok (Some r, None, None).
Proof.
  intros F S. unfold get_response. rewrite F.
  destruct (Z.eqb_spec (status_code r) 0); [contradiction | reflexivity].
Qed.

Lemma get_response_raised f c msg :
  future_result f = Raised c msg ->
  isinstance c RequestException = true ->
  value (get_response f) = Ok (None, Some (error_context_of c), Some msg).
Proof.
  intros F I. unfold get_response, error_context_of. rewrite F, I.
  now destruct (isinstance c HTTPError), (isinstance c ProxyError),
    (isinstance c ConnectionError), (isinstance c Timeout).
Qed.

Lemma classify_set_future n et info f r error_text :
  classify n et (set_request_future info f) r error_text =
  classify n et info r error_text.
Proof. reflexivity. Qed.

(** The entry of a site for which a request is made. *)
Lemma site_entry_dispatched username o n info f :
  probe username o n info = Some f ->
  exists url_user et,
    errorType info = Some et /\
    site_entry username o n info =
      match value (get_response f) with
      | Ok (r, error_text, _) =>
          match value (classify n et info r error_text) with
          | Ok q => Ok (completed_entry info url_user q r)
          | Err e => Err e
          end
      | Err e => Err e
      end.
Proof.
  intros P. destruct (probe_dispatch _ _ _ _ _ P) as (url_user & et & D & E & _).
  exists url_user, et. split; [exact E|].
  unfold site_entry. rewrite D. unfold finish_site.
  change (is_not_none (dict_get "status" (pending_entry info url_user)))
    with false. cbv iota.
  now rewrite (collect_pending o n info (set_request_future info f)
                 url_user et f E eq_refl).
Qed.

(** The entry of a site whose pattern rejects the username. *)
Lemma site_entry_illegal username o n info pattern :
  regexCheck info = Some pattern ->
  str_truthy pattern = true ->
  re_search pattern username = Ok false ->
  site_entry username o n info = Ok (illegal_entry info).
Proof.
  intros R T S.
  destruct (dispatch_illegal username o n info pattern R T S) as [_ D].
  unfold site_entry. now rewrite D.
Qed.

(** [classify] never answers [ILLEGAL]. *)
Lemma classify_not_illegal n et info r error_text q :
  value (classify n et info r error_text) = Ok q -> status q <> ILLEGAL.
Proof.
  unfold classify, attr_of. run_monad. intros H. cases.
  all: simpl; discriminate.
Qed.

(* ------------------------------------------------------------------ *)
(** *** The requests of a run *)

Lemma first_loop_submit username o items f : forall acc,
  In (Submit f) (trace (first_loop username o items acc)) ->
  exists n info,
    In (n, info) items /\
    In (Submit f) (trace (dispatch_site username o n info)).
Proof.
  induction items as [|[n info] rest IH]; intros acc; simpl.
  - contradiction.
  - rewrite trace_bind. intros H. apply in_app_or in H. destruct H as [H|H].
    + exists n, info. split; [now left | exact H].
    + destruct (value (dispatch_site username o n info)) as [[info' rs]|e];
        [|contradiction].
      rewrite trace_bind in H. apply in_app_or in H. destruct H as [H|H].
      * destruct (IH _ H) as (n' & info'' & I & T).
        exists n', info''. split; [now right | exact T].
      * destruct (value (first_loop username o rest
                           (dict_set n rs acc))) as [[rest' total]|e];
          simpl in H; contradiction.
Qed.

Lemma second_step_console o n info total ev :
  In ev (trace (second_step o n info total)) -> exists l, ev = Console l.
Proof.
  unfold second_step. rewrite trace_bind.
  destruct (dict_get n total) as [rs|]; simpl; [|contradiction].
  destruct (is_not_none (dict_get "status" rs)); simpl; [contradiction|].
  rewrite trace_bind. intros H. apply in_app_or in H. destruct H as [H|H].
  - exact (collect_site_console _ _ _ _ _ H).
  - destruct (value (collect_site o n info rs)); simpl in H; contradiction.
Qed.

Lemma second_loop_console o items ev : forall total,
  In ev (trace (second_loop o items total)) -> exists l, ev = Console l.
Proof.
  induction items as [|[n info] rest IH]; intros total; simpl.
  - contradiction.
  - rewrite trace_bind. intros H. apply in_app_or in H. destruct H as [H|H].
    + exact (second_step_console _ _ _ _ _ H).
    + destruct (value (second_step o n info total)) as [total'|e];
        [exact (IH _ H) | contradiction].
Qed.

(** Every request of a run is the one the first loop makes for a site of
    the catalogue. *)
Lemma sherlock_submit username site_data o f :
  In (Submit f) (trace (sherlock username site_data o)) ->
  exists info,
    In (fut_site f, info) site_data /\
    probe username o (fut_site f) info = Some f.
Proof.
  destruct (nonempty_dec site_data) as [->|NE].
  { rewrite sherlock_empty. unfold heading.
    destruct (print_output o); simpl; intros H; in_cases; discriminate. }
  rewrite (sherlock_nonempty _ _ _ NE). rewrite trace_bind. intros H.
  apply in_app_or in H. destruct H as [H|H].
  - destruct (print_output o); simpl in H; in_cases; discriminate.
  - rewrite value_when in H by reflexivity.
    rewrite trace_bind in H. apply in_app_or in H. destruct H as [H|H].
    + destruct (first_loop_submit _ _ _ _ _ H) as (n & info & I & T).
      apply submit_probe in T.
      destruct (probe_dispatch _ _ _ _ _ T) as (_ & _ & _ & _ & S & _).
      subst n. now exists info.
    + destruct (value (first_loop username o site_data [])) as [[sd' total]|e];
        [|contradiction].
      destruct (second_loop_console _ _ _ _ H) as [l E]. discriminate.
Qed.

(* ------------------------------------------------------------------ *)
(** *** Helpers for the statements about a run *)

Lemma distinct_NoDup (l : list string) : distinct l = true -> NoDup l.
Proof.
  induction l as [|k rest IH]; simpl; intros H; [constructor|].
  apply andb_prop in H. destruct H as [H1 H2]. constructor; [|auto].
  intros I. apply negb_true_iff in H1.
  assert (E : existsb (String.eqb k) rest = true)
    by (apply existsb_exists; exists k; split;
        [exact I | apply String.eqb_refl]).
  congruence.
Qed.

(** The entry a site's own processing yields is the one a returning run
    records for it. *)
Lemma recorded username site_data o n info rs :
  NoDup (dict_keys site_data) ->
  dict_get n site_data = Some info ->
  site_entry username o n info = Ok rs ->
  forall res, value (sherlock username site_data o) = Ok res ->
              dict_get n res = Some rs.
Proof.
  intros N G S res R.
  destruct (sherlock_entry _ _ _ _ _ _ N R G) as (rs' & S' & G').
  congruence.
Qed.

Lemma verdict_completed info url_user q r :
  verdict (completed_entry info url_user q r) = Some q.
Proof. reflexivity. Qed.

(** An entry whose verdict is [ILLEGAL] was completed by the first loop. *)
Lemma site_entry_illegal_shape username o n info rs q :
  site_entry username o n info = Ok rs ->
  verdict rs = Some q ->
  status q = ILLEGAL ->
  rs = illegal_entry info.
Proof.
  intros S V I.
  destruct (value (dispatch_site username o n info)) as [[info' rs0]|e] eqn:D.
  - destruct (dispatch_shape _ _ _ _ _ _ D) as [->|(url_user & f & -> & P)].
    + unfold site_entry in S. rewrite D in S. unfold finish_site in S.
      simpl in S. now injection S as <-.
    + destruct (site_entry_dispatched _ _ _ _ _ P) as (url' & et & _ & S').
      rewrite S' in S.
      destruct (value (get_response f)) as [[[r t] x]|e]; [|discriminate].
      destruct (value (classify n et info r t)) as [q'|e] eqn:C;
        [|discriminate].
      injection S as <-. rewrite verdict_completed in V. injection V as ->.
      now apply classify_not_illegal in C.
  - unfold site_entry in S. rewrite D in S. discriminate.
Qed.

(** The [status_code] branch answers [CLAIMED] exactly for a status below
    300. *)
Lemma classify_status_code n info r :
  value (classify n "status_code" info (Some r) None) =
  Ok (mkQueryResult
        (if (status_code r <? 300)%Z then CLAIMED else AVAILABLE) None).
Proof.
  unfold classify. simpl. rewrite Z.geb_leb.
  destruct (Z.leb_spec 300 (status_code r)),
    (Z.ltb_spec (status_code r) 200), (Z.ltb_spec (status_code r) 300);
    simpl; try reflexivity; lia.
Qed.

(** The entry of a site whose request raises a [RequestException]. *)
Lemma site_entry_failed username o n info f c msg :
  probe username o n info = Some f ->
  future_result f = Raised c msg ->
  isinstance c RequestException = true ->
  exists url_user,
    site_entry username o n info =
      Ok (completed_entry info url_user
            (mkQueryResult UNKNOWN (Some (error_context_of c))) None).
Proof.
  intros P F I.
  destruct (site_entry_dispatched _ _ _ _ _ P) as (url_user & et & _ & SE).
  rewrite (get_response_raised _ _ _ F I) in SE. exists url_user. exact SE.
Qed.

(* ================================================================== *)
(** ** The verdicts of a run *)

(** C1 (as amended).  For a site whose [errorType] is [status_code] and
    whose request returns a response with HTTP status [s]: the site's
    processing yields an entry whose verdict is [CLAIMED] when
    [200 <= s < 300] and [AVAILABLE] when [300 <= s], and that entry is the
    one a returning run records for the site. *)
Theorem status_code_verdict username site_data o n info f r :
  NoDup (dict_keys site_data) ->
  dict_get n site_data = Some info ->
  errorType info = Some "status_code" ->
  probe username o n info = Some f ->
  future_result f = Returned r ->
  status_code r <> 0%Z ->
  exists rs,
    site_entry username o n info = Ok rs /\
    ((200 <= status_code r < 300)%Z ->
     verdict rs = Some (mkQueryResult CLAIMED None)) /\
    ((300 <= status_code r)%Z ->
     verdict rs = Some (mkQueryResult AVAILABLE None)) /\
    forall res, value (sherlock username site_data o) = Ok res ->
                dict_get n res = Some rs.
Proof.
  intros N G E P F S.
  destruct (site_entry_dispatched _ _ _ _ _ P) as (url_user & et & E' & SE).
  rewrite E in E'. injection E' as <-.
  rewrite (get_response_returned _ _ F S) in SE.
  unfold classify in SE. simpl in SE. rewrite Z.geb_leb in SE.
  destruct (Z.leb_spec 300 (status_code r)) as [ge|lt];
    destruct (Z.ltb_spec (status_code r) 200) as [low|high];
    simpl in SE; eexists; (split; [exact SE|]);
    (split; [|split; [|now apply (recorded _ _ _ _ info)]]);
    intros; rewrite verdict_completed; try reflexivity; lia.
Qed.

(** C2.  For a site whose [errorType] is [message] and whose request returns
    a response: the verdict is [AVAILABLE] when the site's [errorMsg] occurs
    verbatim in the response text and [CLAIMED] when it does not, and the
    entry is the one a returning run records for the site. *)
Theorem message_verdict username site_data o n info msg f r :
  NoDup (dict_keys site_data) ->
  dict_get n site_data = Some info ->
  errorType info = Some "message" ->
  errorMsg info = Some msg ->
  probe username o n info = Some f ->
  future_result f = Returned r ->
  status_code r <> 0%Z ->
  exists rs,
    site_entry username o n info = Ok rs /\
    (substring_of msg (text r) ->
     verdict rs = Some (mkQueryResult AVAILABLE None)) /\
    (~ substring_of msg (text r) ->
     verdict rs = Some (mkQueryResult CLAIMED None)) /\
    forall res, value (sherlock username site_data o) = Ok res ->
                dict_get n res = Some rs.
Proof.
  intros N G E EM P F S.
  destruct (site_entry_dispatched _ _ _ _ _ P) as (url_user & et & E' & SE).
  rewrite E in E'. injection E' as <-.
  rewrite (get_response_returned _ _ F S) in SE.
  unfold classify in SE. simpl in SE. rewrite EM in SE.
  destruct (str_in msg (text r)) eqn:B; simpl in SE;
    eexists; (split; [exact SE|]);
    (split; [|split; [|now apply (recorded _ _ _ _ info)]]);
    intros H; rewrite verdict_completed; try reflexivity.
  - exfalso. apply H. now apply str_in_spec.
  - apply str_in_spec in H. congruence.
Qed.

(** C3.  For a site whose [errorType] is [response_url] and whose request
    returns a response with HTTP status [s]: the verdict is [CLAIMED] when
    [200 <= s < 300] and [AVAILABLE] otherwise, and the entry is the one a
    returning run records for the site. *)
Theorem response_url_verdict username site_data o n info f r :
  NoDup (dict_keys site_data) ->
  dict_get n site_data = Some info ->
  errorType info = Some "response_url" ->
  probe username o n info = Some f ->
  future_result f = Returned r ->
  status_code r <> 0%Z ->
  exists rs,
    site_entry username o n info = Ok rs /\
    ((200 <= status_code r < 300)%Z ->
     verdict rs = Some (mkQueryResult CLAIMED None)) /\
    (~ (200 <= status_code r < 300)%Z ->
     verdict rs = Some (mkQueryResult AVAILABLE None)) /\
    forall res, value (sherlock username site_data o) = Ok res ->
                dict_get n res = Some rs.
Proof.
  intros N G E P F S.
  destruct (site_entry_dispatched _ _ _ _ _ P) as (url_user & et & E' & SE).
  rewrite E in E'. injection E' as <-.
  rewrite (get_response_returned _ _ F S) in SE.
  unfold classify in SE. simpl in SE.
  destruct (Z.leb_spec 200 (status_code r)) as [ge|lt];
    destruct (Z.ltb_spec (status_code r) 300) as [low|high];
    simpl in SE; eexists; (split; [exact SE|]);
    (split; [|split; [|now apply (recorded _ _ _ _ info)]]);
    intros; rewrite verdict_completed; try reflexivity; lia.
Qed.

(** C4.  Every request of a run is made for a site of the catalogue, and it
    is made with redirects disallowed exactly when that site's [errorType]
    is [response_url]; for every other [errorType] redirects are allowed. *)
Theorem redirects_iff_response_url username site_data o f :
  In (Submit f) (trace (sherlock username site_data o)) ->
  exists info et,
    In (fut_site f, info) site_data /\
    errorType info = Some et /\
    (req_allow_redirects (fut_request f) = false <-> et = "response_url") /\
    (req_allow_redirects (fut_request f) = true <-> et <> "response_url").
Proof.
  intros H. destruct (sherlock_submit _ _ _ _ H) as (info & I & P).
  destruct (probe_dispatch _ _ _ _ _ P) as (_ & et & _ & E & _ & _ & A).
  exists info, et. split; [exact I|]. split; [exact E|]. rewrite A.
  destruct (String.eqb_spec et "response_url") as [->|ne]; split; split;
    intros; try reflexivity; try discriminate; congruence.
Qed.

(** C5.  Every request of a run is made for a site of the catalogue, and it
    is a [HEAD] request exactly when that site's [errorType] is
    [status_code]; for every other [errorType] it is a [GET] request. *)
Theorem head_iff_status_code username site_data o f :
  In (Submit f) (trace (sherlock username site_data o)) ->
  exists info et,
    In (fut_site f, info) site_data /\
    errorType info = Some et /\
    (req_method (fut_request f) = HEAD <-> et = "status_code") /\
    (req_method (fut_request f) = GET <-> et <> "status_code").
Proof.
  intros H. destruct (sherlock_submit _ _ _ _ H) as (info & I & P).
  destruct (probe_dispatch _ _ _ _ _ P) as (_ & et & _ & E & _ & M & _).
  exists info, et. split; [exact I|]. split; [exact E|]. rewrite M.
  destruct (String.eqb_spec et "status_code") as [->|ne]; split; split;
    intros; try reflexivity; try discriminate; congruence.
Qed.

(** C7.  For a site that declares a [regexCheck] which the username does not
    match: no request of the run is made for that site, the site's entry
    has the verdict [ILLEGAL], and that entry is the one a returning run
    records.  ([re.search] with the empty pattern matches every string.) *)
Theorem illegal_username_skipped username site_data o n info pattern :
  (forall s, re_search "" s = Ok true) ->
  NoDup (dict_keys site_data) ->
  dict_get n site_data = Some info ->
  regexCheck info = Some pattern ->
  re_search pattern username = Ok false ->
  (forall f, In (Submit f) (trace (sherlock username site_data o)) ->
             fut_site f <> n) /\
  exists rs,
    site_entry username o n info = Ok rs /\
    verdict rs = Some (mkQueryResult ILLEGAL None) /\
    forall res, value (sherlock username site_data o) = Ok res ->
                dict_get n res = Some rs.
Proof.
  intros RE N G R S.
  assert (T : str_truthy pattern = true).
  { destruct pattern; [|reflexivity]. rewrite RE in S. discriminate. }
  split.
  - intros f H <-. destruct (sherlock_submit _ _ _ _ H) as (info' & I & P).
    apply (In_dict_get _ _ _ N) in I. rewrite G in I. injection I as <-.
    destruct (dispatch_illegal username o (fut_site f) info pattern R T S)
      as [P' _].
    congruence.
  - exists (illegal_entry info).
    pose proof (site_entry_illegal username o n info pattern R T S) as SE.
    split; [exact SE|]. split; [reflexivity|].
    now apply (recorded _ _ _ _ info).
Qed.


(** C9.  For a catalogue (a dictionary: no name occurs twice) and a
    username: the keys of the returned results are the names of the
    catalogue, each once and in the catalogue's order, whatever the futures
    yield; and the run on a catalogue that holds a site returns whenever
    the processing of each site does.  (On the empty catalogue the run
    returns nothing: creating the session raises.) *)
Theorem results_follow_catalog username site_data o :
  NoDup (dict_keys site_data) ->
  (forall res, value (sherlock username site_data o) = Ok res ->
               dict_keys res = dict_keys site_data /\ NoDup (dict_keys res)) /\
  (site_data <> [] ->
   (forall n info, In (n, info) site_data ->
                   exists rs, site_entry username o n info = Ok rs) ->
   exists res, value (sherlock username site_data o) = Ok res).
Proof.
  intros N. split.
  - intros res R. apply (sherlock_entries _ _ _ _ N) in R.
    rewrite (entries_keys _ _ _ _ R). now split.
  - now apply sherlock_returns.
Qed.

(** C10.  In the results a run returns, an entry whose verdict is [ILLEGAL]
    has the empty string under [url_user], [http_status], [response_text]
    and [response_time_s]. *)
Theorem illegal_entry_fields username site_data o res n rs q :
  NoDup (dict_keys site_data) ->
  value (sherlock username site_data o) = Ok res ->
  dict_get n res = Some rs ->
  verdict rs = Some q ->
  status q = ILLEGAL ->
  dict_get "url_user" rs = Some (PyStr "") /\
  dict_get "http_status" rs = Some (PyStr "") /\
  dict_get "response_text" rs = Some (PyStr "") /\
  dict_get "response_time_s" rs = Some (PyStr "").
Proof.
  intros N R G V I.
  assert (K : In n (dict_keys site_data)).
  { apply (sherlock_entries _ _ _ _ N) in R.
    rewrite <- (entries_keys _ _ _ _ R). exact (dict_get_keys _ _ _ G). }
  destruct (dict_keys_get _ _ K) as [info GI].
  destruct (sherlock_entry _ _ _ _ _ _ N R GI) as (rs' & SE & G').
  rewrite G in G'. injection G' as <-.
  rewrite (site_entry_illegal_shape _ _ _ _ _ _ SE V I).
  repeat split.
Qed.

(* ================================================================== *)
(** ** The effects of a run *)

Lemma submitted_app t1 t2 : submitted (t1 ++ t2) = submitted t1 ++ submitted t2.
Proof. apply flat_map_app. Qed.

Lemma console_app t1 t2 : console (t1 ++ t2) = console t1 ++ console t2.
Proof. apply flat_map_app. Qed.

Lemma network_app t1 t2 : network (t1 ++ t2) = network t1 ++ network t2.
Proof. apply filter_app. Qed.

Lemma In_console l t : In l (console t) <-> In (Console l) t.
Proof.
  unfold console. rewrite in_flat_map. split.
  - intros (ev & I & H). destruct ev; simpl in H; try contradiction.
    destruct H as [<-|[]]. exact I.
  - intros I. exists (Console l). split; [exact I | now left].
Qed.

Lemma In_submitted f t : In f (submitted t) <-> In (Submit f) t.
Proof.
  unfold submitted. rewrite in_flat_map. split.
  - intros (ev & I & H). destruct ev; simpl in H; try contradiction.
    destruct H as [<-|[]]. exact I.
  - intros I. exists (Submit f). split; [exact I | now left].
Qed.

(** A trace of console lines holds nothing for the network. *)
Lemma console_only t :
  (forall ev, In ev t -> exists l, ev = Console l) ->
  submitted t = [] /\ network t = [].
Proof.
  induction t as [|ev t IH]; intros H; [now split|].
  destruct (H ev (or_introl eq_refl)) as [l ->].
  destruct IH as [S N]; [intros; apply H; now right|].
  simpl. now rewrite N.
Qed.

Lemma first_loop_trace username o items : forall acc,
  trace (first_loop username o items acc) = first_trace username o items.
Proof.
  induction items as [|[n info] rest IH]; intros acc; simpl; [reflexivity|].
  rewrite trace_bind. f_equal.
  destruct (value (dispatch_site username o n info)) as [[info' rs]|e];
    [|reflexivity].
  rewrite trace_bind, IH.
  destruct (value (first_loop username o rest (dict_set n rs acc)))
    as [[rest' total]|e]; simpl; now rewrite app_nil_r.
Qed.

Lemma second_loop_events o items ev : forall total,
  In ev (trace (second_loop o items total)) ->
  exists n info rs, In ev (trace (collect_site o n info rs)).
Proof.
  induction items as [|[n info] rest IH]; intros total; simpl.
  - contradiction.
  - rewrite trace_bind. intros H. apply in_app_or in H. destruct H as [H|H].
    + unfold second_step in H. rewrite trace_bind in H.
      destruct (dict_get n total) as [rs|]; simpl in H; [|contradiction].
      destruct (is_not_none (dict_get "status" rs)); simpl in H;
        [contradiction|].
      rewrite trace_bind in H. apply in_app_or in H. destruct H as [H|H].
      * now exists n, info, rs.
      * destruct (value (collect_site o n info rs)); simpl in H;
          contradiction.
    + destruct (value (second_step o n info total)) as [total'|e];
        [exact (IH _ H) | contradiction].
Qed.

(** The trace of a run: the heading, the events of the first loop, and the
    events of the second, which are console lines of [collect_site]. *)
Lemma sherlock_trace_split username site_data o :
  exists t2,
    trace (sherlock username site_data o) =
      heading username o ++ first_trace username o site_data ++ t2 /\
    forall ev, In ev t2 -> exists n info rs,
                 In ev (trace (collect_site o n info rs)).
Proof.
  destruct (nonempty_dec site_data) as [->|NE].
  { rewrite sherlock_empty. exists []. split.
    - simpl. now rewrite app_nil_r.
    - contradiction. }
  rewrite (sherlock_nonempty _ _ _ NE).
  rewrite trace_bind, value_when by reflexivity.
  rewrite trace_bind, first_loop_trace.
  destruct (value (first_loop username o site_data [])) as [[sd' total]|e].
  - exists (trace (second_loop o sd' total)). split.
    + unfold heading. now destruct (print_output o).
    + intros ev. apply second_loop_events.
  - exists []. split.
    + unfold heading. now destruct (print_output o).
    + contradiction.
Qed.

(** The first loop makes at most one request for a site. *)
Lemma dispatch_submitted username o n info :
  submitted (trace (dispatch_site username o n info)) =
  match probe username o n info with Some f => [f] | None => [] end.
Proof.
  unfold probe, dispatch_site. run_monad. cases; reflexivity.
Qed.

Lemma dispatch_network username o n info :
  network (trace (dispatch_site username o n info)) =
  flat_map (fun f => Submit f :: if unique_tor o then [ResetIdentity] else [])
    (submitted (trace (dispatch_site username o n info))).
Proof.
  unfold dispatch_site. run_monad. cases; reflexivity.
Qed.

Lemma first_trace_network username o items :
  network (first_trace username o items) =
  flat_map (fun f => Submit f :: if unique_tor o then [ResetIdentity] else [])
    (submitted (first_trace username o items)).
Proof.
  induction items as [|[n info] rest IH]; simpl; [reflexivity|].
  rewrite network_app, submitted_app, flat_map_app, dispatch_network.
  f_equal. now destruct (value (dispatch_site username o n info)).
Qed.

(** The requests of a run are those of its first loop. *)
Lemma sherlock_submitted username site_data o :
  submitted (trace (sherlock username site_data o)) =
  submitted (first_trace username o site_data) /\
  network (trace (sherlock username site_data o)) =
  network (first_trace username o site_data).
Proof.
  destruct (sherlock_trace_split username site_data o) as (t2 & -> & H).
  assert (C : forall ev, In ev t2 -> exists l, ev = Console l).
  { intros ev I. destruct (H ev I) as (n & info & rs & I').
    exact (collect_site_console _ _ _ _ _ I'). }
  destruct (console_only t2 C) as [S N].
  rewrite !submitted_app, !network_app, S, N, !app_nil_r.
  unfold heading. now destruct (print_output o).
Qed.

(** X1.  Tor identities.  In every run, the events that reach the network
    are the requests in order, each followed at once by a reset of the Tor
    identity when [unique_tor] is set, and by nothing otherwise. *)
Theorem identity_reset_after_each_request username site_data o :
  network (trace (sherlock username site_data o)) =
  flat_map (fun f => Submit f :: if unique_tor o then [ResetIdentity] else [])
    (submitted (trace (sherlock username site_data o))).
Proof.
  destruct (sherlock_submitted username site_data o) as [-> ->].
  apply first_trace_network.
Qed.

Lemma dispatch_console username o n info l :
  In (Console l) (trace (dispatch_site username o n info)) ->
  l = print_invalid n illegal_msg (color o) /\
  print_output o = true /\ print_found_only o = false.
Proof.
  unfold dispatch_site.
  destruct (print_output o) eqn:PO, (print_found_only o) eqn:PF.
  all: run_monad; intros H; cases.
  all: in_cases; try discriminate;
    match goal with H : Console _ = Console _ |- _ => injection H as <- end;
    now repeat split.
Qed.

Lemma collect_console o n info rs l :
  In (Console l) (trace (collect_site o n info rs)) ->
  print_output o = true /\
  line_site l = Some n /\
  match l with
  | print_found _ _ _ _ _ | print_error _ _ _ _ _ _ => True
  | print_not_found _ _ _ _ => print_found_only o = false
  | _ => False
  end.
Proof.
  unfold collect_site, get_response, classify, attr_of.
  destruct (print_output o) eqn:PO, (print_found_only o) eqn:PF.
  all: run_monad; intros H; cases.
  all: in_cases; try discriminate;
    match goal with H : Console _ = Console _ |- _ => injection H as <- end;
    now repeat split.
Qed.

Lemma first_trace_In username o items ev :
  In ev (first_trace username o items) ->
  exists n info,
    In (n, info) items /\ In ev (trace (dispatch_site username o n info)).
Proof.
  induction items as [|[n info] rest IH]; simpl; [contradiction|].
  intros H. apply in_app_or in H. destruct H as [H|H].
  - exists n, info. split; [now left | exact H].
  - destruct (value (dispatch_site username o n info)); [|contradiction].
    destruct (IH H) as (n' & info' & I & T).
    exists n', info'. split; [now right | exact T].
Qed.

(** X2.  Console output.  A run prints nothing unless [print_output] is set,
    and with [print_found_only] it prints no line for a site that was not
    found and none for a site whose pattern rejects the username. *)
Theorem console_lines_allowed username site_data o l :
  In (Console l) (trace (sherlock username site_data o)) ->
  print_output o = true /\
  match l with
  | print_not_found _ _ _ _ | print_invalid _ _ _ => print_found_only o = false
  | _ => True
  end.
Proof.
  destruct (sherlock_trace_split username site_data o) as (t2 & -> & H2).
  intros H. apply in_app_or in H. destruct H as [H|H].
  - unfold heading in H. destruct (print_output o); simpl in H; in_cases.
    injection H as <-. now split.
  - apply in_app_or in H. destruct H as [H|H].
    + destruct (first_trace_In _ _ _ _ H) as (n & info & _ & T).
      destruct (dispatch_console _ _ _ _ _ T) as (-> & P & F). now split.
    + destruct (H2 _ H) as (n & info & rs & T).
      destruct (collect_console _ _ _ _ _ T) as (P & _ & C).
      split; [exact P|]. destruct l; try exact I; try exact C; contradiction.
Qed.

(** What the first loop returns for a site: the entry of a skipped site,
    with no request, or a pending entry and the request made. *)
Lemma dispatch_cases username o n info info' rs :
  value (dispatch_site username o n info) = Ok (info', rs) ->
  (rs = illegal_entry info /\ info' = info /\
   probe username o n info = None) \/
  exists url_user f,
    rs = pending_entry info url_user /\ info' = set_request_future info f /\
    probe username o n info = Some f.
Proof.
  unfold probe, dispatch_site, illegal_entry, pending_entry. run_monad.
  intros H. cases.
  all: first [ left; repeat split; reflexivity
             | right; eexists; eexists; repeat split; reflexivity ].
Qed.

(** What the two loops make of a site in a run that returns. *)
Lemma site_cases username o n info info' rs0 rs :
  value (dispatch_site username o n info) = Ok (info', rs0) ->
  finish_site o n info' rs0 = Ok rs ->
  (rs = illegal_entry info /\ rs0 = illegal_entry info /\
   probe username o n info = None) \/
  exists url_user f r error_text expection_text et q,
    rs0 = pending_entry info url_user /\
    info' = set_request_future info f /\
    probe username o n info = Some f /\
    errorType info = Some et /\
    value (get_response f) = Ok (r, error_text, expection_text) /\
    value (classify n et info r error_text) = Ok q /\
    rs = completed_entry info url_user q r.
Proof.
  intros D F.
  destruct (dispatch_cases _ _ _ _ _ _ D) as [(-> & -> & P)|(u & f & -> & -> & P)].
  - left. unfold finish_site in F. simpl in F. injection F as <-.
    now repeat split.
  - right. destruct (probe_dispatch _ _ _ _ _ P) as (u' & et & _ & E & _).
    unfold finish_site in F.
    change (is_not_none (dict_get "status" (pending_entry info u)))
      with false in F. cbv iota in F.
    rewrite (collect_pending o n info (set_request_future info f) u et f
               E eq_refl) in F.
    destruct (value (get_response f)) as [[[r t] x]|e] eqn:G; [|discriminate].
    rewrite classify_set_future in F.
    destruct (value (classify n et info r t)) as [q|e] eqn:C; [|discriminate].
    injection F as <-. exists u, f, r, t, x, et, q. now repeat split.
Qed.

Lemma run_step username o n info rest l res :
  dispatch_values username o ((n, info) :: rest) = Ok l ->
  collect_values o l = Ok res ->
  exists info' rs0 rs l' res',
    l = (n, (info', rs0)) :: l' /\ res = (n, rs) :: res' /\
    value (dispatch_site username o n info) = Ok (info', rs0) /\
    finish_site o n info' rs0 = Ok rs /\
    dispatch_values username o rest = Ok l' /\
    collect_values o l' = Ok res'.
Proof.
  simpl. intros D C.
  destruct (value (dispatch_site username o n info)) as [[info' rs0]|e];
    [|discriminate].
  destruct (dispatch_values username o rest) as [l'|e]; [|discriminate].
  injection D as <-. simpl in C.
  destruct (finish_site o n info' rs0) as [rs|e] eqn:F; [|discriminate].
  destruct (collect_values o l') as [res'|e] eqn:C'; [|discriminate].
  injection C as <-. exists info', rs0, rs, l', res'.
  repeat split; assumption.
Qed.

Lemma is_illegal_completed info url_user q r n et t :
  value (classify n et info r t) = Ok q ->
  is_illegal (completed_entry info url_user q r) = false.
Proof.
  intros C. apply classify_not_illegal in C. unfold is_illegal.
  rewrite verdict_completed. now destruct (status q).
Qed.

Lemma requested_first_trace username o items :
  forall x, In x (requested (first_trace username o items)) ->
            In x (dict_keys items).
Proof.
  unfold requested. intros x H. apply in_map_iff in H.
  destruct H as (f & <- & H). apply In_submitted in H.
  destruct (first_trace_In _ _ _ _ H) as (n & info & I & T).
  apply submit_probe in T.
  destruct (probe_dispatch _ _ _ _ _ T) as (_ & _ & _ & _ & -> & _).
  unfold dict_keys. change n with (fst (n, info)). now apply in_map.
Qed.

Lemma requested_NoDup username o items :
  NoDup (dict_keys items) -> NoDup (requested (first_trace username o items)).
Proof.
  induction items as [|[n info] rest IH]; simpl; intros N; [constructor|].
  inversion N as [|? ? notin N']; subst.
  unfold requested. rewrite submitted_app, map_app, dispatch_submitted.
  assert (R : NoDup (requested
                       match value (dispatch_site username o n info) with
                       | Ok _ => first_trace username o rest
                       | Err _ => []
                       end)).
  { destruct (value (dispatch_site username o n info));
      [now apply IH | constructor]. }
  destruct (probe username o n info) as [f|] eqn:P; [|exact R].
  destruct (probe_dispatch _ _ _ _ _ P) as (_ & _ & _ & _ & S & _).
  simpl. rewrite S. constructor; [|exact R].
  intros I. apply notin.
  destruct (value (dispatch_site username o n info)); [|contradiction].
  now apply (requested_first_trace username o rest).
Qed.

Lemma requested_probed username o items : forall l res,
  dispatch_values username o items = Ok l ->
  collect_values o l = Ok res ->
  requested (first_trace username o items) = probed_sites res.
Proof.
  induction items as [|[n info] rest IH]; intros l res D C.
  - simpl in D. injection D as <-. simpl in C. now injection C as <-.
  - destruct (run_step _ _ _ _ _ _ _ D C)
      as (info' & rs0 & rs & l' & res' & -> & -> & D1 & F & D' & C').
    simpl. rewrite D1. unfold requested.
    rewrite submitted_app, map_app, dispatch_submitted.
    fold (requested (first_trace username o rest)). rewrite (IH _ _ D' C').
    unfold probed_sites. simpl.
    destruct (site_cases _ _ _ _ _ _ _ D1 F)
      as [(-> & _ & P)|(u & f & r & t & x & et & q & _ & _ & P & _ & _ & Cq & ->)];
      rewrite P.
    + reflexivity.
    + rewrite (is_illegal_completed _ _ _ _ _ _ _ Cq). simpl.
      destruct (probe_dispatch _ _ _ _ _ P) as (_ & _ & _ & _ & S & _).
      now rewrite S.
Qed.

(** X3.  Requests.  A run makes at most one request for a site, and a run
    that returns has made requests for exactly the sites whose recorded
    verdict is not [ILLEGAL], in the order of the catalogue. *)
Theorem one_request_per_probed_site username site_data o :
  NoDup (dict_keys site_data) ->
  NoDup (requested (trace (sherlock username site_data o))) /\
  forall res, value (sherlock username site_data o) = Ok res ->
              requested (trace (sherlock username site_data o)) =
              probed_sites res.
Proof.
  intros N. unfold requested at 1 2.
  destruct (sherlock_submitted username site_data o) as [-> _].
  split; [now apply requested_NoDup|].
  intros res R. apply (sherlock_returned _ _ _ _ N) in R.
  destruct (dispatch_values username o site_data) as [l|e] eqn:D;
    [|discriminate].
  exact (requested_probed _ _ _ _ _ D R).
Qed.


(* ================================================================== *)
(** ** The entries of a returned result *)

(** The entry of a site, when its processing returns: that of a skipped
    site, or one completed from the outcome of the site's request. *)
Lemma site_entry_cases username o n info rs :
  site_entry username o n info = Ok rs ->
  (rs = illegal_entry info /\ probe username o n info = None) \/
  exists url_user f r error_text expection_text et q,
    probe username o n info = Some f /\
    errorType info = Some et /\
    value (get_response f) = Ok (r, error_text, expection_text) /\
    value (classify n et info r error_text) = Ok q /\
    rs = completed_entry info url_user q r.
Proof.
  unfold site_entry. intros H.
  destruct (value (dispatch_site username o n info)) as [[info' rs0]|e] eqn:D;
    [|discriminate].
  destruct (site_cases _ _ _ _ _ _ _ D H)
    as [(-> & _ & P)|(u & f & r & t & x & et & q & _ & _ & P & E & G & C & ->)].
  - left. now split.
  - right. exists u, f, r, t, x, et, q. now repeat split.
Qed.

Lemma entries_origin username o items res n rs :
  entries username o items = Ok res -> In (n, rs) res ->
  exists info, In (n, info) items /\ site_entry username o n info = Ok rs.
Proof.
  revert res; induction items as [|[n' info'] rest IH]; simpl; intros res H I.
  - injection H as <-. contradiction.
  - destruct (site_entry username o n' info') as [rs'|e] eqn:S;
      [|discriminate].
    destruct (entries username o rest) as [res'|e]; [|discriminate].
    injection H as <-. destruct I as [E|I].
    + injection E as -> ->. exists info'. split; [now left | exact S].
    + destruct (IH res' eq_refl I) as (info & I' & S').
      exists info. split; [now right | exact S'].
Qed.

(** Every entry of a returned result is the entry of a site of the
    catalogue. *)
Lemma sherlock_origin username site_data o res n rs :
  NoDup (dict_keys site_data) ->
  value (sherlock username site_data o) = Ok res ->
  dict_get n res = Some rs ->
  exists info,
    dict_get n site_data = Some info /\ site_entry username o n info = Ok rs.
Proof.
  intros N R G. apply (sherlock_entries _ _ _ _ N) in R.
  destruct (entries_origin _ _ _ _ _ _ R (dict_get_In _ _ _ G))
    as (info & I & S).
  exists info. split; [now apply In_dict_get | exact S].
Qed.

(** What [get_response] answers, by the outcome of the future. *)
Lemma get_response_cases f r error_text expection_text :
  value (get_response f) = Ok (r, error_text, expection_text) ->
  (exists resp, future_result f = Returned resp /\ r = Some resp /\
                expection_text = None /\
                ((status_code resp <> 0%Z /\ error_text = None) \/
                 (status_code resp = 0%Z /\
                  error_text = Some "General Unknown Error"))) \/
  (exists c msg, future_result f = Raised c msg /\
                 isinstance c RequestException = true /\
                 r = None /\ error_text = Some (error_context_of c) /\
                 expection_text = Some msg).
Proof.
  unfold get_response, error_context_of.
  destruct (future_result f) as [resp|c msg].
  - destruct (Z.eqb_spec (status_code resp) 0); simpl; intros H;
      injection H as <- <- <-; left; exists resp;
      repeat split; [right | left]; now split.
  - intros H. right. exists c, msg.
    destruct (isinstance c HTTPError) eqn:I1;
      [|destruct (isinstance c ProxyError) eqn:I2;
        [|destruct (isinstance c ConnectionError) eqn:I3;
          [|destruct (isinstance c Timeout) eqn:I4;
            [|destruct (isinstance c RequestException) eqn:I5;
              [|discriminate]]]]];
      simpl in H; injection H as <- <- <-; repeat split;
      try reflexivity; destruct c; try reflexivity; discriminate.
Qed.

(** [classify] answers [UNKNOWN] only for an error context. *)
Lemma classify_unknown n et info r error_text q :
  value (classify n et info r error_text) = Ok q ->
  status q = UNKNOWN ->
  exists category, error_text = Some category /\ context q = Some category.
Proof.
  unfold classify, attr_of. run_monad. intros H U. cases.
  all: simpl in U; try discriminate.
  eexists; split; reflexivity.
Qed.

(** X4.  Shape of the entries.  In a returned result every entry holds a
    verdict and the profile URL as a string, and has exactly the six keys
    [url_main], [url_user], [status], [http_status], [response_text] and
    [response_time_s]: [status] second for a skipped site, third for a
    probed one. *)
Theorem entries_are_complete username site_data o res n rs :
  NoDup (dict_keys site_data) ->
  value (sherlock username site_data o) = Ok res ->
  dict_get n res = Some rs ->
  exists q url_user,
    verdict rs = Some q /\
    dict_get "url_user" rs = Some (PyStr url_user) /\
    dict_keys rs =
      if is_illegal rs
      then ["url_main"; "status"; "url_user"; "http_status"; "response_text";
            "response_time_s"]
      else ["url_main"; "url_user"; "status"; "http_status"; "response_text";
            "response_time_s"].
Proof.
  intros N R G.
  destruct (sherlock_origin _ _ _ _ _ _ N R G) as (info & _ & S).
  destruct (site_entry_cases _ _ _ _ _ S)
    as [(-> & _)|(u & f & r & t & x & et & q & _ & _ & _ & C & ->)].
  - exists (mkQueryResult ILLEGAL None), "". now repeat split.
  - exists q, u. rewrite (is_illegal_completed _ _ _ _ _ _ _ C).
    now repeat split.
Qed.

(** X5.  Where [UNKNOWN] comes from.  In a returned result the verdict of a
    site is [UNKNOWN] only if a request was made for the site and either
    it raised a [RequestException], whose category the verdict carries, or
    it returned a response without a status code, recorded as
    [General Unknown Error]. *)
Theorem unknown_only_for_failed_requests username site_data o res n info rs q :
  NoDup (dict_keys site_data) ->
  value (sherlock username site_data o) = Ok res ->
  dict_get n site_data = Some info ->
  dict_get n res = Some rs ->
  verdict rs = Some q ->
  status q = UNKNOWN ->
  exists f,
    probe username o n info = Some f /\
    ((exists c msg,
        future_result f = Raised c msg /\
        isinstance c RequestException = true /\
        context q = Some (error_context_of c) /\
        dict_get "http_status" rs = Some (PyStr "?")) \/
     (exists resp,
        future_result f = Returned resp /\ status_code resp = 0%Z /\
        context q = Some "General Unknown Error" /\
        dict_get "http_status" rs = Some (PyInt 0))).
Proof.
  intros N R GI G V U.
  pose proof (recorded' := sherlock_entry _ _ _ _ _ _ N R GI).
  destruct recorded' as (rs' & S & G'). rewrite G in G'. injection G' as <-.
  destruct (site_entry_cases _ _ _ _ _ S)
    as [(-> & _)|(u & f & r & t & x & et & q' & P & _ & GR & C & ->)].
  - injection V as <-. discriminate.
  - rewrite verdict_completed in V. injection V as ->.
    destruct (classify_unknown _ _ _ _ _ _ C U) as (cat & -> & CX).
    exists f. split; [exact P|].
    destruct (get_response_cases _ _ _ _ GR)
      as [(resp & F & -> & _ & [[_ E]|[Z E]])|(c & msg & F & I & -> & E & _)].
    + discriminate.
    + right. exists resp. injection E as <-. rewrite Z in *.
      repeat split; try assumption. simpl. now rewrite Z.
    + left. exists c, msg. injection E as <-. now repeat split.
Qed.

(* ================================================================== *)
(** ** The console output of a returned run *)

Lemma second_step_trace o n info rs pre tl :
  ~ In n (dict_keys pre) ->
  trace (second_step o n info (pre ++ (n, rs) :: tl)) =
  if is_not_none (dict_get "status" rs) then []
  else trace (collect_site o n info rs).
Proof.
  intros notin. unfold second_step.
  rewrite trace_bind, (dict_get_app_notin _ _ _ notin). simpl.
  rewrite String.eqb_refl. simpl.
  destruct (is_not_none (dict_get "status" rs)); [reflexivity|].
  rewrite trace_bind.
  destruct (value (collect_site o n info rs)); simpl; now rewrite app_nil_r.
Qed.

Lemma second_step_value o n info rs pre tl :
  ~ In n (dict_keys pre) ->
  value (second_step o n info (pre ++ (n, rs) :: tl)) =
  match finish_site o n info rs with
  | Ok rs' => Ok (pre ++ (n, rs') :: tl)
  | Err e => Err e
  end.
Proof.
  intros notin. unfold second_step, finish_site.
  rewrite value_bind, (dict_get_app_notin _ _ _ notin). simpl.
  rewrite String.eqb_refl. simpl.
  destruct (is_not_none (dict_get "status" rs)); [reflexivity|].
  rewrite value_bind.
  destruct (value (collect_site o n info rs)) as [rs'|e]; [|reflexivity].
  simpl. rewrite (dict_set_app_notin _ _ _ _ notin). simpl.
  now rewrite String.eqb_refl.
Qed.

Lemma second_loop_trace o l : forall pre,
  NoDup (dict_keys pre ++ dict_keys l) ->
  trace (second_loop o (infos_of l) (pre ++ results_of l)) = second_trace o l.
Proof.
  induction l as [|[n [info rs]] rest IH]; intros pre N; simpl; [reflexivity|].
  destruct (NoDup_keys_step pre n rs rest fst N) as [notin _].
  rewrite trace_bind, (second_step_trace _ _ _ _ _ _ notin),
    (second_step_value _ _ _ _ _ _ notin).
  f_equal. destruct (finish_site o n info rs) as [rs'|e]; [|reflexivity].
  destruct (NoDup_keys_step pre n rs' rest fst N) as [_ N'].
  pose proof (IH _ N') as H. rewrite <- app_assoc in H. exact H.
Qed.

(** The trace of a run, as the two loops produce it. *)
Lemma sherlock_trace username site_data o :
  NoDup (dict_keys site_data) ->
  trace (sherlock username site_data o) =
  heading username o ++ first_trace username o site_data ++
  match dispatch_values username o site_data with
  | Ok l => second_trace o l
  | Err _ => []
  end.
Proof.
  intros N. destruct (nonempty_dec site_data) as [->|NE].
  { rewrite sherlock_empty. simpl. now rewrite app_nil_r. }
  rewrite (sherlock_nonempty _ _ _ NE).
  rewrite trace_bind, value_when by reflexivity.
  rewrite trace_bind, first_loop_trace,
    (first_loop_value username o site_data [] N).
  replace (trace (when (print_output o)
                    (emit (Console (print_info "Checking username" username
                                      (color o))))))
    with (heading username o)
    by (unfold heading; now destruct (print_output o)).
  do 2 f_equal.
  destruct (dispatch_values username o site_data) as [l|e] eqn:D;
    [|reflexivity].
  assert (N' : NoDup (dict_keys (@nil (string * dict pyval)) ++ dict_keys l))
    by (simpl; now rewrite (dispatch_values_keys _ _ _ _ D)).
  exact (second_loop_trace o l [] N').
Qed.

Lemma announced_app t1 t2 : announced (t1 ++ t2) = announced t1 ++ announced t2.
Proof. unfold announced. now rewrite console_app, flat_map_app. Qed.

Lemma found_lines_app t1 t2 :
  found_lines (t1 ++ t2) = found_lines t1 ++ found_lines t2.
Proof. unfold found_lines. now rewrite console_app, filter_app. Qed.

(** The lines of the first loop for a site. *)
Lemma dispatch_lines username o n info info' rs0 :
  value (dispatch_site username o n info) = Ok (info', rs0) ->
  announced (trace (dispatch_site username o n info)) =
    (if is_illegal rs0 && shown o rs0 then [n] else []) /\
  found_lines (trace (dispatch_site username o n info)) = [].
Proof.
  unfold dispatch_site, shown.
  destruct (print_output o) eqn:PO, (print_found_only o) eqn:PF.
  all: run_monad; intros H; cases.
  all: split; reflexivity.
Qed.

(** The lines of the second loop for a site it completes. *)
Lemma collect_lines o n info info' url_user rs :
  value (collect_site o n info' (pending_entry info url_user)) = Ok rs ->
  announced (trace (collect_site o n info' (pending_entry info url_user))) =
    (if shown o rs then [n] else []) /\
  found_lines (trace (collect_site o n info' (pending_entry info url_user))) =
    found_line o n rs.
Proof.
  unfold collect_site, get_response, classify, attr_of, pending_entry, shown,
    found_line.
  destruct (print_output o) eqn:PO, (print_found_only o) eqn:PF.
  all: run_monad; intros H; cases.
  all: split; reflexivity.
Qed.

Lemma run_lines username o items : forall l res,
  dispatch_values username o items = Ok l ->
  collect_values o l = Ok res ->
  announced (first_trace username o items) =
    dict_keys (filter (fun e => is_illegal (snd e) && shown o (snd e)) res) /\
  announced (second_trace o l) =
    dict_keys (filter (fun e => negb (is_illegal (snd e)) && shown o (snd e))
                 res) /\
  found_lines (first_trace username o items) = [] /\
  found_lines (second_trace o l) =
    flat_map (fun e => found_line o (fst e) (snd e)) res.
Proof.
  induction items as [|[n info] rest IH]; intros l res D C.
  - simpl in D. injection D as <-. simpl in C. injection C as <-.
    now repeat split.
  - destruct (run_step _ _ _ _ _ _ _ D C)
      as (info' & rs0 & rs & l' & res' & -> & -> & D1 & F & D' & C').
    destruct (IH _ _ D' C') as (A1 & A2 & F1 & F2).
    destruct (dispatch_lines _ _ _ _ _ _ D1) as [DA DF].
    simpl. rewrite D1, F.
    rewrite !announced_app, !found_lines_app, DA, DF, A1, A2, F1, F2.
    destruct (site_cases _ _ _ _ _ _ _ D1 F)
      as [(-> & -> & _)|(u & f & r & t & x & et & q & -> & -> & _ & _ & _ & Cq & E)].
    + change (is_not_none (dict_get "status" (illegal_entry info))) with true.
      change (is_illegal (illegal_entry info)) with true.
      cbn [negb andb app]. unfold found_line.
      change (has_status CLAIMED (illegal_entry info)) with false.
      rewrite andb_false_r.
      destruct (shown o (illegal_entry info)); now repeat split.
    + change (is_not_none (dict_get "status" (pending_entry info u)))
        with false.
      change (is_illegal (pending_entry info u)) with false.
      cbn [negb andb app].
      unfold finish_site in F.
      change (is_not_none (dict_get "status" (pending_entry info u)))
        with false in F. cbv iota in F.
      destruct (collect_lines _ _ _ _ _ _ F) as [CA CF].
      rewrite CA, CF.
      assert (NI : is_illegal rs = false)
        by (rewrite E; exact (is_illegal_completed _ _ _ _ _ _ _ Cq)).
      rewrite NI. cbn [negb andb app].
      destruct (shown o rs); now repeat split.
Qed.

(** X6.  Order of the console lines.  In a run that returns, the sites
    named by the console lines are first the skipped sites, then the
    probed sites, each group in the order of the catalogue; a site is
    named when output is enabled and, with [print_found_only], its verdict
    is [CLAIMED] or [UNKNOWN]. *)
Theorem console_order username site_data o res :
  NoDup (dict_keys site_data) ->
  value (sherlock username site_data o) = Ok res ->
  announced (trace (sherlock username site_data o)) =
  dict_keys (filter (fun e => is_illegal (snd e) && shown o (snd e)) res) ++
  dict_keys (filter (fun e => negb (is_illegal (snd e)) && shown o (snd e))
               res).
Proof.
  intros N R. rewrite (sherlock_trace _ _ _ N).
  apply (sherlock_returned _ _ _ _ N) in R.
  destruct (dispatch_values username o site_data) as [l|e] eqn:D;
    [|discriminate].
  destruct (run_lines _ _ _ _ _ D R) as (A1 & A2 & _ & _).
  rewrite !announced_app, A1, A2.
  unfold heading. now destruct (print_output o).
Qed.

(** X7.  The sites announced as found.  In a run that returns, the lines
    printed by [print_found] are, in the order of the catalogue, one for
    each site whose recorded verdict is [CLAIMED], with the profile URL and
    the response time recorded for it, and none when output is disabled. *)
Theorem found_lines_are_claimed_sites username site_data o res :
  NoDup (dict_keys site_data) ->
  value (sherlock username site_data o) = Ok res ->
  found_lines (trace (sherlock username site_data o)) =
  flat_map (fun e => found_line o (fst e) (snd e)) res.
Proof.
  intros N R. rewrite (sherlock_trace _ _ _ N).
  apply (sherlock_returned _ _ _ _ N) in R.
  destruct (dispatch_values username o site_data) as [l|e] eqn:D;
    [|discriminate].
  destruct (run_lines _ _ _ _ _ D R) as (_ & _ & F1 & F2).
  rewrite !found_lines_app, F1, F2.
  unfold heading. now destruct (print_output o).
Qed.

(* ================================================================== *)
(** ** The requests of a run, in detail *)

Lemma dict_get_set_same {V} (k : string) (v : V) (d : dict V) :
  dict_get k (dict_set k v d) = Some v.
Proof.
  induction d as [|[k' v'] d IH]; simpl.
  - now rewrite String.eqb_refl.
  - destruct (String.eqb_spec k' k) as [->|ne]; simpl.
    + now rewrite String.eqb_refl.
    + destruct (String.eqb_spec k' k); [contradiction | exact IH].
Qed.

Lemma dict_get_set_other {V} (k k' : string) (v : V) (d : dict V) :
  k <> k' -> dict_get k (dict_set k' v d) = dict_get k d.
Proof.
  intros ne. induction d as [|[k0 v0] d IH]; simpl.
  - destruct (String.eqb_spec k' k); [congruence | reflexivity].
  - destruct (String.eqb_spec k0 k') as [->|ne']; simpl.
    + destruct (String.eqb_spec k' k); [congruence | reflexivity].
    + destruct (String.eqb_spec k0 k); [reflexivity | exact IH].
Qed.

Lemma dict_update_notin {V} (k : string) (extra : dict V) : forall d,
  ~ In k (dict_keys extra) ->
  dict_get k (dict_update d extra) = dict_get k d.
Proof.
  unfold dict_update.
  induction extra as [|[k' v'] extra IH]; intros d H; simpl; [reflexivity|].
  rewrite IH by (intros I; apply H; now right).
  apply dict_get_set_other. intros ->. apply H. now left.
Qed.

Lemma dict_update_get {V} (k : string) (v : V) (extra : dict V) : forall d,
  NoDup (dict_keys extra) ->
  dict_get k extra = Some v ->
  dict_get k (dict_update d extra) = Some v.
Proof.
  unfold dict_update.
  induction extra as [|[k' v'] extra IH]; intros d N G; simpl in *;
    [discriminate|].
  inversion N as [|? ? notin N']; subst.
  destruct (String.eqb_spec k' k) as [->|ne].
  - injection G as ->.
    pose proof (dict_update_notin k extra (dict_set k v d) notin) as H.
    unfold dict_update in H. rewrite H. apply dict_get_set_same.
  - now apply IH.
Qed.

Lemma dict_update_keeps {V} (k : string) (extra : dict V) : forall d v,
  dict_get k d = Some v ->
  exists v', dict_get k (dict_update d extra) = Some v'.
Proof.
  unfold dict_update.
  induction extra as [|[k' v'] extra IH]; intros d v G; simpl.
  - now exists v.
  - destruct (String.eqb_spec k k') as [->|ne].
    + apply (IH _ v'). apply dict_get_set_same.
    + apply (IH _ v). now rewrite dict_get_set_other.
Qed.

(** The request the first loop makes for a site, field by field. *)
Lemma probe_request username o n info f :
  probe username o n info = Some f ->
  exists template url_user et,
    url info = Some template /\
    str_format template username = Ok url_user /\
    errorType info = Some et /\
    username_rejected username info = Ok false /\
    value (dispatch_site username o n info) =
      Ok (set_request_future info f, pending_entry info url_user) /\
    match urlProbe info with
    | Some p => str_format p username = Ok (req_url (fut_request f))
    | None => req_url (fut_request f) = url_user
    end /\
    req_headers (fut_request f) =
      match headers info with
      | Some extra => dict_update [("User-Agent", user_agent)] extra
      | None => [("User-Agent", user_agent)]
      end /\
    req_proxies (fut_request f) =
      match proxy o with
      | Some p => Some [("http", p); ("https", p)]
      | None => None
      end /\
    req_timeout (fut_request f) = timeout o.
Proof.
  unfold probe, dispatch_site, pending_entry, username_rejected. run_monad.
  intros H. cases.
  all: eexists; eexists; eexists; repeat split; try reflexivity;
    try assumption;
    repeat match goal with
      | E : negb ?b = false |- _ => destruct b; simpl in E; try discriminate
      end; reflexivity.
Qed.

(** X8.  Request headers, proxy and timeout.  Every request of a run carries
    a [User-Agent] header, which is the default browser string unless the
    site's [headers] hold that key; every header the site declares is sent
    with the site's value; the request goes through the proxy exactly when
    one is given; and the timeout is the one passed to [sherlock]. *)
Theorem requests_carry_headers username site_data o f :
  In (Submit f) (trace (sherlock username site_data o)) ->
  exists info,
    In (fut_site f, info) site_data /\
    (exists ua,
       dict_get "User-Agent" (req_headers (fut_request f)) = Some ua) /\
    ((forall extra, headers info = Some extra ->
                    ~ In "User-Agent" (dict_keys extra)) ->
     dict_get "User-Agent" (req_headers (fut_request f)) = Some user_agent) /\
    (forall extra k v,
       headers info = Some extra -> NoDup (dict_keys extra) ->
       dict_get k extra = Some v ->
       dict_get k (req_headers (fut_request f)) = Some v) /\
    req_proxies (fut_request f) =
      option_map (fun p => [("http", p); ("https", p)]) (proxy o) /\
    req_timeout (fut_request f) = timeout o.
Proof.
  intros H. destruct (sherlock_submit _ _ _ _ H) as (info & I & P).
  destruct (probe_request _ _ _ _ _ P)
    as (_ & _ & _ & _ & _ & _ & _ & _ & _ & HH & HP & HT).
  exists info. split; [exact I|]. rewrite HH, HP, HT.
  repeat split.
  - destruct (headers info) as [extra|].
    + apply (dict_update_keeps _ _ _ user_agent). reflexivity.
    + now exists user_agent.
  - intros NU. destruct (headers info) as [extra|]; [|reflexivity].
    rewrite dict_update_notin by now apply NU. reflexivity.
  - intros extra k v E N G. rewrite E. now apply dict_update_get.
Qed.

Lemma first_trace_incl username o items l n info ev :
  dispatch_values username o items = Ok l ->
  In (n, info) items ->
  In ev (trace (dispatch_site username o n info)) ->
  In ev (first_trace username o items).
Proof.
  revert l; induction items as [|[n' info'] rest IH]; simpl; intros l D I T;
    [contradiction|].
  destruct (value (dispatch_site username o n' info')) as [p|e];
    [|discriminate].
  destruct (dispatch_values username o rest) as [l'|e]; [|discriminate].
  apply in_or_app. destruct I as [E|I].
  - injection E as -> ->. now left.
  - right. exact (IH l' eq_refl I T).
Qed.

Lemma probe_submit username o n info f :
  probe username o n info = Some f ->
  In (Submit f) (trace (dispatch_site username o n info)).
Proof.
  intros P. apply In_submitted. rewrite dispatch_submitted, P. now left.
Qed.

(** X9.  The two URLs of a site.  In a run that returns, a site that was not
    skipped has had one request, to the site's [urlProbe] with the username
    filled in when it declares one and to its [url] otherwise, while the
    [url_user] recorded for it is always its [url] with the username
    filled in. *)
Theorem probe_url_is_not_reported username site_data o res n info rs :
  NoDup (dict_keys site_data) ->
  value (sherlock username site_data o) = Ok res ->
  dict_get n site_data = Some info ->
  dict_get n res = Some rs ->
  is_illegal rs = false ->
  exists template url_user f,
    url info = Some template /\
    str_format template username = Ok url_user /\
    dict_get "url_user" rs = Some (PyStr url_user) /\
    In (Submit f) (trace (sherlock username site_data o)) /\
    fut_site f = n /\
    match urlProbe info with
    | Some p => str_format p username = Ok (req_url (fut_request f))
    | None => req_url (fut_request f) = url_user
    end.
Proof.
  intros N R GI G NI.
  destruct (sherlock_entry _ _ _ _ _ _ N R GI) as (rs' & S & G').
  rewrite G in G'. injection G' as <-.
  destruct (site_entry_cases _ _ _ _ _ S)
    as [(-> & _)|(u & f & r & t & x & et & q & P & _ & _ & _ & ->)];
    [discriminate|].
  destruct (probe_request _ _ _ _ _ P)
    as (tmpl & u' & _ & U & SF & _ & _ & D & UP & _).
  destruct (probe_dispatch _ _ _ _ _ P) as (u'' & _ & D' & _ & FS & _).
  exists tmpl, u', f. repeat split; try assumption.
  - unfold site_entry in S. rewrite D in S. unfold finish_site in S.
    change (is_not_none (dict_get "status" (pending_entry info u')))
      with false in S. cbv iota in S.
    unfold collect_site in S. revert S. run_monad. intros S. cases.
    all: reflexivity.
  - rewrite (sherlock_trace _ _ _ N). apply in_or_app. right.
    apply in_or_app. left.
    apply (sherlock_returned _ _ _ _ N) in R.
    destruct (dispatch_values username o site_data) as [l|e] eqn:DV;
      [|discriminate].
    apply (first_trace_incl _ _ _ _ _ _ _ DV (dict_get_In _ _ _ GI)).
    now apply probe_submit.
Qed.

(* ================================================================== *)
(** ** Sites whose description is incomplete *)

Lemma dispatch_missing_key username o n info :
  username_rejected username info = Ok false ->
  url info = None \/ errorType info = None ->
  probe username o n info = None /\
  exists e,
    value (dispatch_site username o n info) = Err e /\
    (url info = None -> e = KeyError "url") /\
    (forall template url_user,
       url info = Some template ->
       str_format template username = Ok url_user ->
       urlProbe info = None ->
       e = KeyError "errorType").
Proof.
  unfold username_rejected, probe, dispatch_site.
  intros R [U|E]; [rewrite U | rewrite E]; revert R; run_monad; intros R;
    cases.
  all: split; [reflexivity|]; eexists; split; [reflexivity|];
    split; intros; try discriminate; try reflexivity; congruence.
Qed.

(** X10.  A missing [url] or [errorType].  For a site that is not skipped and
    whose description lacks [url] or [errorType]: processing the site
    raises a [KeyError] (for [url] when that key is missing; for
    [errorType] when the URL is formatted and there is no [urlProbe]); the
    run returns no results; the exception of the run is that [KeyError]
    when the processing of every other site returns; and no request is
    ever made for the site. *)
Theorem missing_key_aborts username site_data o n info :
  NoDup (dict_keys site_data) ->
  dict_get n site_data = Some info ->
  username_rejected username info = Ok false ->
  url info = None \/ errorType info = None ->
  exists e,
    site_entry username o n info = Err e /\
    (url info = None -> e = KeyError "url") /\
    (forall template url_user,
       url info = Some template ->
       str_format template username = Ok url_user ->
       urlProbe info = None ->
       e = KeyError "errorType") /\
    (exists e', value (sherlock username site_data o) = Err e') /\
    ((forall n' info', In (n', info') site_data -> n' <> n ->
        exists rs, site_entry username o n' info' = Ok rs) ->
     value (sherlock username site_data o) = Err e) /\
    (forall f, In (Submit f) (trace (sherlock username site_data o)) ->
               fut_site f <> n).
Proof.
  intros N G R M.
  destruct (dispatch_missing_key username o n info R M)
    as (P & e & D & K1 & K2).
  assert (S : site_entry username o n info = Err e)
    by (unfold site_entry; now rewrite D).
  exists e. split; [exact S|]. split; [exact K1|]. split; [exact K2|].
  split; [exact (sherlock_aborts _ _ _ _ _ _ N G S)|].
  split; [exact (sherlock_raises _ _ _ _ _ _ N G S)|].
  intros f H <-. destruct (sherlock_submit _ _ _ _ H) as (info' & I & P').
  apply (In_dict_get _ _ _ N) in I. rewrite G in I. injection I as <-.
  congruence.
Qed.

(** X11.  [message] without [errorMsg].  For a site whose [errorType] is
    [message] and whose description lacks [errorMsg], and whose request
    returns a response: processing the site raises [TypeError]; the run
    returns no results; and the exception of the run is that [TypeError]
    when the processing of every other site returns. *)
Theorem message_without_error_msg username site_data o n info f r :
  NoDup (dict_keys site_data) ->
  dict_get n site_data = Some info ->
  errorType info = Some "message" ->
  errorMsg info = None ->
  probe username o n info = Some f ->
  future_result f = Returned r ->
  status_code r <> 0%Z ->
  site_entry username o n info =
    Err (TypeError
           "'in <string>' requires string as left operand, not NoneType") /\
  (exists e, value (sherlock username site_data o) = Err e) /\
  ((forall n' info', In (n', info') site_data -> n' <> n ->
      exists rs, site_entry username o n' info' = Ok rs) ->
   value (sherlock username site_data o) =
     Err (TypeError
            "'in <string>' requires string as left operand, not NoneType")).
Proof.
  intros N G E EM P F S.
  destruct (site_entry_dispatched _ _ _ _ _ P) as (url_user & et & E' & SE).
  rewrite E in E'. injection E' as <-.
  rewrite (get_response_returned _ _ F S) in SE.
  unfold classify in SE. simpl in SE. rewrite EM in SE.
  assert (SV : site_entry username o n info =
               Err (TypeError
                      "'in <string>' requires string as left operand, not NoneType"))
    by exact SE.
  split; [exact SV|].
  split; [exact (sherlock_aborts _ _ _ _ _ _ N G SV)|].
  exact (sherlock_raises _ _ _ _ _ _ N G SV).
Qed.

(* ================================================================== *)
(** ** Runs on a catalogue that an earlier run has used *)

Lemma pair_trace_value {A} (m : M A) : m = (trace m, value m).
Proof. now destruct m. Qed.

Lemma forget_futures_keys site_data :
  dict_keys (forget_futures site_data) = dict_keys site_data.
Proof. unfold forget_futures, dict_keys. now rewrite map_map. Qed.

(** The first loop does not read the future stored in a site's entry. *)
Lemma dispatch_forget username o n info :
  trace (dispatch_site username o n (forget_future info)) =
    trace (dispatch_site username o n info) /\
  match value (dispatch_site username o n (forget_future info)),
        value (dispatch_site username o n info) with
  | Ok (i1, r1), Ok (i2, r2) =>
      r1 = r2 /\ (is_not_none (dict_get "status" r1) = false -> i1 = i2)
  | Err e1, Err e2 => e1 = e2
  | _, _ => False
  end.
Proof.
  destruct info as [um u up et em h rc rf].
  unfold forget_future, dispatch_site. run_monad. cases.
  all: repeat split; try reflexivity; try discriminate.
Qed.

Lemma dispatch_values_forget username o items :
  first_trace username o (forget_futures items) =
    first_trace username o items /\
  match dispatch_values username o (forget_futures items),
        dispatch_values username o items with
  | Ok l1, Ok l2 => Forall2 alike l1 l2
  | Err e1, Err e2 => e1 = e2
  | _, _ => False
  end.
Proof.
  induction items as [|[n info] rest [IT IV]]; simpl.
  - split; [reflexivity | constructor].
  - destruct (dispatch_forget username o n info) as [T V]. rewrite T.
    destruct (value (dispatch_site username o n (forget_future info)))
      as [[i1 r1]|e1],
      (value (dispatch_site username o n info)) as [[i2 r2]|e2];
      try contradiction.
    + rewrite IT. split; [reflexivity|].
      destruct (dispatch_values username o (forget_futures rest)) as [l1|e1],
        (dispatch_values username o rest) as [l2|e2]; try contradiction.
      * constructor; [|exact IV]. destruct V as [-> V]. now repeat split.
      * exact IV.
    + now split.
Qed.

Lemma collect_alike o l1 l2 :
  Forall2 alike l1 l2 ->
  collect_values o l1 = collect_values o l2 /\
  second_trace o l1 = second_trace o l2.
Proof.
  induction 1 as [|[n1 [i1 r1]] [n2 [i2 r2]] l1 l2 (N & R & I) _ [IV IT]];
    [now split|].
  simpl in N, R, I. subst n2 r2. simpl. unfold finish_site.
  destruct (is_not_none (dict_get "status" r1)) eqn:S.
  - rewrite IV, IT. now split.
  - rewrite (I eq_refl), IV, IT. now split.
Qed.

(** A run does not depend on the futures stored in the catalogue. *)
Lemma sherlock_forget username site_data o :
  NoDup (dict_keys site_data) ->
  sherlock username (forget_futures site_data) o =
  sherlock username site_data o.
Proof.
  intros N.
  assert (N' : NoDup (dict_keys (forget_futures site_data)))
    by now rewrite forget_futures_keys.
  rewrite (pair_trace_value (sherlock username (forget_futures site_data) o)),
    (pair_trace_value (sherlock username site_data o)).
  destruct (nonempty_dec site_data) as [->|NE]; [reflexivity|].
  assert (NE' : forget_futures site_data <> [])
    by (destruct site_data; [congruence | discriminate]).
  rewrite (sherlock_trace _ _ _ N), (sherlock_trace _ _ _ N'),
    (sherlock_value _ _ _ N NE), (sherlock_value _ _ _ N' NE').
  destruct (dispatch_values_forget username o site_data) as [-> V].
  destruct (dispatch_values username o (forget_futures site_data)) as [l1|e1],
    (dispatch_values username o site_data) as [l2|e2]; try contradiction.
  - destruct (collect_alike o _ _ V) as [-> ->]. reflexivity.
  - now subst.
Qed.

Lemma forget_set_future info f :
  forget_future (set_request_future info f) = forget_future info.
Proof. reflexivity. Qed.

Lemma dispatch_values_infos username o items : forall l,
  dispatch_values username o items = Ok l ->
  forget_futures (infos_of l) = forget_futures items.
Proof.
  induction items as [|[n info] rest IH]; simpl; intros l D.
  - now injection D as <-.
  - destruct (value (dispatch_site username o n info)) as [[info' rs]|e] eqn:V;
      [|discriminate].
    destruct (dispatch_values username o rest) as [l'|e]; [|discriminate].
    injection D as <-. simpl. rewrite (IH l' eq_refl). do 2 f_equal.
    destruct (dispatch_cases _ _ _ _ _ _ V) as [(_ & -> & _)|(u & f & _ & -> & _)];
      reflexivity.
Qed.

(** X12.  A catalogue used again.  [sherlock] stores the future of each
    request in the caller's [site_data]; a later run on that [site_data],
    for any username and options, has the same effects and the same result
    as a run on the original catalogue: a stored future is never waited for
    again. *)
Theorem runs_ignore_stored_futures username0 o0 username o site_data site_data' :
  NoDup (dict_keys site_data) ->
  site_data_after username0 site_data o0 = Ok site_data' ->
  sherlock username site_data' o = sherlock username site_data o.
Proof.
  intros N A. unfold site_data_after in A.
  rewrite (first_loop_value username0 o0 site_data [] N) in A.
  destruct (dispatch_values username0 o0 site_data) as [l|e] eqn:D;
    [|discriminate].
  injection A as <-.
  pose proof (dispatch_values_infos _ _ _ _ D) as F.
  assert (K : dict_keys (infos_of l) = dict_keys site_data).
  { rewrite <- (forget_futures_keys (infos_of l)), F.
    apply forget_futures_keys. }
  rewrite <- (sherlock_forget username (infos_of l) o) by now rewrite K.
  rewrite F. now apply sherlock_forget.
Qed.

(* ================================================================== *)
(** ** The timing hook of [SherlockFuturesSession.request] *)

(** X13.  The timing hook.  Whatever [hooks['response']] held (a list, a
    tuple, one callable, or nothing), after [request] it is a list that
    starts with the timing hook of this call and continues with the hooks
    it held, in their order; the hooks of other events are untouched. *)
Theorem timing_hook_is_first start hooks :
  dict_get "response" (install_response_time start hooks) =
    Some (hook_list (response_time start :: response_hooks hooks)) /\
  forall event, event <> "response" ->
    dict_get event (install_response_time start hooks) = dict_get event hooks.
Proof.
  unfold install_response_time, response_hooks.
  destruct (dict_get "response" hooks) as [[l|l|h]|]; split;
    try apply dict_get_set_same; intros; now apply dict_get_set_other.
Qed.

Lemma default_after_snoc starts start :
  default_after (starts ++ [start]) =
  install_response_time start (default_after starts).
Proof. unfold default_after. now rewrite fold_left_app. Qed.

Lemma default_after_hooks starts :
  response_hooks (default_after starts) = map response_time (rev starts) /\
  (starts <> [] ->
   dict_get "response" (default_after starts) =
   Some (hook_list (map response_time (rev starts)))).
Proof.
  induction starts as [|start starts [IH _]] using rev_ind.
  - split; [reflexivity | congruence].
  - rewrite default_after_snoc, rev_app_distr. simpl.
    assert (G : dict_get "response"
                  (install_response_time start (default_after starts)) =
                Some (hook_list (response_time start ::
                                 map response_time (rev starts)))).
    { unfold install_response_time. rewrite <- IH. unfold response_hooks.
      destruct (dict_get "response" (default_after starts)) as [[l|l|h]|];
        apply dict_get_set_same. }
    split; [|intros _; exact G].
    unfold response_hooks at 1. now rewrite G.
Qed.

(** X14.  The default [hooks].  Calls of [request] that pass no [hooks] share
    one dictionary, so the hooks handed on by such a call are the timing
    hooks of this call and of every earlier such call, newest first: the
    n-th call hands on n hooks. *)
Theorem default_hooks_accumulate earlier start :
  dict_get "response"
    (fst (session_request start None (default_after earlier))) =
    Some (hook_list (map response_time (start :: rev earlier))) /\
  length (response_hooks
            (fst (session_request start None (default_after earlier)))) =
    S (length earlier).
Proof.
  pose proof (default_after_hooks (earlier ++ [start])) as [H G].
  rewrite default_after_snoc, rev_app_distr in H, G. simpl in H, G.
  simpl. split.
  - apply G. now destruct earlier.
  - rewrite H. simpl. now rewrite length_map, length_rev.
Qed.

Lemma run_hooks_last clock hs start : forall i resp,
  elapsed (run_hooks clock i (hs ++ [response_time start]) resp) =
  (clock (i + length hs)%nat - start)%Q.
Proof.
  induction hs as [|h hs IH]; intros i resp; simpl.
  - now rewrite Nat.add_0_r.
  - rewrite IH. now rewrite Nat.add_succ_r.
Qed.

(** X15.  What the timing hooks measure.  When the hooks left by calls of
    [request] without [hooks] are run in order on a response, the elapsed
    time that remains is counted from the start of the first of those
    calls, not from the start of the call the response answers. *)
Theorem elapsed_counts_from_first_call clock first later resp :
  elapsed (run_hooks clock 0
             (response_hooks (default_after (first :: later))) resp) =
  (clock (length later) - first)%Q.
Proof.
  destruct (default_after_hooks (first :: later)) as [-> _].
  simpl rev. rewrite map_app. simpl map.
  rewrite run_hooks_last. simpl. now rewrite length_map, length_rev.
Qed.

(* ================================================================== *)
(** ** [main]: the choice of sites *)

Lemma dict_set_nonempty {V} k (v : V) d : dict_set k v d <> [].
Proof.
  destruct d as [|[k' v'] d]; simpl;
    [discriminate | destruct (String.eqb k' k); discriminate].
Qed.

Lemma add_matching_nonempty {V} site (all : dict V) keys : forall acc,
  acc <> [] -> add_matching site keys all acc <> [].
Proof.
  induction keys as [|k keys IH]; intros acc H; simpl; [exact H|].
  apply IH. destruct (same_site site k); [|exact H].
  destruct (dict_get k all); [|exact H]. apply dict_set_nonempty.
Qed.

Lemma add_matching_empty {V} site (all : dict V) keys :
  (forall k, In k keys -> In k (dict_keys all)) ->
  (add_matching site keys all [] = [] <-> known keys site = false).
Proof.
  induction keys as [|k keys IH]; intros sub; simpl; [now split|].
  destruct (same_site site k) eqn:S; simpl.
  - destruct (dict_keys_get k all (sub k (or_introl eq_refl))) as [v ->].
    split; [|discriminate]. intros H. exfalso.
    now apply (add_matching_nonempty site all keys (dict_set k v [])).
  - apply IH. intros; apply sub; now right.
Qed.

Lemma select_loop_missing {V} (all : dict V) site_list : forall acc missing,
  snd (select_loop site_list all acc missing) =
  match acc with
  | [] => missing ++ map quoted (leading_unknown (dict_keys all) site_list)
  | _ :: _ => missing
  end.
Proof.
  induction site_list as [|site rest IH]; intros acc missing; simpl.
  - destruct acc; [now rewrite app_nil_r | reflexivity].
  - rewrite IH. destruct acc as [|e acc].
    + destruct (add_matching site (dict_keys all) all []) as [|e' acc'] eqn:A.
      * apply add_matching_empty in A; [|auto]. rewrite A. simpl.
        now rewrite <- app_assoc.
      * destruct (known (dict_keys all) site) eqn:K;
          [now rewrite app_nil_r|].
        apply (add_matching_empty site all (dict_keys all)) in K; [|auto].
        congruence.
    + destruct (add_matching site (dict_keys all) all (e :: acc)) eqn:A;
        [|reflexivity].
      exfalso. revert A. now apply add_matching_nonempty.
Qed.

(** X16.  Unknown site names.  With [--site], the names reported as not found
    are the requested names that come before the first one naming a site
    of the catalogue; so a request is refused exactly when its first name
    names no site, and an unknown name after a known one is dropped
    without notice. *)
Theorem only_leading_sites_are_checked {V} (site_data_all : dict V) site_list :
  snd (select_loop site_list site_data_all [] []) =
    map quoted (leading_unknown (dict_keys site_data_all) site_list) /\
  forall first rest,
    site_list = first :: rest ->
    ((exists site_data,
        select_sites (Some site_list) site_data_all = inr site_data) <->
     known (dict_keys site_data_all) first = true).
Proof.
  pose proof (select_loop_missing site_data_all site_list [] []) as M.
  simpl in M. split; [exact M|].
  intros first rest ->. unfold select_sites.
  destruct (select_loop (first :: rest) site_data_all [] [])
    as [sd missing] eqn:L.
  simpl in M. subst missing.
  destruct (known (dict_keys site_data_all) first); simpl.
  - split; [reflexivity|]. intros _. now exists sd.
  - split; [|discriminate]. intros [x H]. discriminate.
Qed.

Lemma dict_set_keys_In {V} k (v : V) d x :
  In x (dict_keys (dict_set k v d)) <-> x = k \/ In x (dict_keys d).
Proof.
  induction d as [|[k' v'] d IH]; simpl.
  - split; [intros [<-|[]]; now left | intros [->|[]]; now left].
  - destruct (String.eqb_spec k' k) as [->|ne]; simpl.
    + intuition congruence.
    + rewrite IH. intuition congruence.
Qed.

Lemma dict_set_NoDup {V} k (v : V) d :
  NoDup (dict_keys d) -> NoDup (dict_keys (dict_set k v d)).
Proof.
  induction d as [|[k' v'] d IH]; simpl; intros N.
  - constructor; [intros [] | constructor].
  - inversion N as [|? ? notin N']; subst.
    destruct (String.eqb_spec k' k) as [->|ne]; simpl.
    + now constructor.
    + constructor; [|auto]. rewrite dict_set_keys_In. intros [E|I]; auto.
Qed.

Lemma add_matching_get {V} site (all : dict V) k keys : forall acc,
  dict_get k (add_matching site keys all acc) =
  if same_site site k && existsb (String.eqb k) keys
  then match dict_get k all with Some v => Some v | None => dict_get k acc end
  else dict_get k acc.
Proof.
  induction keys as [|k' keys IH]; intros acc; simpl.
  - now rewrite andb_false_r.
  - rewrite IH. destruct (String.eqb_spec k k') as [<-|ne]; simpl.
    + destruct (same_site site k) eqn:S; simpl.
      * destruct (dict_get k all) as [v|] eqn:G.
        -- destruct (existsb (String.eqb k) keys); [reflexivity|].
           apply dict_get_set_same.
        -- now destruct (existsb (String.eqb k) keys).
      * reflexivity.
    + assert (E : dict_get k
                    (if same_site site k'
                     then match dict_get k' all with
                          | Some v => dict_set k' v acc
                          | None => acc
                          end
                     else acc) = dict_get k acc).
      { destruct (same_site site k'); [|reflexivity].
        destruct (dict_get k' all); [|reflexivity].
        now apply dict_get_set_other. }
      now rewrite E.
Qed.

Lemma add_matching_NoDup {V} site (all : dict V) keys : forall acc,
  NoDup (dict_keys acc) -> NoDup (dict_keys (add_matching site keys all acc)).
Proof.
  induction keys as [|k keys IH]; intros acc N; simpl; [exact N|].
  apply IH. destruct (same_site site k); [|exact N].
  destruct (dict_get k all); [|exact N]. now apply dict_set_NoDup.
Qed.

Lemma existsb_keys_get {V} (d : dict V) k :
  existsb (String.eqb k) (dict_keys d) = false -> dict_get k d = None.
Proof.
  induction d as [|[k' v'] d IH]; simpl; [reflexivity|].
  rewrite String.eqb_sym. destruct (String.eqb k' k); simpl;
    [discriminate | exact IH].
Qed.

Lemma select_loop_get {V} (all : dict V) k site_list : forall acc missing,
  dict_get k (fst (select_loop site_list all acc missing)) =
  if requested_by site_list k
  then match dict_get k all with Some v => Some v | None => dict_get k acc end
  else dict_get k acc.
Proof.
  induction site_list as [|site rest IH]; intros acc missing; simpl;
    [reflexivity|].
  rewrite IH, add_matching_get.
  destruct (same_site site k); simpl.
  - destruct (existsb (String.eqb k) (dict_keys all)) eqn:E.
    + destruct (dict_get k all); now destruct (requested_by rest k).
    + rewrite (existsb_keys_get _ _ E).
      now destruct (requested_by rest k).
  - reflexivity.
Qed.

Lemma select_loop_NoDup {V} (all : dict V) site_list : forall acc missing,
  NoDup (dict_keys acc) ->
  NoDup (dict_keys (fst (select_loop site_list all acc missing))).
Proof.
  induction site_list as [|site rest IH]; intros acc missing N; simpl;
    [exact N|].
  apply IH. now apply add_matching_NoDup.
Qed.

(** X17.  The chosen sites.  With [--site], the catalogue of the run holds
    exactly the sites of the full catalogue that a requested name names up
    to case, each with its own description and once. *)
Theorem selection_is_the_requested_sites {V} (site_data_all : dict V)
    site_list k :
  dict_get k (fst (select_loop site_list site_data_all [] [])) =
    (if requested_by site_list k then dict_get k site_data_all else None) /\
  NoDup (dict_keys (fst (select_loop site_list site_data_all [] []))).
Proof.
  split.
  - rewrite select_loop_get. simpl.
    destruct (requested_by site_list k); [|reflexivity].
    now destruct (dict_get k site_data_all).
  - apply select_loop_NoDup. constructor.
Qed.

(* ================================================================== *)
(** ** [main]: ranking *)

Lemma tuple_le_total a b : tuple_le a b = false -> tuple_le b a = true.
Proof.
  unfold tuple_le. destruct (fst a), (fst b); try discriminate;
    try reflexivity; intros H; apply Z.leb_gt in H; apply Z.leb_le; lia.
Qed.

Lemma tuple_le_trans a b c :
  tuple_le a b = true -> tuple_le b c = true -> tuple_le a c = true.
Proof.
  unfold tuple_le. destruct (fst a), (fst b), (fst c); try discriminate;
    try reflexivity; intros H1 H2; apply Z.leb_le in H1, H2; apply Z.leb_le;
    lia.
Qed.

Lemma insert_sorted_perm key x l : Permutation (insert_sorted key x l) (x :: l).
Proof.
  induction l as [|y l IH]; simpl; [reflexivity|].
  destruct (tuple_le (key x) (key y)); [reflexivity|].
  rewrite IH. apply perm_swap.
Qed.

Lemma sorted_perm key l : Permutation (sorted key l) l.
Proof.
  induction l as [|x l IH]; simpl; [reflexivity|].
  rewrite insert_sorted_perm. now constructor.
Qed.

Lemma insert_sorted_Sorted key x l :
  Sorted (fun a b => tuple_le (key a) (key b) = true) l ->
  Sorted (fun a b => tuple_le (key a) (key b) = true) (insert_sorted key x l).
Proof.
  induction 1 as [|y l S IH H]; simpl.
  - repeat constructor.
  - destruct (tuple_le (key x) (key y)) eqn:L.
    + constructor; [now constructor | now constructor].
    + constructor; [exact IH|].
      destruct l as [|z l]; simpl.
      * constructor. now apply tuple_le_total.
      * destruct (tuple_le (key x) (key z)); constructor;
          [now apply tuple_le_total | now inversion H].
Qed.

Lemma sorted_Sorted key l :
  StronglySorted (fun a b => tuple_le (key a) (key b) = true) (sorted key l).
Proof.
  apply Sorted_StronglySorted.
  - intros a b c. apply tuple_le_trans.
  - induction l as [|x l IH]; simpl; [constructor|].
    now apply insert_sorted_Sorted.
Qed.

(** Filling an empty dictionary with distinct names, in order. *)
Lemma rebuild_map {V} (f : string -> V) names : forall acc,
  NoDup (dict_keys acc ++ names) ->
  fold_left (fun acc site => dict_set site (f site) acc) names acc =
  acc ++ map (fun site => (site, f site)) names.
Proof.
  induction names as [|n names IH]; intros acc N; simpl.
  - now rewrite app_nil_r.
  - assert (notin : ~ In n (dict_keys acc)).
    { intros I. apply NoDup_remove_2 in N. apply N. apply in_or_app. now left. }
    rewrite (dict_set_notin _ _ _ notin), IH.
    + now rewrite <- app_assoc.
    + rewrite dict_keys_app. simpl. now rewrite <- app_assoc.
Qed.

Lemma lookup_items {V} (d : dict V) :
  NoDup (dict_keys d) ->
  map (fun k => (k, dict_get k d)) (dict_keys d) =
  map (fun e => (fst e, Some (snd e))) d.
Proof.
  intros N. unfold dict_keys. rewrite map_map. apply map_ext_in.
  intros [k v] I. simpl. now rewrite (In_dict_get _ _ _ N I).
Qed.

Lemma rank_sites_eq {V} (rank : V -> option Z) maxsize (site_data : dict V) :
  NoDup (dict_keys site_data) ->
  rank_sites rank maxsize site_data =
  map (fun k => (k, dict_get k site_data))
    (sorted (rank_key rank maxsize site_data) (dict_keys site_data)).
Proof.
  intros N. unfold rank_sites. rewrite rebuild_map; [reflexivity|].
  simpl. apply (Permutation_NoDup (l := dict_keys site_data));
    [symmetry; apply sorted_perm | exact N].
Qed.

Lemma keys_of_lookups {V} (f : string -> V) l :
  dict_keys (map (fun k => (k, f k)) l) = l.
Proof. unfold dict_keys. rewrite map_map. simpl. apply map_id. Qed.

(** X18.  Ranking keeps the catalogue.  With [--rank], the catalogue of the
    run holds the same sites as before, each once and with its own
    description, and their names are in ascending order of the key
    (the name lacks "rank", rank of the site or [sys.maxsize]). *)
Theorem ranking_permutes_the_catalogue {V} (rank : V -> option Z) maxsize
    (site_data : dict V) :
  NoDup (dict_keys site_data) ->
  Permutation (rank_sites rank maxsize site_data)
    (map (fun e => (fst e, Some (snd e))) site_data) /\
  StronglySorted
    (fun a b => tuple_le (rank_key rank maxsize site_data a)
                  (rank_key rank maxsize site_data b) = true)
    (dict_keys (rank_sites rank maxsize site_data)).
Proof.
  intros N. rewrite (rank_sites_eq rank maxsize site_data N). split.
  - rewrite <- (lookup_items site_data N).
    apply Permutation_map, sorted_perm.
  - rewrite keys_of_lookups. apply sorted_Sorted.
Qed.

Lemma sorted_split (key : string -> bool * Z) (l : list string) :
  StronglySorted (fun a b => tuple_le (key a) (key b) = true) l ->
  exists front back,
    l = front ++ back /\
    Forall (fun k => fst (key k) = false) front /\
    Forall (fun k => fst (key k) = true) back.
Proof.
  induction 1 as [|x l S (front & back & -> & F & B) H].
  - exists [], []. now repeat split.
  - destruct (fst (key x)) eqn:X.
    + exists [], (x :: front ++ back). repeat split; [constructor|].
      constructor; [exact X|].
      apply Forall_forall. intros y I.
      rewrite Forall_forall in H. specialize (H y I).
      unfold tuple_le in H. rewrite X in H. now destruct (fst (key y)).
    + exists (x :: front), back. repeat split; [|exact B].
      now constructor.
Qed.

(** X19.  Names that contain "rank".  With [--rank], the sites whose name
    contains the text "rank" come before all the others, whatever their
    ranks: the first component of the sort key tests the name of the site,
    not its description. *)
Theorem sites_named_rank_come_first {V} (rank : V -> option Z) maxsize
    (site_data : dict V) :
  NoDup (dict_keys site_data) ->
  exists front back,
    dict_keys (rank_sites rank maxsize site_data) = front ++ back /\
    Forall (fun k => str_in "rank" k = true) front /\
    Forall (fun k => str_in "rank" k = false) back.
Proof.
  intros N. rewrite (rank_sites_eq rank maxsize site_data N), keys_of_lookups.
  destruct (sorted_split (rank_key rank maxsize site_data) _
              (sorted_Sorted (rank_key rank maxsize site_data)
                 (dict_keys site_data)))
    as (front & back & E & F & B).
  exists front, back. split; [exact E|]. split.
  - eapply Forall_impl; [|exact F]. simpl. intros k H.
    now apply negb_false_iff.
  - eapply Forall_impl; [|exact B]. simpl. intros k H.
    now apply negb_true_iff.
Qed.

(* ================================================================== *)
(** ** [main]: the report of a run *)

Lemma append_assoc (a b c : string) : ((a ++ b) ++ c = a ++ (b ++ c))%string.
Proof. induction a as [|x a IH]; simpl; [reflexivity | now rewrite IH]. Qed.

Lemma append_empty (a : string) : (a ++ "" = a)%string.
Proof. induction a as [|x a IH]; simpl; [reflexivity | now rewrite IH]. Qed.

Lemma report_loop_items items : forall pre c file,
  NoDup (dict_keys pre ++ dict_keys items) ->
  (forall n rs, In (n, rs) items ->
     exists q url_user,
       verdict rs = Some q /\ dict_get "url_user" rs = Some (PyStr url_user)) ->
  report_loop (dict_keys items) (pre ++ items) c file =
  Ok (c + length (claimed_urls items), (file ++ lines (claimed_urls items))%string).
Proof.
  induction items as [|[n rs] rest IH]; intros pre c file N W; simpl.
  - now rewrite Nat.add_0_r, append_empty.
  - destruct (NoDup_keys_step pre n rs rest fst N) as [notin N'].
    rewrite (dict_get_app_notin _ _ _ notin). simpl.
    rewrite String.eqb_refl.
    destruct (W n rs (or_introl eq_refl)) as (q & u & V & U).
    unfold has_status. rewrite V. unfold verdict in V.
    destruct (dict_get "status" rs) as [[| | | | |q']|]; try discriminate.
    injection V as ->. rewrite U.
    assert (IH' := IH (pre ++ [(n, rs)])). rewrite <- app_assoc in IH'.
    simpl in IH'.
    destruct (QueryStatus_eqb (status q) CLAIMED).
    + rewrite IH';
        [|exact N'|intros n' rs' I'; apply (W n' rs'); now right].
      simpl. now rewrite Nat.add_succ_r, !append_assoc.
    + rewrite IH';
        [|exact N'|intros n' rs' I'; apply (W n' rs'); now right]. reflexivity.
Qed.

Lemma claimed_urls_length res : length (claimed_urls res) <= length res.
Proof.
  induction res as [|[n rs] res IH]; simpl; [lia|].
  rewrite length_app.
  destruct (has_status CLAIMED rs); simpl; [|lia].
  destruct (dict_get "url_user" rs) as [[]|]; simpl; lia.
Qed.

(** X20.  The report of a run.  For the results a run returns, writing the
    report raises nothing: the file holds the profile URL of each site
    whose verdict is [CLAIMED], one per line in the order of the
    catalogue, and then the line with their number, which is at most the
    number of sites. *)
Theorem report_lists_claimed_sites username site_data o res :
  NoDup (dict_keys site_data) ->
  value (sherlock username site_data o) = Ok res ->
  write_report res =
    Ok (lines (claimed_urls res)
        ++ "Total Websites Username Detected On : "
        ++ str_of_nat (length (claimed_urls res)))%string /\
  length (claimed_urls res) <= length site_data.
Proof.
  intros N R. apply (sherlock_entries _ _ _ _ N) in R.
  pose proof (entries_keys _ _ _ _ R) as K.
  split.
  - unfold write_report.
    pose proof (report_loop_items res [] 0 "") as L. simpl in L.
    rewrite L.
    + reflexivity.
    + now rewrite K.
    + intros n rs I.
      destruct (entries_origin _ _ _ _ _ _ R I) as (info & _ & S).
      destruct (site_entry_cases _ _ _ _ _ S)
        as [(-> & _)|(u & f & r & t & x & et & q & _ & _ & _ & _ & ->)].
      * exists (mkQueryResult ILLEGAL None), "". now split.
      * exists q, u. now split.
  - rewrite <- (length_map fst site_data). fold (dict_keys site_data).
    rewrite <- K. unfold dict_keys. rewrite length_map.
    apply claimed_urls_length.
Qed.

(* ================================================================== *)
(** ** More on the verdicts *)

(** X21.  [get_response].  It prints nothing; it raises only an exception
    that is not a [RequestException], which it lets through; otherwise it
    reports no error exactly for a response that has a status code, no
    response exactly when the future raised, and an exception text
    exactly when the future raised. *)
Theorem get_response_answers f :
  trace (get_response f) = [] /\
  (forall e,
     value (get_response f) = Err e <->
     exists c msg, future_result f = Raised c msg /\
                   isinstance c RequestException = false /\
                   e = Uncaught c msg) /\
  (forall r error_context expection_text,
     value (get_response f) = Ok (r, error_context, expection_text) ->
     (error_context = None <->
      exists resp, future_result f = Returned resp /\
                   status_code resp <> 0%Z) /\
     (r = None <-> exists c msg, future_result f = Raised c msg) /\
     (expection_text <> None <-> exists c msg, future_result f = Raised c msg)).
Proof.
  split; [|split].
  - unfold get_response. destruct (future_result f) as [resp|c msg].
    + now destruct (status_code resp =? 0)%Z.
    + now destruct (isinstance c HTTPError), (isinstance c ProxyError),
        (isinstance c ConnectionError), (isinstance c Timeout),
        (isinstance c RequestException).
  - intros e. unfold get_response.
    destruct (future_result f) as [resp|c msg].
    + split.
      * destruct (status_code resp =? 0)%Z; discriminate.
      * intros (c & msg & H & _). discriminate.
    + split.
      * destruct (isinstance c HTTPError), (isinstance c ProxyError),
          (isinstance c ConnectionError), (isinstance c Timeout);
          try discriminate.
        destruct (isinstance c RequestException) eqn:I; [discriminate|].
        simpl. intros H. injection H as <-. now exists c, msg.
      * intros (c' & msg' & H & I & ->). injection H as <- <-.
        destruct c; try discriminate. reflexivity.
  - intros r t x H.
    destruct (get_response_cases _ _ _ _ H)
      as [(resp & F & -> & -> & [[S ->]|[S ->]])|(c & msg & F & _ & -> & -> & ->)];
      rewrite F.
    + repeat split; try discriminate; try congruence.
      * intros _. now exists resp.
      * intros (c & msg & E). discriminate.
      * intros (c & msg & E). discriminate.
    + repeat split; try discriminate; try congruence.
      * intros (resp' & E & NZ). injection E as <-. contradiction.
      * intros (c & msg & E). discriminate.
      * intros (c & msg & E). discriminate.
    + repeat split; try discriminate; try congruence.
      * intros (resp' & E & _). discriminate.
      * intros _. now exists c, msg.
      * intros _. now exists c, msg.
Qed.

(** X22.  [status_code], exactly.  For a site whose [errorType] is
    [status_code] and whose request returns a response with status [s]:
    the verdict is [CLAIMED] when [s < 300], also for a status below 200,
    and [AVAILABLE] otherwise. *)
Theorem status_code_claimed_below_300 username site_data o n info f r :
  NoDup (dict_keys site_data) ->
  dict_get n site_data = Some info ->
  errorType info = Some "status_code" ->
  probe username o n info = Some f ->
  future_result f = Returned r ->
  status_code r <> 0%Z ->
  exists rs,
    site_entry username o n info = Ok rs /\
    verdict rs =
      Some (mkQueryResult
              (if (status_code r <? 300)%Z then CLAIMED else AVAILABLE) None) /\
    forall res, value (sherlock username site_data o) = Ok res ->
                dict_get n res = Some rs.
Proof.
  intros N G E P F S.
  destruct (site_entry_dispatched _ _ _ _ _ P) as (url_user & et & E' & SE).
  rewrite E in E'. injection E' as <-.
  rewrite (get_response_returned _ _ F S), classify_status_code in SE.
  eexists. split; [exact SE|]. split; [reflexivity|].
  now apply (recorded _ _ _ _ info).
Qed.

Lemma str_in_empty hay : str_in "" hay = true.
Proof. rewrite str_in_eq. now destruct hay. Qed.

(** X23.  An empty [errorMsg].  For a site whose [errorType] is [message]
    and whose [errorMsg] is the empty string, every returned response is
    recorded as [AVAILABLE], whatever its text. *)
Theorem empty_error_msg_is_always_available username site_data o n info f r :
  NoDup (dict_keys site_data) ->
  dict_get n site_data = Some info ->
  errorType info = Some "message" ->
  errorMsg info = Some "" ->
  probe username o n info = Some f ->
  future_result f = Returned r ->
  status_code r <> 0%Z ->
  exists rs,
    site_entry username o n info = Ok rs /\
    verdict rs = Some (mkQueryResult AVAILABLE None) /\
    forall res, value (sherlock username site_data o) = Ok res ->
                dict_get n res = Some rs.
Proof.
  intros N G E EM P F S.
  destruct (site_entry_dispatched _ _ _ _ _ P) as (url_user & et & E' & SE).
  rewrite E in E'. injection E' as <-.
  rewrite (get_response_returned _ _ F S) in SE.
  unfold classify in SE. simpl in SE. rewrite EM, str_in_empty in SE.
  simpl in SE. eexists. split; [exact SE|]. split; [reflexivity|].
  now apply (recorded _ _ _ _ info).
Qed.

(* ================================================================== *)
(** ** The session and the empty catalogue *)

(** X24.  The pool of worker threads.  It has as many workers as the
    catalogue has sites, at most 20.  On the empty catalogue the run prints
    its heading, makes no request and raises the [ValueError] of the pool;
    on any other catalogue the session is created, so a run that returns
    results had a site in its catalogue. *)
Theorem session_needs_a_site username site_data o :
  max_workers site_data = Nat.min 20 (length site_data) /\
  (site_data = [] ->
   sherlock username site_data o =
     (heading username o,
      Err (ValueError "max_workers must be greater than 0"))) /\
  (site_data <> [] ->
   new_session (max_workers site_data) = ret tt /\
   1 <= max_workers site_data <= 20) /\
  (forall res, value (sherlock username site_data o) = Ok res ->
               site_data <> []).
Proof.
  assert (W : max_workers site_data = Nat.min 20 (length site_data)).
  { unfold max_workers.
    destruct (Nat.leb 20 (length site_data)) eqn:L.
    - apply Nat.leb_le in L. lia.
    - apply Nat.leb_gt in L. lia. }
  split; [exact W|]. split; [|split].
  - intros ->. unfold sherlock, heading. now destruct (print_output o).
  - intros NE. split; [exact (new_session_nonempty _ NE)|].
    rewrite W. destruct site_data as [|x rest]; [congruence|].
    cbn [length]. lia.
  - intros res R ->. rewrite sherlock_empty in R. discriminate.
Qed.

(* ================================================================== *)
(** ** The console line of a failed request *)





End Sherlock.

(* ================================================================== *)
(** ** Failed requests *)

(** The second loop consults the transport only for the future stored in
    the site's entry of [site_data]. *)
Lemma collect_site_own_future str_encode (future_result future_result' :
    future -> outcome) o n info rs f :
  request_future info = Some f ->
  future_result' f = future_result f ->
  collect_site str_encode future_result' o n info rs =
  collect_site str_encode future_result o n info rs.
Proof.
  intros R H. unfold collect_site, get_response. rewrite R.
  cbn [getitem]. unfold bind at 2 4. cbn [value ret snd trace fst].
  now rewrite H.
Qed.

(** The entry of a site depends on the transport only through the outcome
    of the site's own request. *)
Lemma site_entry_own_future re_search str_format str_encode
    (future_result future_result' : future -> outcome) username o n info :
  (forall g, fut_site g = n -> future_result' g = future_result g) ->
  site_entry re_search str_format str_encode future_result' username o n info =
  site_entry re_search str_format str_encode future_result username o n info.
Proof.
  intros H. unfold site_entry.
  destruct (value (dispatch_site re_search str_format username o n info))
    as [[info' rs]|e] eqn:D; [|reflexivity].
  unfold finish_site.
  destruct (is_not_none (dict_get "status" rs)) eqn:S; [reflexivity|].
  destruct (dispatch_shape _ _ _ _ _ _ _ _ D) as [->|(url_user & f & -> & P)];
    [discriminate|].
  destruct (probe_dispatch _ _ _ _ _ _ _ P) as (url' & et & D' & _ & FS & _).
  rewrite D in D'. injection D' as -> _.
  now rewrite (collect_site_own_future str_encode future_result
                 future_result' o n (set_request_future info f) _ f
                 eq_refl (H f FS)).
Qed.

(** C6 (as amended).  For a site whose request raises a [RequestException]
    (a timeout, a connection or proxy error, an HTTP error, or any other):
    the site's entry has the verdict [UNKNOWN] carrying the category of the
    failure (fixed by the class of the exception) and nothing of its
    message, whatever the site's [errorType]; no status, text or time of a
    response is recorded; a returning run records that entry, and the
    entry of every site is the one its own processing yields; the entries
    of the other sites are the same whatever this site's request does; and
    the run returns whenever the processing of the other sites does. *)
Theorem transport_failure_unknown re_search str_format str_encode
    (future_result : future -> outcome) username site_data o n info f c msg :
  NoDup (dict_keys site_data) ->
  dict_get n site_data = Some info ->
  probe re_search str_format username o n info = Some f ->
  future_result f = Raised c msg ->
  isinstance c RequestException = true ->
  exists rs,
    site_entry re_search str_format str_encode future_result username o n info
      = Ok rs /\
    verdict rs = Some (mkQueryResult UNKNOWN (Some (error_context_of c))) /\
    dict_get "http_status" rs = Some (PyStr "?") /\
    dict_get "response_text" rs = Some (PyStr "") /\
    dict_get "response_time_s" rs = Some PyNone /\
    (forall res,
       value (sherlock re_search str_format str_encode future_result
                username site_data o) = Ok res ->
       dict_get n res = Some rs /\
       forall n' info', dict_get n' site_data = Some info' ->
         exists rs',
           site_entry re_search str_format str_encode future_result
             username o n' info' = Ok rs' /\
           dict_get n' res = Some rs') /\
    (forall future_result' n' info',
       (forall g, fut_site g <> n -> future_result' g = future_result g) ->
       n' <> n ->
       site_entry re_search str_format str_encode future_result'
         username o n' info' =
       site_entry re_search str_format str_encode future_result
         username o n' info') /\
    ((forall n' info', In (n', info') site_data -> n' <> n ->
        exists rs',
          site_entry re_search str_format str_encode future_result
            username o n' info' = Ok rs') ->
     exists res,
       value (sherlock re_search str_format str_encode future_result
                username site_data o) = Ok res).
Proof.
  intros N G P F I.
  destruct (site_entry_failed re_search str_format str_encode future_result
              username o n info f c msg P F I) as [url_user SE].
  eexists. split; [exact SE|]. repeat split.
  - eapply recorded; eassumption.
  - intros n' info' G'. eapply sherlock_entry; eassumption.
  - intros future_result' n' info' H ne. apply site_entry_own_future.
    intros g E. apply H. congruence.
  - intros H.
    apply sherlock_returns; [exact N | exact (dict_get_nonempty _ _ _ G) |].
    intros n' info' In'. destruct (String.eqb_spec n' n) as [->|ne].
    + apply (In_dict_get _ _ _ N) in In'. rewrite G in In'.
      injection In' as <-. eexists; exact SE.
    + now apply H.
Qed.

(* ================================================================== *)
(** ** Runs on concrete catalogues *)

Local Abbreviation run_with transport :=
  (sherlock Demo.re_search Demo.str_format Demo.str_encode transport).
Local Abbreviation entry_with transport :=
  (site_entry Demo.re_search Demo.str_format Demo.str_encode transport).

(** C1 as stated does not hold: on the catalogue with the one site
    [Example] ([errorType] [status_code]) and the username [alice], a
    response with status 200 is recorded as [CLAIMED], not [AVAILABLE], and
    a response with status 404 as [AVAILABLE], not [CLAIMED]. *)
Lemma status_code_200_is_claimed :
  run_status (run_with (Demo.answers 200 "") "alice" Demo.example Demo.quiet)
    "Example" = Some CLAIMED /\
  run_status (run_with (Demo.answers 200 "") "alice" Demo.example Demo.quiet)
    "Example" <> Some AVAILABLE /\
  run_status (run_with (Demo.answers 404 "") "alice" Demo.example Demo.quiet)
    "Example" = Some AVAILABLE /\
  run_status (run_with (Demo.answers 404 "") "alice" Demo.example Demo.quiet)
    "Example" <> Some CLAIMED.
Proof. repeat split; try reflexivity; discriminate. Qed.

Lemma status_code_verdict_witness :
  exists rs,
    entry_with (Demo.answers 200 "") "alice" Demo.quiet "Example"
      (Demo.site "https://ex.com/{}" "status_code") = Ok rs /\
    ((200 <= status_code (Demo.response 200 "") < 300)%Z ->
     verdict rs = Some (mkQueryResult CLAIMED None)) /\
    ((300 <= status_code (Demo.response 200 ""))%Z ->
     verdict rs = Some (mkQueryResult AVAILABLE None)) /\
    forall res,
      value (run_with (Demo.answers 200 "") "alice" Demo.example Demo.quiet)
        = Ok res ->
      dict_get "Example" res = Some rs.
Proof.
  eapply (status_code_verdict Demo.re_search Demo.str_format Demo.str_encode
            (Demo.answers 200 "") "alice" Demo.example Demo.quiet "Example").
  - apply distinct_NoDup; reflexivity.
  - reflexivity.
  - reflexivity.
  - reflexivity.
  - reflexivity.
  - discriminate.
Defined.

Lemma message_verdict_witness :
  exists rs,
    entry_with (Demo.answers 200 "Sorry. User not found here.") "alice"
      Demo.quiet "Forum"
      (Demo.with_error_msg "User not found"
         (Demo.site "https://forum.example/u/{}" "message")) = Ok rs /\
    (substring_of "User not found"
       (text (Demo.response 200 "Sorry. User not found here.")) ->
     verdict rs = Some (mkQueryResult AVAILABLE None)) /\
    (~ substring_of "User not found"
         (text (Demo.response 200 "Sorry. User not found here.")) ->
     verdict rs = Some (mkQueryResult CLAIMED None)) /\
    forall res,
      value (run_with (Demo.answers 200 "Sorry. User not found here.")
               "alice" Demo.forum Demo.quiet) = Ok res ->
      dict_get "Forum" res = Some rs.
Proof.
  eapply (message_verdict Demo.re_search Demo.str_format Demo.str_encode
            (Demo.answers 200 "Sorry. User not found here.")
            "alice" Demo.forum Demo.quiet "Forum").
  - apply distinct_NoDup; reflexivity.
  - reflexivity.
  - reflexivity.
  - reflexivity.
  - reflexivity.
  - reflexivity.
  - discriminate.
Defined.

Lemma response_url_verdict_witness :
  exists rs,
    entry_with (Demo.answers 404 "") "alice" Demo.quiet "Gallery"
      (Demo.site "https://gallery.example/{}" "response_url") = Ok rs /\
    ((200 <= status_code (Demo.response 404 "") < 300)%Z ->
     verdict rs = Some (mkQueryResult CLAIMED None)) /\
    (~ (200 <= status_code (Demo.response 404 "") < 300)%Z ->
     verdict rs = Some (mkQueryResult AVAILABLE None)) /\
    forall res,
      value (run_with (Demo.answers 404 "") "alice" Demo.gallery Demo.quiet)
        = Ok res ->
      dict_get "Gallery" res = Some rs.
Proof.
  eapply (response_url_verdict Demo.re_search Demo.str_format Demo.str_encode
            (Demo.answers 404 "") "alice" Demo.gallery Demo.quiet "Gallery").
  - apply distinct_NoDup; reflexivity.
  - reflexivity.
  - reflexivity.
  - reflexivity.
  - reflexivity.
  - discriminate.
Defined.

Lemma redirects_iff_response_url_witness :
  let f :=
    {| fut_site := "Gallery";
       fut_request :=
         {| req_method := GET; req_url := "https://gallery.example/alice";
            req_headers := [("User-Agent", user_agent)];
            req_proxies := None; req_allow_redirects := false;
            req_timeout := None |} |} in
  exists info et,
    In (fut_site f, info) Demo.three_sites /\
    errorType info = Some et /\
    (req_allow_redirects (fut_request f) = false <-> et = "response_url") /\
    (req_allow_redirects (fut_request f) = true <-> et <> "response_url").
Proof.
  apply (redirects_iff_response_url Demo.re_search Demo.str_format
           Demo.str_encode (Demo.answers 200 "") "alice" Demo.three_sites
           Demo.quiet).
  simpl. right; right; left; reflexivity.
Defined.

Lemma head_iff_status_code_witness :
  let f :=
    {| fut_site := "Example";
       fut_request :=
         {| req_method := HEAD; req_url := "https://ex.com/alice";
            req_headers := [("User-Agent", user_agent)];
            req_proxies := None; req_allow_redirects := true;
            req_timeout := None |} |} in
  exists info et,
    In (fut_site f, info) Demo.three_sites /\
    errorType info = Some et /\
    (req_method (fut_request f) = HEAD <-> et = "status_code") /\
    (req_method (fut_request f) = GET <-> et <> "status_code").
Proof.
  apply (head_iff_status_code Demo.re_search Demo.str_format
           Demo.str_encode (Demo.answers 200 "") "alice" Demo.three_sites
           Demo.quiet).
  simpl. left; reflexivity.
Defined.

(** C6 as stated does not hold for the message: two runs that differ only
    in the message of the [ReadTimeout] raised for [Example] return the
    same results, in which only the category appears. *)
Lemma transport_message_not_recorded :
  let expected :=
    Ok [("Example",
         [("url_main", PyStr "https://ex.com");
          ("url_user", PyStr "https://ex.com/alice");
          ("status", PyResult (mkQueryResult UNKNOWN (Some "Timeout Error")));
          ("http_status", PyStr "?");
          ("response_text", PyStr "");
          ("response_time_s", PyNone)])] in
  value (run_with (Demo.fails_for "Example" ReadTimeout "read timed out")
           "alice" Demo.example Demo.quiet) = expected /\
  value (run_with (Demo.fails_for "Example" ReadTimeout "pool is closed")
           "alice" Demo.example Demo.quiet) = expected /\
  "read timed out" <> "pool is closed".
Proof. repeat split; discriminate. Qed.

Lemma transport_failure_unknown_witness :
  let transport := Demo.fails_for "Forum" ConnectTimeout "timed out" in
  let entry := entry_with transport "alice" Demo.quiet in
  let run := run_with transport "alice" Demo.three_sites Demo.quiet in
  exists rs res,
    entry "Forum"
      (Demo.with_error_msg "User not found"
         (Demo.site "https://forum.example/u/{}" "message")) = Ok rs /\
    verdict rs = Some (mkQueryResult UNKNOWN (Some "Error Connecting")) /\
    dict_get "http_status" rs = Some (PyStr "?") /\
    dict_get "response_text" rs = Some (PyStr "") /\
    dict_get "response_time_s" rs = Some PyNone /\
    value run = Ok res /\
    dict_get "Forum" res = Some rs /\
    (forall n' info', dict_get n' Demo.three_sites = Some info' ->
       exists rs', entry n' info' = Ok rs' /\ dict_get n' res = Some rs') /\
    (forall future_result' n' info',
       (forall g, fut_site g <> "Forum" -> future_result' g = transport g) ->
       n' <> "Forum" ->
       entry_with future_result' "alice" Demo.quiet n' info' = entry n' info').
Proof.
  destruct (transport_failure_unknown Demo.re_search Demo.str_format
              Demo.str_encode
              (Demo.fails_for "Forum" ConnectTimeout "timed out")
              "alice" Demo.three_sites Demo.quiet "Forum"
              (Demo.with_error_msg "User not found"
                 (Demo.site "https://forum.example/u/{}" "message"))
              (mkFuture "Forum"
                 (mkRequest GET "https://forum.example/u/alice"
                    [("User-Agent", user_agent)] None true None))
              ConnectTimeout "timed out")
    as (rs & S & V & H1 & H2 & H3 & Rec & Own & Ret).
  - apply distinct_NoDup; reflexivity.
  - reflexivity.
  - reflexivity.
  - reflexivity.
  - reflexivity.
  - destruct Ret as [res R].
    + intros n' info' [E|[E|[E|[]]]] ne; injection E as <- <-;
        first [congruence | eexists; reflexivity].
    + destruct (Rec res R) as [G All].
      exists rs, res. repeat split; assumption.
Defined.

Lemma illegal_username_skipped_witness :
  let run := run_with (Demo.answers 200 "") "bob" Demo.picky Demo.quiet in
  (forall f, In (Submit f) (trace run) -> fut_site f <> "Picky") /\
  exists rs,
    entry_with (Demo.answers 200 "") "bob" Demo.quiet "Picky"
      (Demo.with_regex "alice" (Demo.site "https://picky.example/{}" "message"))
      = Ok rs /\
    verdict rs = Some (mkQueryResult ILLEGAL None) /\
    forall res, value run = Ok res -> dict_get "Picky" res = Some rs.
Proof.
  eapply (illegal_username_skipped Demo.re_search Demo.str_format
            Demo.str_encode (Demo.answers 200 "") "bob" Demo.picky Demo.quiet
            "Picky").
  - intros s. destruct s; reflexivity.
  - apply distinct_NoDup; reflexivity.
  - reflexivity.
  - reflexivity.
  - reflexivity.
Defined.


Lemma results_follow_catalog_witness :
  let transport := Demo.fails_for "Forum" ReadTimeout "read timed out" in
  let run := run_with transport "alice" Demo.three_sites Demo.quiet in
  exists res,
    value run = Ok res /\
    dict_keys res = ["Example"; "Forum"; "Gallery"] /\
    NoDup (dict_keys res).
Proof.
  destruct (results_follow_catalog Demo.re_search Demo.str_format
              Demo.str_encode
              (Demo.fails_for "Forum" ReadTimeout "read timed out")
              "alice" Demo.three_sites Demo.quiet) as [K R].
  - apply distinct_NoDup; reflexivity.
  - destruct R as [res E].
    + discriminate.
    + intros n info [E|[E|[E|[]]]]; injection E as <- <-; eexists;
        reflexivity.
    + exists res. split; [exact E | exact (K res E)].
Defined.

Lemma illegal_entry_fields_witness :
  let rs :=
    illegal_entry
      (Demo.with_regex "alice"
         (Demo.site "https://picky.example/{}" "message")) in
  dict_get "url_user" rs = Some (PyStr "") /\
  dict_get "http_status" rs = Some (PyStr "") /\
  dict_get "response_text" rs = Some (PyStr "") /\
  dict_get "response_time_s" rs = Some (PyStr "").
Proof.
  eapply (illegal_entry_fields Demo.re_search Demo.str_format Demo.str_encode
            (Demo.answers 200 "") "bob" Demo.picky Demo.quiet _ "Picky").
  - apply distinct_NoDup; reflexivity.
  - reflexivity.
  - reflexivity.
  - reflexivity.
  - reflexivity.
Defined.

(** Further runs: a status below 200 under [status_code], and the category
    reported for each class of exception (the first matching [except]
    clause of [get_response] decides). *)
Example status_code_100_is_claimed :
  run_status (run_with (Demo.answers 100 "") "alice" Demo.example Demo.quiet)
    "Example" = Some CLAIMED.
Proof. reflexivity. Qed.

Example error_categories :
  map error_context_of
    [HTTPError; ProxyError; SSLError; ConnectionError; ConnectTimeout;
     ReadTimeout; Timeout; TooManyRedirects; InvalidURL; RequestException] =
  ["HTTP Error"; "Proxy Error"; "Error Connecting"; "Error Connecting";
   "Error Connecting"; "Timeout Error"; "Timeout Error"; "Unknown Error";
   "Unknown Error"; "Unknown Error"].
Proof. reflexivity. Qed.

Example other_exception_propagates :
  value (run_with (Demo.fails_for "Example" OtherException "cancelled")
           "alice" Demo.example Demo.quiet) =
  Err (Uncaught OtherException "cancelled").
Proof. reflexivity. Qed.

(* ================================================================== *)
(** ** More runs on concrete catalogues *)

Lemma console_lines_allowed_witness :
  print_output Demo.loud = true /\ print_found_only Demo.loud = false.
Proof.
  apply (console_lines_allowed Demo.re_search Demo.str_format Demo.str_encode
           (Demo.answers 404 "") "alice" Demo.example Demo.loud
           (print_not_found "Example" (PyFloat (1 # 4)) false false)).
  simpl. right; right; left; reflexivity.
Defined.

Lemma one_request_per_probed_site_witness :
  let run := run_with (Demo.answers 200 "") "bob" Demo.picky Demo.quiet in
  NoDup (requested (trace run)) /\
  forall res, value run = Ok res -> requested (trace run) = probed_sites res.
Proof.
  apply (one_request_per_probed_site Demo.re_search Demo.str_format
           Demo.str_encode (Demo.answers 200 "") "bob" Demo.picky Demo.quiet).
  apply distinct_NoDup; reflexivity.
Defined.

Lemma entries_are_complete_witness :
  let run := run_with (Demo.answers 200 "") "bob" Demo.picky Demo.quiet in
  exists res rs,
    value run = Ok res /\ dict_get "Picky" res = Some rs /\
    exists q url_user,
      verdict rs = Some q /\
      dict_get "url_user" rs = Some (PyStr url_user) /\
      dict_keys rs =
        if is_illegal rs
        then ["url_main"; "status"; "url_user"; "http_status";
              "response_text"; "response_time_s"]
        else ["url_main"; "url_user"; "status"; "http_status";
              "response_text"; "response_time_s"].
Proof.
  eexists. eexists. split; [reflexivity|]. split; [reflexivity|].
  eapply (entries_are_complete Demo.re_search Demo.str_format Demo.str_encode
            (Demo.answers 200 "") "bob" Demo.picky Demo.quiet _ "Picky").
  - apply distinct_NoDup; reflexivity.
  - reflexivity.
  - reflexivity.
Defined.

Lemma unknown_only_for_failed_requests_witness :
  let transport := Demo.fails_for "Forum" ReadTimeout "read timed out" in
  let run := run_with transport "alice" Demo.three_sites Demo.quiet in
  exists res rs q,
    value run = Ok res /\ dict_get "Forum" res = Some rs /\
    verdict rs = Some q /\ status q = UNKNOWN /\
    exists f,
      probe Demo.re_search Demo.str_format "alice" Demo.quiet "Forum"
        (Demo.with_error_msg "User not found"
           (Demo.site "https://forum.example/u/{}" "message")) = Some f /\
      ((exists c msg,
          transport f = Raised c msg /\
          isinstance c RequestException = true /\
          context q = Some (error_context_of c) /\
          dict_get "http_status" rs = Some (PyStr "?")) \/
       (exists resp,
          transport f = Returned resp /\ status_code resp = 0%Z /\
          context q = Some "General Unknown Error" /\
          dict_get "http_status" rs = Some (PyInt 0))).
Proof.
  eexists. eexists. eexists.
  split; [reflexivity|]. split; [reflexivity|]. split; [reflexivity|].
  split; [reflexivity|].
  eapply (unknown_only_for_failed_requests Demo.re_search Demo.str_format
            Demo.str_encode
            (Demo.fails_for "Forum" ReadTimeout "read timed out")
            "alice" Demo.three_sites Demo.quiet _ "Forum").
  - apply distinct_NoDup; reflexivity.
  - reflexivity.
  - reflexivity.
  - reflexivity.
  - reflexivity.
  - reflexivity.
Defined.

Lemma console_order_witness :
  let run := run_with (Demo.answers 200 "") "bob" Demo.picky Demo.loud in
  exists res,
    value run = Ok res /\
    announced (trace run) =
      dict_keys (filter (fun e => is_illegal (snd e) && shown Demo.loud (snd e))
                   res) ++
      dict_keys (filter (fun e => negb (is_illegal (snd e))
                                  && shown Demo.loud (snd e)) res).
Proof.
  eexists. split; [reflexivity|].
  apply (console_order Demo.re_search Demo.str_format Demo.str_encode
           (Demo.answers 200 "") "bob" Demo.picky Demo.loud).
  - apply distinct_NoDup; reflexivity.
  - reflexivity.
Defined.

Lemma found_lines_are_claimed_sites_witness :
  let run := run_with (Demo.answers 200 "") "alice" Demo.three_sites
               Demo.loud in
  exists res,
    value run = Ok res /\
    found_lines (trace run) =
      flat_map (fun e => found_line Demo.loud (fst e) (snd e)) res.
Proof.
  eexists. split; [reflexivity|].
  apply (found_lines_are_claimed_sites Demo.re_search Demo.str_format
           Demo.str_encode (Demo.answers 200 "") "alice" Demo.three_sites
           Demo.loud).
  - apply distinct_NoDup; reflexivity.
  - reflexivity.
Defined.

Lemma requests_carry_headers_witness :
  let f :=
    {| fut_site := "Api";
       fut_request :=
         {| req_method := HEAD; req_url := "https://api.example/users/alice";
            req_headers :=
              [("User-Agent", user_agent); ("Accept", "application/json")];
            req_proxies := None; req_allow_redirects := true;
            req_timeout := None |} |} in
  exists info,
    In (fut_site f, info) Demo.api /\
    (exists ua,
       dict_get "User-Agent" (req_headers (fut_request f)) = Some ua) /\
    ((forall extra, headers info = Some extra ->
                    ~ In "User-Agent" (dict_keys extra)) ->
     dict_get "User-Agent" (req_headers (fut_request f)) = Some user_agent) /\
    (forall extra k v,
       headers info = Some extra -> NoDup (dict_keys extra) ->
       dict_get k extra = Some v ->
       dict_get k (req_headers (fut_request f)) = Some v) /\
    req_proxies (fut_request f) =
      option_map (fun p => [("http", p); ("https", p)]) (proxy Demo.quiet) /\
    req_timeout (fut_request f) = timeout Demo.quiet.
Proof.
  apply (requests_carry_headers Demo.re_search Demo.str_format
           Demo.str_encode (Demo.answers 200 "") "alice" Demo.api Demo.quiet).
  simpl. left; reflexivity.
Defined.

Lemma probe_url_is_not_reported_witness :
  let run := run_with (Demo.answers 200 "") "alice" Demo.api Demo.quiet in
  exists res rs,
    value run = Ok res /\ dict_get "Api" res = Some rs /\
    is_illegal rs = false /\
    exists template url_user f,
      url Demo.api_site = Some template /\
      Demo.str_format template "alice" = Ok url_user /\
      dict_get "url_user" rs = Some (PyStr url_user) /\
      In (Submit f) (trace run) /\
      fut_site f = "Api" /\
      match urlProbe Demo.api_site with
      | Some p => Demo.str_format p "alice" = Ok (req_url (fut_request f))
      | None => req_url (fut_request f) = url_user
      end.
Proof.
  eexists. eexists. split; [reflexivity|]. split; [reflexivity|].
  split; [reflexivity|].
  eapply (probe_url_is_not_reported Demo.re_search Demo.str_format
            Demo.str_encode (Demo.answers 200 "") "alice" Demo.api Demo.quiet
            _ "Api" Demo.api_site).
  - apply distinct_NoDup; reflexivity.
  - reflexivity.
  - reflexivity.
  - reflexivity.
  - reflexivity.
Defined.

Lemma missing_key_aborts_witness :
  let info := Demo.without_url (Demo.site "" "status_code") in
  let run := run_with (Demo.answers 200 "") "alice" Demo.incomplete
               Demo.quiet in
  entry_with (Demo.answers 200 "") "alice" Demo.quiet "NoUrl" info =
    Err (KeyError "url") /\
  value run = Err (KeyError "url") /\
  (forall f, In (Submit f) (trace run) -> fut_site f <> "NoUrl").
Proof.
  destruct (missing_key_aborts Demo.re_search Demo.str_format Demo.str_encode
              (Demo.answers 200 "") "alice" Demo.incomplete Demo.quiet "NoUrl"
              (Demo.without_url (Demo.site "" "status_code")))
    as (e & S & K & _ & _ & R & F).
  - apply distinct_NoDup; reflexivity.
  - reflexivity.
  - reflexivity.
  - left; reflexivity.
  - rewrite (K eq_refl) in S, R. split; [exact S|]. split; [|exact F].
    apply R. intros n' info' [E|[E|[]]] ne; injection E as <- <-.
    + eexists; reflexivity.
    + congruence.
Defined.

Lemma message_without_error_msg_witness :
  entry_with (Demo.answers 200 "hello") "alice" Demo.quiet "Mute"
    (Demo.without_error_msg (Demo.site "https://mute.example/{}" "message")) =
    Err (TypeError
           "'in <string>' requires string as left operand, not NoneType") /\
  value (run_with (Demo.answers 200 "hello") "alice" Demo.mute Demo.quiet) =
    Err (TypeError
           "'in <string>' requires string as left operand, not NoneType").
Proof.
  destruct (message_without_error_msg Demo.re_search Demo.str_format
              Demo.str_encode (Demo.answers 200 "hello") "alice" Demo.mute
              Demo.quiet "Mute"
              (Demo.without_error_msg
                 (Demo.site "https://mute.example/{}" "message"))
              (mkFuture "Mute"
                 (mkRequest GET "https://mute.example/alice"
                    [("User-Agent", user_agent)] None true None))
              (Demo.response 200 "hello"))
    as (S & _ & R).
  - apply distinct_NoDup; reflexivity.
  - reflexivity.
  - reflexivity.
  - reflexivity.
  - reflexivity.
  - reflexivity.
  - discriminate.
  - split; [exact S|].
    apply R. intros n' info' [E|[E|[]]] ne; injection E as <- <-.
    + eexists; reflexivity.
    + congruence.
Defined.

Lemma runs_ignore_stored_futures_witness :
  exists site_data',
    site_data_after Demo.re_search Demo.str_format "alice" Demo.three_sites
      Demo.quiet = Ok site_data' /\
    run_with (Demo.answers 404 "") "bob" site_data' Demo.loud =
    run_with (Demo.answers 404 "") "bob" Demo.three_sites Demo.loud.
Proof.
  eexists. split; [reflexivity|].
  apply (runs_ignore_stored_futures Demo.re_search Demo.str_format
           Demo.str_encode (Demo.answers 404 "") "alice" Demo.quiet "bob"
           Demo.loud Demo.three_sites).
  - apply distinct_NoDup; reflexivity.
  - reflexivity.
Defined.

Lemma ranking_permutes_the_catalogue_witness :
  let maxsize := 9223372036854775807%Z in
  Permutation (rank_sites (fun v => v) maxsize Demo.ranks)
    (map (fun e => (fst e, Some (snd e))) Demo.ranks) /\
  StronglySorted
    (fun a b => tuple_le (rank_key (fun v => v) maxsize Demo.ranks a)
                  (rank_key (fun v => v) maxsize Demo.ranks b) = true)
    (dict_keys (rank_sites (fun v => v) maxsize Demo.ranks)).
Proof.
  apply (ranking_permutes_the_catalogue (fun v : option Z => v)
           9223372036854775807%Z Demo.ranks).
  apply distinct_NoDup; reflexivity.
Defined.

Lemma sites_named_rank_come_first_witness :
  exists front back,
    dict_keys (rank_sites (fun v => v) 9223372036854775807%Z Demo.ranks) =
      front ++ back /\
    Forall (fun k => str_in "rank" k = true) front /\
    Forall (fun k => str_in "rank" k = false) back.
Proof.
  apply (sites_named_rank_come_first (fun v : option Z => v)
           9223372036854775807%Z Demo.ranks).
  apply distinct_NoDup; reflexivity.
Defined.

Lemma report_lists_claimed_sites_witness :
  let run := run_with (Demo.answers 200 "") "alice" Demo.three_sites
               Demo.quiet in
  exists res,
    value run = Ok res /\
    write_report res =
      Ok (lines (claimed_urls res)
          ++ "Total Websites Username Detected On : "
          ++ str_of_nat (length (claimed_urls res)))%string /\
    length (claimed_urls res) <= length Demo.three_sites.
Proof.
  eexists. split; [reflexivity|].
  apply (report_lists_claimed_sites Demo.re_search Demo.str_format
           Demo.str_encode (Demo.answers 200 "") "alice" Demo.three_sites
           Demo.quiet).
  - apply distinct_NoDup; reflexivity.
  - reflexivity.
Defined.

Lemma status_code_claimed_below_300_witness :
  exists rs,
    entry_with (Demo.answers 100 "") "alice" Demo.quiet "Example"
      (Demo.site "https://ex.com/{}" "status_code") = Ok rs /\
    verdict rs =
      Some (mkQueryResult
              (if (status_code (Demo.response 100 "") <? 300)%Z
               then CLAIMED else AVAILABLE) None) /\
    forall res,
      value (run_with (Demo.answers 100 "") "alice" Demo.example Demo.quiet)
        = Ok res ->
      dict_get "Example" res = Some rs.
Proof.
  eapply (status_code_claimed_below_300 Demo.re_search Demo.str_format
            Demo.str_encode (Demo.answers 100 "") "alice" Demo.example
            Demo.quiet "Example").
  - apply distinct_NoDup; reflexivity.
  - reflexivity.
  - reflexivity.
  - reflexivity.
  - reflexivity.
  - discriminate.
Defined.

Lemma empty_error_msg_is_always_available_witness :
  exists rs,
    entry_with (Demo.answers 200 "<html>alice</html>") "alice" Demo.quiet
      "Blank"
      (Demo.with_error_msg "" (Demo.site "https://blank.example/{}" "message"))
      = Ok rs /\
    verdict rs = Some (mkQueryResult AVAILABLE None) /\
    forall res,
      value (run_with (Demo.answers 200 "<html>alice</html>") "alice"
               Demo.blank Demo.quiet) = Ok res ->
      dict_get "Blank" res = Some rs.
Proof.
  eapply (empty_error_msg_is_always_available Demo.re_search Demo.str_format
            Demo.str_encode (Demo.answers 200 "<html>alice</html>") "alice"
            Demo.blank Demo.quiet "Blank").
  - apply distinct_NoDup; reflexivity.
  - reflexivity.
  - reflexivity.
  - reflexivity.
  - reflexivity.
  - reflexivity.
  - discriminate.
Defined.

(** The choice of sites, the ranking, the report and the hooks on small
    inputs. *)
Example unknown_name_after_known_is_dropped :
  select_sites Demo.lower (Some ["github"; "Nope"])
    [("Twitter", 1); ("GitHub", 2); ("github", 3); ("Reddit", 4)] =
  inr [("GitHub", 2); ("github", 3)].
Proof. reflexivity. Qed.

Example unknown_name_first_is_refused :
  select_sites Demo.lower (Some ["Nope"; "github"])
    [("Twitter", 1); ("GitHub", 2); ("github", 3); ("Reddit", 4)] =
  inl "Error: Desired sites not found: 'Nope'.".
Proof. reflexivity. Qed.

Example ranking_of_four_sites :
  dict_keys (rank_sites (fun v => v) 9223372036854775807%Z Demo.ranks) =
  ["Pranks"; "Gallery"; "Forum"; "Example"].
Proof. reflexivity. Qed.

Example report_of_three_sites :
  match value (run_with (Demo.answers 200 "") "alice" Demo.three_sites
                 Demo.quiet) with
  | Ok res => write_report res
  | Err e => Err e
  end =
  Ok ("https://ex.com/alice" ++ newline ++
      "https://forum.example/u/alice" ++ newline ++
      "https://gallery.example/alice" ++ newline ++
      "Total Websites Username Detected On : 3")%string.
Proof. reflexivity. Qed.

Example third_call_hands_on_three_hooks :
  response_hooks
    (fst (session_request (3 # 1) None (default_after [1 # 1; 2 # 1]%Q))) =
  [response_time (3 # 1); response_time (2 # 1); response_time (1 # 1)].
Proof. reflexivity. Qed.


Example empty_catalogue_raises :
  run_with (Demo.answers 200 "") "alice" [] Demo.loud =
  ([Console (print_info "Checking username" "alice" false)],
   Err (ValueError "max_workers must be greater than 0")).
Proof. reflexivity. Qed.
